(** * build_examples: the examples plugin of the Cantera website

    A shallow embedding of [plugins/build_examples.py] (class
    [BuildExamples], methods [set_site] and [gen_tasks]) and theorems about
    summary extraction, inline image embedding, natural ordering of the
    file lists, the generated tasks and their change-detection values.

    Text is modelled as [string], a sequence of 8-bit code units.  Character
    classes (white space, digits, letter case) are those of Python's [str] on
    ASCII; units above 127 are carried through unchanged.  Collaborators that
    live outside the plugin (the file system, [ast], [json], [lxml],
    [base64], [mimetypes], Nikola's site object) are fields of a [World]
    record; [natsort] and the two regular expressions of the plugin are
    modelled by their documented behaviour. *)

From Stdlib Require Import String Ascii List Bool Arith NArith Lia.
From Stdlib Require Import Permutation Sorted.
Import ListNotations.

Open Scope string_scope.
Open Scope list_scope.

Infix "+++" := String.append (right associativity, at level 60).

(** ** Exceptions and results *)

Inductive exn : Type :=
| NameError (name : string)
| UnboundLocalError (name : string)
| KeyError (key : string)
| IndexError
| ValueError
| TypeError
| OSError (path : string)
| SyntaxError
| ParserError
| ReError
| JSONDecodeError.

Inductive result (A : Type) : Type :=
| Ok (a : A)
| Raise (e : exn).
Arguments Ok {A} a.
Arguments Raise {A} e.

Definition rbind {A B} (r : result A) (f : A -> result B) : result B :=
  match r with
  | Ok a => f a
  | Raise e => Raise e
  end.

Notation "x <-- r ;; k" := (rbind r (fun x => k))
  (at level 61, r at next level, right associativity).

Definition is_ok {A} (r : result A) : bool :=
  match r with Ok _ => true | Raise _ => false end.

(** ** Python's [str] methods used by the plugin *)

Module PyStr.

Definition nl : string := String (ascii_of_nat 10) EmptyString.

(** [str.isspace] on ASCII: tab .. carriage return, the four separators
    28 .. 31 and the space. *)
Definition isspace (c : ascii) : bool :=
  let n := nat_of_ascii c in
  (Nat.leb 9 n && Nat.leb n 13) || (Nat.leb 28 n && Nat.leb n 32).

Definition isdigit (c : ascii) : bool :=
  let n := nat_of_ascii c in Nat.leb 48 n && Nat.leb n 57.

Definition lower_char (c : ascii) : ascii :=
  let n := nat_of_ascii c in
  if Nat.leb 65 n && Nat.leb n 90 then ascii_of_nat (n + 32) else c.

Fixpoint lower (s : string) : string :=
  match s with
  | EmptyString => EmptyString
  | String c r => String (lower_char c) (lower r)
  end.

Fixpoint mem_char (c : ascii) (chars : string) : bool :=
  match chars with
  | EmptyString => false
  | String d r => Ascii.eqb c d || mem_char c r
  end.

Fixpoint lstrip_with (p : ascii -> bool) (s : string) : string :=
  match s with
  | EmptyString => EmptyString
  | String c r => if p c then lstrip_with p r else s
  end.

Fixpoint rstrip_with (p : ascii -> bool) (s : string) : string :=
  match s with
  | EmptyString => EmptyString
  | String c r =>
      match rstrip_with p r with
      | EmptyString => if p c then EmptyString else String c EmptyString
      | r' => String c r'
      end
  end.

(** [s.strip()] and [s.strip(chars)]. *)
Definition strip (s : string) : string :=
  rstrip_with isspace (lstrip_with isspace s).

Definition strip_chars (chars s : string) : string :=
  rstrip_with (fun c => mem_char c chars) (lstrip_with (fun c => mem_char c chars) s).

Definition startswith (s p : string) : bool := String.prefix p s.

Fixpoint rev_acc (s acc : string) : string :=
  match s with
  | EmptyString => acc
  | String c r => rev_acc r (String c acc)
  end.

Definition rev (s : string) : string := rev_acc s EmptyString.

Definition endswith (s p : string) : bool := String.prefix (rev p) (rev s).

(** [sub in s]. *)
Fixpoint contains (sub s : string) : bool :=
  String.prefix sub s
  || match s with
     | EmptyString => false
     | String _ r => contains sub r
     end.

(** [s.replace(old, new)] for a one-character [old], the only form the
    plugin uses. *)
Fixpoint replace_char (old : ascii) (new s : string) : string :=
  match s with
  | EmptyString => EmptyString
  | String c r =>
      if Ascii.eqb c old then new +++ replace_char old new r
      else String c (replace_char old new r)
  end.

(** [s.split(sep)[0]] for a non-empty [sep]: the text before the first
    occurrence of [sep], or all of [s]. *)
Fixpoint split_first (sep s : string) : string :=
  if String.prefix sep s then EmptyString
  else match s with
       | EmptyString => EmptyString
       | String c r => String c (split_first sep r)
       end.

(** [s.split(sep, 1)[1]] for a one-character [sep]: the text after the
    first occurrence; [IndexError] when [sep] does not occur. *)
Fixpoint split1_second (sep : ascii) (s : string) : result string :=
  match s with
  | EmptyString => Raise IndexError
  | String c r => if Ascii.eqb c sep then Ok r else split1_second sep r
  end.

(** [s.split(sep)] for a one-character [sep]. *)
Fixpoint split_char (sep : ascii) (s : string) : list string :=
  match s with
  | EmptyString => [EmptyString]
  | String c r =>
      if Ascii.eqb c sep then EmptyString :: split_char sep r
      else match split_char sep r with
           | [] => [String c EmptyString]
           | x :: xs => String c x :: xs
           end
  end.

(** [s[n:]]. *)
Fixpoint drop (n : nat) (s : string) : string :=
  match n, s with
  | O, _ => s
  | S _, EmptyString => EmptyString
  | S m, String _ r => drop m r
  end.

(** The lines a text file yields when iterated: each ends after its
    newline, and no empty line follows the last newline. *)
Fixpoint lines_acc (s cur : string) : list string :=
  match s with
  | EmptyString =>
      match cur with
      | EmptyString => []
      | _ => [rev cur]
      end
  | String c r =>
      if Ascii.eqb c (ascii_of_nat 10)
      then rev (String c cur) :: lines_acc r EmptyString
      else lines_acc r (String c cur)
  end.

Definition lines (s : string) : list string := lines_acc s EmptyString.

Definition is_empty (s : string) : bool :=
  match s with EmptyString => true | _ => false end.

(** [s[:n]]. *)
Fixpoint take (n : nat) (s : string) : string :=
  match n, s with
  | O, _ => EmptyString
  | S _, EmptyString => EmptyString
  | S m, String c r => String c (take m r)
  end.

(** [s.find(sub)]: index of the first occurrence. *)
Fixpoint find (sub s : string) : option nat :=
  if String.prefix sub s then Some 0
  else match s with
       | EmptyString => None
       | String _ r => option_map S (find sub r)
       end.

(** [s.rfind(sub)]: index of the last occurrence. *)
Fixpoint rfind (sub s : string) : option nat :=
  match s with
  | EmptyString => if String.prefix sub s then Some 0 else None
  | String _ r =>
      match rfind sub r with
      | Some i => Some (S i)
      | None => if String.prefix sub s then Some 0 else None
      end
  end.

(** The double quote and the backslash, as one-character texts. *)
Definition dq : string := String (ascii_of_nat 34) EmptyString.
Definition backslash : string := String (ascii_of_nat 92) EmptyString.

Fixpoint mem (x : string) (l : list string) : bool :=
  match l with
  | [] => false
  | y :: r => String.eqb x y || mem x r
  end.


End PyStr.

(** ** Dictionaries with insertion order (Python [dict], [OrderedDict]) *)

Fixpoint dict_get {V : Type} (k : string) (d : list (string * V)) : option V :=
  match d with
  | [] => None
  | (k', v) :: r => if String.eqb k k' then Some v else dict_get k r
  end.

(** [d[k] = v]: an existing key keeps its position, a new one goes last. *)
Fixpoint dict_set {V : Type} (k : string) (v : V) (d : list (string * V))
  : list (string * V) :=
  match d with
  | [] => [(k, v)]
  | (k', v') :: r =>
      if String.eqb k k' then (k', v) :: r else (k', v') :: dict_set k v r
  end.

(** [d[k]], raising [KeyError]. *)
Definition dict_item {V : Type} (k : string) (d : list (string * V)) : result V :=
  match dict_get k d with
  | Some v => Ok v
  | None => Raise (KeyError k)
  end.

(** ** [pathlib] and [os.path] on POSIX *)

Module PyPath.

(** A pure path: its root ([""], ["/"] or ["//"]) and its components. *)
Record PurePath : Type := mkPath { p_root : string; p_parts : list string }.

(** [splitroot]: exactly two leading slashes make the root ["//"], one or
    three and more make it ["/"]. *)
Definition root_of (s : string) : string :=
  match s with
  | String "/" (String "/" (String "/" _)) => "/"
  | String "/" (String "/" _) => "//"
  | String "/" _ => "/"
  | _ => ""
  end.

Definition keep_part (s : string) : bool :=
  negb (String.eqb s "" || String.eqb s ".").

(** [Path(s)]: empty and ["."] components are dropped. *)
Definition of_str (s : string) : PurePath :=
  mkPath (root_of s) (filter keep_part (PyStr.split_char "/" s)).

(** [p / q]: a rooted right operand replaces the left one. *)
Definition join (p q : PurePath) : PurePath :=
  if PyStr.is_empty (p_root q) then mkPath (p_root p) (p_parts p ++ p_parts q)
  else q.

(** [p.joinpath(a1, ..., an)] with text arguments. *)
Definition joinpath (p : PurePath) (args : list string) : PurePath :=
  fold_left (fun acc a => join acc (of_str a)) args p.

(** [str(p)]. *)
Definition to_str (p : PurePath) : string :=
  match p_root p, p_parts p with
  | EmptyString, [] => "."
  | r, ps => r +++ String.concat "/" ps
  end.

(** [p.name]. *)
Definition name (p : PurePath) : string := last (p_parts p) "".

(** [p.parent]. *)
Definition parent (p : PurePath) : PurePath :=
  mkPath (p_root p) (removelast (p_parts p)).

(** The index [i] of the last dot of a name when [0 < i < len(name) - 1]. *)
Definition suffix_index (nm : string) : option nat :=
  match PyStr.rfind "." nm with
  | Some i => if Nat.ltb 0 i && Nat.ltb i (String.length nm - 1) then Some i else None
  | None => None
  end.

(** [p.suffix] and [p.stem]. *)
Definition suffix (p : PurePath) : string :=
  match suffix_index (name p) with
  | Some i => PyStr.drop i (name p)
  | None => ""
  end.

Definition stem (p : PurePath) : string :=
  match suffix_index (name p) with
  | Some i => PyStr.take i (name p)
  | None => name p
  end.

(** [p.with_suffix(sfx).name] for a well-formed [sfx]; [ValueError] on a
    path with an empty name. *)
Definition with_suffix_name (p : PurePath) (sfx : string) : result string :=
  let nm := name p in
  if PyStr.is_empty nm then Raise ValueError
  else
    let old_suffix := suffix p in
    if PyStr.is_empty old_suffix then Ok (nm +++ sfx)
    else Ok (PyStr.take (String.length nm - String.length old_suffix) nm +++ sfx).

(** An entry of [p.iterdir()]. *)
Definition child (p : PurePath) (entry : string) : PurePath :=
  mkPath (p_root p) (p_parts p ++ [entry]).

(** [os.path.join(a, b)] of [posixpath]. *)
Definition os_join (a b : string) : string :=
  if PyStr.startswith b "/" then b
  else if PyStr.is_empty a || PyStr.endswith a "/" then a +++ b
  else a +++ "/" +++ b.

End PyPath.

(** ** [natsort.natsorted(..., alg=natsort.IC)]

    The default algorithm with [IGNORECASE]: the text is case-folded and cut
    into maximal runs of decimal digits, read as integers, and runs of other
    characters; a key that would start with a number gets an empty text in
    front.  Keys are compared as tuples and the sort is stable.  A [Path]
    element is keyed by its text. *)

Module Natsort.

Inductive chunk : Type :=
| CText (s : string)
| CNum (n : N).

Inductive run : Type :=
| RText (rev_text : string)
| RNum (value : N).

Definition close (r : option run) : list chunk :=
  match r with
  | None => []
  | Some (RText t) => [CText (PyStr.rev t)]
  | Some (RNum n) => [CNum n]
  end.

Fixpoint split_runs (s : string) (cur : option run) : list chunk :=
  match s with
  | EmptyString => close cur
  | String c r =>
      if PyStr.isdigit c then
        let d := N.of_nat (nat_of_ascii c - 48) in
        match cur with
        | Some (RNum n) => split_runs r (Some (RNum (10 * n + d)))
        | _ => close cur ++ split_runs r (Some (RNum d))
        end
      else
        match cur with
        | Some (RText t) => split_runs r (Some (RText (String c t)))
        | _ => close cur ++ split_runs r (Some (RText (String c EmptyString)))
        end
  end.

Definition key (s : string) : list chunk :=
  match split_runs (PyStr.lower s) None with
  | CNum n :: rest => CText "" :: CNum n :: rest
  | k => k
  end.

Definition chunk_compare (a b : chunk) : comparison :=
  match a, b with
  | CText x, CText y => String.compare x y
  | CNum x, CNum y => N.compare x y
  | CText _, CNum _ => Lt
  | CNum _, CText _ => Gt
  end.

Fixpoint key_compare (a b : list chunk) : comparison :=
  match a, b with
  | [], [] => Eq
  | [], _ :: _ => Lt
  | _ :: _, [] => Gt
  | x :: a', y :: b' =>
      match chunk_compare x y with
      | Eq => key_compare a' b'
      | c => c
      end
  end.

(** [key(s) <= key(t)]. *)
Definition le (s t : string) : bool :=
  match key_compare (key s) (key t) with
  | Gt => false
  | _ => true
  end.

Fixpoint insert (x : string) (l : list string) : list string :=
  match l with
  | [] => [x]
  | y :: r => if le x y then x :: l else y :: insert x r
  end.

Definition natsorted (l : list string) : list string := fold_right insert [] l.

End Natsort.

(** ** The two regular expressions of the plugin

    [<img.*/>] is greedy: from an opening [<img] it runs to the last [/>]
    before the next newline.  [!\[(.*?)\]\((.*?)\)] is lazy: from [!\[] to
    the first [\](] and on to the first [)], all on one line.  Each matcher
    returns the length of the match that starts at the head of the text. *)

Module Re.

Definition img_tag_match (s : string) : option nat :=
  if String.prefix "<img" s then
    match PyStr.rfind "/>" (PyStr.split_first PyStr.nl (PyStr.drop 4 s)) with
    | Some j => Some (4 + j + 2)
    | None => None
    end
  else None.

Definition md_image_match (s : string) : option (nat * (string * string)) :=
  if String.prefix "![" s then
    let body := PyStr.drop 2 s in
    match PyStr.find "](" (PyStr.split_first PyStr.nl body) with
    | Some j =>
        let rest := PyStr.drop (j + 2) body in
        match PyStr.find ")" (PyStr.split_first PyStr.nl rest) with
        | Some k => Some (2 + j + 2 + k + 1, (PyStr.take j body, PyStr.take k rest))
        | None => None
        end
    | None => None
    end
  else None.

(** [re.findall(r"!\[(.*?)\]\((.*?)\)", s)[0]]: the groups of the leftmost
    match, [IndexError] when there is none. *)
Fixpoint md_image_first (s : string) : result (string * string) :=
  match md_image_match s with
  | Some (_, g) => Ok g
  | None =>
      match s with
      | EmptyString => Raise IndexError
      | String _ r => md_image_first r
      end
  end.

(** Left-to-right replacement of the non-overlapping matches; [skip] counts
    the characters of the current match still to be dropped. *)
Fixpoint scan (m : string -> option nat) (repl : string -> string)
  (skip : nat) (s : string) : string :=
  match s with
  | EmptyString => EmptyString
  | String c r =>
      match skip with
      | S k => scan m repl k r
      | O =>
          match m s with
          | Some (S n) => repl (PyStr.take (S n) s) +++ scan m repl n r
          | _ => String c (scan m repl 0 r)
          end
      end
  end.

End Re.

(** ** Data read from the outside *)

(** Top-level statements of a parsed script, as far as the plugin looks. *)
Inductive ast_expr : Type :=
| EStr (s : string)
| EOther.

Inductive ast_stmt : Type :=
| SExpr (value : ast_expr)
| SOther.

(** A notebook cell: [cell_type], [source] (the lines) and the optional
    [attachments] table, file name to mime type to base64 payload. *)
Record cell : Type := mkCell {
  cell_type : string;
  source : list string;
  attachments : option (list (string * list (string * string)));
  cell_other : string
}.

Record notebook : Type := mkNotebook {
  cells : list cell;
  nb_other : string
}.

(** An [lxml] element: tag, attributes, and the rest (text, children, tail). *)
Record element : Type := mkElement {
  el_tag : string;
  el_attrib : list (string * string);
  el_rest : string
}.

(** The collaborators of the plugin. *)
Record World : Type := mkWorld {
  (** [Path(p).resolve().glob("*/*.py")] *)
  fs_glob_py : PyPath.PurePath -> list PyPath.PurePath;
  (** [p.resolve()] *)
  fs_resolve : PyPath.PurePath -> PyPath.PurePath;
  (** the entry names of [p.iterdir()] *)
  fs_listdir : PyPath.PurePath -> result (list string);
  fs_is_dir : PyPath.PurePath -> bool;
  (** opening and reading a file, as text or as bytes *)
  fs_read : PyPath.PurePath -> result string;
  (** [mkdir(parents=True, exist_ok=True)] of the parent, then [json.dump] *)
  fs_write_json : PyPath.PurePath -> notebook -> result unit;
  ast_parse : string -> result (list ast_stmt);
  (** [json.load], with the [cells] of the document *)
  json_loads : string -> result notebook;
  lxml_fromstring : string -> result element;
  lxml_tostring : element -> string;
  b64encode : string -> string;
  (** [mimetypes.guess_type(name)[0]] *)
  guess_type : string -> option string;
  (** the compiled form of a replacement template that has a backslash *)
  re_template : string -> result (string -> string)
}.

(** Nikola's site object, as far as the plugin reads it. *)
Record Site : Type := mkSite {
  DEFAULT_LANG : string;
  EXAMPLES_FOLDERS : list (string * string);
  OUTPUT_FOLDER : string;
  INDEX_FILE : string;
  STRIP_INDEXES : bool;
  CACHE_FOLDER : string;
  (** the shared context dictionary, as its encoded value *)
  GLOBAL_CONTEXT : string;
  (** [GLOBAL_CONTEXT["template_hooks"]]: hook name and its [calculate_deps()] *)
  template_hooks : list (string * string);
  GLOBAL_CONTEXT_TRANSLATABLE : list string;
  (** [GLOBAL_CONTEXT[k](lang)] *)
  context_call : string -> string -> string;
  (** [template_system.template_deps(name)] *)
  template_deps : string -> list string
}.

(** ** [set_site] *)

Record Kw : Type := mkKw {
  default_lang : string;
  examples_folders : list (string * string);
  output_folder : PyPath.PurePath;
  index_file : string;
  strip_indexes : bool;
  cache_folder : string
}.

Definition make_kw (site : Site) : Kw :=
  mkKw (DEFAULT_LANG site) (EXAMPLES_FOLDERS site)
       (PyPath.of_str (OUTPUT_FOLDER site)) (INDEX_FILE site)
       (STRIP_INDEXES site) (CACHE_FOLDER site).

Definition duplicate_message (problem : string) : string :=
  "The examples input or output folder '" +++ problem
  +++ "' appears in more than one entry in EXAMPLES_FOLDERS, exiting.".

(** One turn of the verification loop over [(appearing_paths, log)]. *)
Definition check_entry (st : list string * list string) (entry : string * string)
  : list string * list string :=
  let '(appearing_paths, log) := st in
  let '(source, dest) := entry in
  if PyStr.mem source appearing_paths || PyStr.mem dest appearing_paths then
    let problem := if PyStr.mem source appearing_paths then source else dest in
    (appearing_paths, log ++ [duplicate_message problem])
  else (appearing_paths ++ [source; dest], log).

(** [set_site]: the stored [kw] and the errors sent to the logger. *)
Definition set_site (site : Site) : Kw * list string :=
  let kw := make_kw site in
  (kw, snd (fold_left check_entry (examples_folders kw) ([], []))).

(** ** Tasks and the generator *)

Record category : Type := mkCategory {
  cat_name : string;
  cat_files : option (list string);
  cat_summaries : option (list (string * string))
}.

Definition headers : Type := list (string * category).

(** Values stored in the [uptodate] dictionary. *)
Inductive uval : Type :=
| UContext (encoded : string)
| UText (s : string)
| UKw (kw : Kw)
| UKeys (keys : list string)
| UList (items : list string).

(** [utils.config_changed(config, identifier)]. *)
Record config_changed : Type := mkConfigChanged {
  cc_config : list (string * uval);
  cc_identifier : string
}.

(** The callables bound in [gen_tasks] and [utils.copy_file]. *)
Inductive callable : Type :=
| RenderExampleIndex
| RenderExample
| GetB64Str
| UtilsCopyFile.

Inductive arg : Type :=
| AText (s : string)
| AHeaders (h : headers).

Record action : Type := mkAction { a_callable : callable; a_args : list arg }.

(** A task dictionary; an absent [uptodate] or [actions] key is the empty
    list, the absent [name] of the group task is [None]. *)
Record task : Type := mkTask {
  t_basename : string;
  t_name : option string;
  t_file_dep : list string;
  t_targets : list string;
  t_actions : list action;
  t_uptodate : list config_changed;
  t_clean : bool
}.

(** A generator run: the tasks yielded so far and how the run stands. *)
Definition Gen (A : Type) : Type := (list task * result A)%type.

Definition gret {A} (a : A) : Gen A := ([], Ok a).
Definition gyield (t : task) : Gen unit := ([t], Ok tt).
Definition glift {A} (r : result A) : Gen A := ([], r).

Definition gbind {A B} (m : Gen A) (f : A -> Gen B) : Gen B :=
  match m with
  | (ts, Ok a) => let (ts', r) := f a in (ts ++ ts', r)
  | (ts, Raise e) => (ts, Raise e)
  end.

Notation "x <~ m ;; k" := (gbind m (fun x => k))
  (at level 61, m at next level, right associativity).

Fixpoint gfold {S X : Type} (f : S -> X -> Gen S) (l : list X) (s : S) : Gen S :=
  match l with
  | [] => gret s
  | x :: r => s' <~ f s x ;; gfold f r s'
  end.

Fixpoint rfold {S X : Type} (f : S -> X -> result S) (l : list X) (s : S) : result S :=
  match l with
  | [] => Ok s
  | x :: r => s' <-- f s x ;; rfold f r s'
  end.

Definition plugin_name : string := "build_examples".

(** [self.group_task()]. *)
Definition group_task : task := mkTask plugin_name None [] [] [] [] false.

Definition ignored_extensions : list string :=
  [".pyc"; ".pyo"; ".cti"; ".dat"; ".ipynb_checkpoints"].

(** Names bound where the task dictionaries are built: the locals of
    [gen_tasks] that are functions.  Module-level names and builtins hold
    no function of the plugin. *)
Definition local_functions : list (string * callable) :=
  [("render_example_index", RenderExampleIndex);
   ("render_example", RenderExample);
   ("get_b64_str", GetB64Str)].

Definition module_names : list string :=
  ["Path"; "ast"; "re"; "base64"; "mimetypes"; "OrderedDict"; "os"; "lxml";
   "json"; "Task"; "utils"; "highlight"; "ClassNotFound";
   "get_lexer_for_filename"; "guess_lexer"; "TextLexer"; "MatlabLexer";
   "natsort"; "BuildExamples"].

(** Loading a name that is expected to be one of the plugin's functions. *)
Definition load_function (name : string) : result callable :=
  match dict_get name local_functions with
  | Some f => Ok f
  | None => Raise (NameError name)
  end.

(** Reading the local variable [doc], which may not be bound yet. *)
Definition load_doc (doc : option string) : result string :=
  match doc with
  | Some d => Ok d
  | None => Raise (UnboundLocalError "doc")
  end.

(** *** The [uptodate] dictionary *)

Definition hook_key (k : string) : string := "||template_hooks|" +++ k +++ "||".

(** The dictionary after the loops over the template hooks and the
    translatable keys (lines 145 to 151): a translatable key replaces
    whatever the dictionary holds under its name, the entry [c] included. *)
Definition context_uptodate (site : Site) (kw : Kw) : list (string * uval) :=
  let u0 := [("c", UContext (GLOBAL_CONTEXT site))] in
  let u1 := fold_left (fun u kv => dict_set (hook_key (fst kv)) (UText (snd kv)) u)
                      (template_hooks site) u0 in
  fold_left (fun u k => dict_set k (UText (context_call site k (default_lang kw))) u)
            (GLOBAL_CONTEXT_TRANSLATABLE site) u1.

(** [uptodate["c"]["navigation_links"](lang)]: the entry [c] is read back
    from the dictionary; when it is still the global context the links are
    called for the language, when a translatable key has put a text there,
    indexing the text with a text raises [TypeError]. *)
Definition navigation_links (site : Site) (kw : Kw) (u : list (string * uval))
  : result string :=
  match dict_get "c" u with
  | Some (UContext _) => Ok (context_call site "navigation_links" (default_lang kw))
  | Some _ => Raise TypeError
  | None => Raise (KeyError "c")
  end.

Definition base_uptodate (site : Site) (kw : Kw) : result (list (string * uval)) :=
  let u2 := context_uptodate site kw in
  nav_links <-- navigation_links site kw u2 ;;
  Ok (dict_set "kw" (UKw kw) (dict_set "nav_links" (UText nav_links) u2)).

(** [uptodate.copy()] with the keys [d] and [f] added. *)
Definition folder_uptodate (uptodate : list (string * uval)) (h : headers)
  (files : list string) : list (string * uval) :=
  dict_set "f" (UList files) (dict_set "d" (UKeys (map fst h)) uptodate).

(** *** Python examples *)

Definition python_headers : headers :=
  [("thermo", mkCategory "Thermodynamics" (Some []) (Some []));
   ("kinetics", mkCategory "Kinetics" (Some []) (Some []));
   ("transport", mkCategory "Transport" (Some []) (Some []));
   ("reactors", mkCategory "Reactor Networks" (Some []) (Some []));
   ("onedim", mkCategory "One-Dimensional Flames" (Some []) (Some []));
   ("multiphase", mkCategory "Multiphase Mixtures" (Some []) (Some []));
   ("surface_chemistry", mkCategory "Surface Chemistry" (Some []) (Some []))].

(** [headers[key]["files"].append(file)]. *)
Definition headers_append_file (h : headers) (key file : string) : result headers :=
  c <-- dict_item key h ;;
  match cat_files c with
  | Some fs => Ok (dict_set key (mkCategory (cat_name c) (Some (fs ++ [file])) (cat_summaries c)) h)
  | None => Raise (KeyError "files")
  end.

(** [headers[key]["summaries"][name] = doc]. *)
Definition headers_set_summary (h : headers) (key name doc : string) : result headers :=
  c <-- dict_item key h ;;
  match cat_summaries c with
  | Some sm => Ok (dict_set key (mkCategory (cat_name c) (cat_files c) (Some (dict_set name doc sm))) h)
  | None => Raise (KeyError "summaries")
  end.

(** The text a module-level string statement gives. *)
Definition docstring_summary (s : string) : string :=
  let doc := PyStr.strip (PyStr.split_first (PyStr.nl +++ PyStr.nl) (PyStr.strip s)) in
  if PyStr.endswith doc "." then doc else doc +++ ".".

(** The loop over [mod.body]: the first string statement binds [doc] and
    ends the loop; without one, [doc] is left as it was. *)
Fixpoint scan_body (body : list ast_stmt) (doc : option string) : option string :=
  match body with
  | [] => doc
  | SExpr (EStr s) :: _ => Some (docstring_summary s)
  | _ :: r => scan_body r doc
  end.

Section Generation.

Variable w : World.
Variable site : Site.
Variable kw : Kw.
Variable uptodate : list (string * uval).

Definition out_str : string := PyPath.to_str (output_folder kw).

(** One turn of the loop over [python_examples]; the state is [headers] and
    the variable [doc]. *)
Definition python_file (uptodate2 : list (string * uval)) (examples_template_deps : list string)
  (input_folder example_folder : string)
  (st : headers * option string) (py_ex_file : PyPath.PurePath)
  : Gen (headers * option string) :=
  let ex_category := PyPath.stem (PyPath.parent py_ex_file) in
  h1 <~ glift (headers_append_file (fst st) ex_category (PyPath.to_str py_ex_file)) ;;
  text <~ glift (fs_read w py_ex_file) ;;
  body <~ glift (ast_parse w text) ;;
  let doc := scan_body body (snd st) in
  d <~ glift (load_doc doc) ;;
  h2 <~ glift (headers_set_summary h1 ex_category (PyPath.name py_ex_file) d) ;;
  html_name <~ glift (PyPath.with_suffix_name py_ex_file ".py.html") ;;
  let out_name := PyPath.to_str (PyPath.joinpath (output_folder kw)
                                   [example_folder; ex_category; html_name]) in
  _ <~ gyield (mkTask plugin_name (Some out_name)
                 (examples_template_deps ++ [PyPath.to_str py_ex_file]) [out_name]
                 [mkAction RenderExample
                    [AText (PyPath.to_str py_ex_file); AText out_name;
                     AText input_folder; AText example_folder]]
                 [mkConfigChanged uptodate2 "build_examples:source"] true) ;;
  let out_name := PyPath.to_str (PyPath.joinpath (output_folder kw)
                                   [example_folder; ex_category; PyPath.name py_ex_file]) in
  _ <~ gyield (mkTask plugin_name (Some out_name)
                 [PyPath.to_str py_ex_file] [out_name]
                 [mkAction UtilsCopyFile [AText (PyPath.to_str py_ex_file); AText out_name]]
                 [] true) ;;
  gret (h2, doc).

(** [headers[head]["files"] = natsorted(headers[head]["files"], alg=IC)]. *)
Definition sort_category (c : category) : category :=
  mkCategory (cat_name c) (option_map Natsort.natsorted (cat_files c)) (cat_summaries c).

Definition sort_headers (h : headers) : headers :=
  map (fun kc => (fst kc, sort_category (snd kc))) h.

Definition index_task (ex_type : string) (name : string) (deps : list string)
  (h : headers) (input_folder example_folder : string)
  (uptodate2 : list (string * uval)) : task :=
  mkTask plugin_name (Some name) deps [name]
         [mkAction RenderExampleIndex
            [AText ex_type; AHeaders h; AText input_folder; AText example_folder; AText name]]
         [mkConfigChanged uptodate2 "build_examples:folder"] true.

(** The files of a Python folder, in discovery order. *)
Definition python_examples (input_folder : string) : list PyPath.PurePath :=
  fs_glob_py w (PyPath.of_str input_folder).

Definition python_uptodate2 (input_folder : string) : list (string * uval) :=
  folder_uptodate uptodate python_headers (map PyPath.to_str (python_examples input_folder)).

(** The loop over the files, up to the sort of the categories. *)
Definition python_collect (input_folder example_folder : string) (doc : option string)
  : Gen (headers * option string) :=
  gfold (python_file (python_uptodate2 input_folder) (template_deps site "examples.tmpl")
                     input_folder example_folder)
        (python_examples input_folder) (python_headers, doc).

Definition python_index_name (example_folder : string) : string :=
  PyPath.to_str (PyPath.joinpath (output_folder kw) [example_folder; index_file kw]).

Definition gen_python (input_folder example_folder : string) (doc : option string)
  : Gen (option string) :=
  st <~ python_collect input_folder example_folder doc ;;
  _ <~ gyield (index_task "python" (python_index_name example_folder)
                 (template_deps site "python-example-index.tmpl")
                 (sort_headers (fst st)) input_folder example_folder
                 (python_uptodate2 input_folder)) ;;
  gret (snd st).

(** *** Matlab examples *)

Definition matlab_headers (summaries : list (string * string)) (files : list string) : headers :=
  [("examples", mkCategory "Examples" (Some files) (Some summaries))].

(** The loop over the lines of a file, from [doc] (initially empty): the
    loop ends at the first line that leaves [doc] non-empty. *)
Fixpoint matlab_scan (lines : list string) (doc : string) : string :=
  match lines with
  | [] => doc
  | line :: r =>
      let line := PyStr.strip line in
      let doc := if PyStr.startswith line "%"
                 then PyStr.strip (PyStr.strip_chars "%" line) else doc in
      if PyStr.is_empty doc then matlab_scan r doc else doc
  end.

(** The summary of a Matlab file from its text and the stem of its name. *)
Definition matlab_summary (stem text : string) : string :=
  let doc := matlab_scan (PyStr.lines text) "" in
  let name := PyStr.replace_char "_" " " stem in
  if PyStr.startswith (PyStr.replace_char "_" " " (PyStr.lower doc)) name
  then PyStr.strip (PyStr.drop (String.length name) doc)
  else doc.

Definition matlab_skipped (ex_file : PyPath.PurePath) : bool :=
  (PyStr.contains "tut" (PyPath.name ex_file)
   || String.eqb (PyPath.name ex_file) "README"
   || PyStr.contains "test" (PyPath.name ex_file))
  || (PyStr.mem (PyPath.suffix ex_file) ignored_extensions
      || String.eqb (PyPath.name ex_file) ".DS_Store").

(** One turn of the loop over [p.iterdir()]; the state is [files],
    [summaries] and the variable [doc]. *)
Definition matlab_file (p : PyPath.PurePath)
  (st : list PyPath.PurePath * list (string * string) * option string) (entry : string)
  : result (list PyPath.PurePath * list (string * string) * option string) :=
  let ex_file := PyPath.child p entry in
  if matlab_skipped ex_file then Ok st
  else
    text <-- fs_read w ex_file ;;
    let doc := matlab_summary (PyPath.stem ex_file) text in
    Ok (fst (fst st) ++ [ex_file], dict_set (PyPath.name ex_file) doc (snd (fst st)), Some doc).

Definition matlab_collect (input_folder : string) (doc : option string)
  : result (list PyPath.PurePath * list (string * string) * option string) :=
  entries <-- fs_listdir w (PyPath.of_str input_folder) ;;
  rfold (matlab_file (PyPath.of_str input_folder)) entries ([], [], doc).

(** One turn of the loop over [files] after the index task: the listing
    page and the copy of one Matlab file. *)
Definition matlab_listing (template_deps0 : list string) (input_folder example_folder : string)
  (_ : unit) (f : PyPath.PurePath) : Gen unit :=
  if String.eqb (PyPath.to_str f) ".DS_Store" then gret tt
  else if PyStr.mem (PyPath.suffix f) ignored_extensions then gret tt
  else
    let in_name := PyPath.to_str (fs_resolve w f) in
    let f_name := PyPath.name f in
    let out_name := PyPath.os_join out_str (PyPath.os_join example_folder (f_name +++ ".html")) in
    render_listing <~ glift (load_function "render_listing") ;;
    _ <~ gyield (mkTask plugin_name (Some out_name) (template_deps0 ++ [in_name]) [out_name]
                   [mkAction render_listing
                      [AText in_name; AText out_name; AText input_folder; AText example_folder]]
                   [mkConfigChanged uptodate "build_examples:source"] true) ;;
    let out_name := PyPath.os_join out_str (PyPath.os_join example_folder f_name) in
    gyield (mkTask plugin_name (Some out_name) [in_name] [out_name]
              [mkAction UtilsCopyFile [AText in_name; AText out_name]] [] true).

Definition os_index_name (example_folder : string) : string :=
  PyPath.os_join out_str (PyPath.os_join example_folder (index_file kw)).

Definition gen_matlab (input_folder example_folder : string) (doc : option string)
  : Gen (option string) :=
  st <~ glift (matlab_collect input_folder doc) ;;
  let files := fst (fst st) in
  let h := matlab_headers (snd (fst st)) (Natsort.natsorted (map PyPath.to_str files)) in
  _ <~ gyield (index_task "matlab" (os_index_name example_folder)
                 (template_deps site "matlab-example-index.tmpl")
                 h input_folder example_folder
                 (folder_uptodate uptodate h (map PyPath.to_str files))) ;;
  _ <~ gfold (matlab_listing (template_deps site "matlab-example-index.tmpl")
                             input_folder example_folder) files tt ;;
  gret (snd st).

(** *** Jupyter examples *)

Definition jupyter_headers : headers :=
  [("thermo", mkCategory "Thermodynamics" None None);
   ("reactors", mkCategory "Reactor Networks" None None);
   ("flames", mkCategory "One-Dimensional Flames" None None)].

(** How [str.format] prints the guessed mime type. *)
Definition format_mime (mime : option string) : string :=
  match mime with
  | Some m => m
  | None => "None"
  end.

Definition data_uri (mime : option string) (payload : string) : string :=
  "data:" +++ format_mime mime +++ ";base64," +++ payload.

Definition get_b64_str (p dir : PyPath.PurePath) (img_fname : string) : result string :=
  let img_path := PyPath.join (PyPath.join p dir) (PyPath.of_str img_fname) in
  bytes <-- fs_read w img_path ;;
  Ok (data_uri (guess_type w (PyPath.name img_path)) (b64encode w bytes)).

(** [re.sub(pattern, repl, s)]: a replacement with a backslash is a
    template and is compiled before the scan. *)
Definition re_sub (m : string -> option nat) (repl s : string) : result string :=
  f <-- (if PyStr.contains PyStr.backslash repl then re_template w repl
         else Ok (fun _ : string => repl)) ;;
  Ok (Re.scan m f 0 s).

Definition img_tag_length (s : string) : option nat := Re.img_tag_match s.
Definition md_image_length (s : string) : option nat := option_map fst (Re.md_image_match s).

(** The [<img src=... alt=.../>] tag written for a link-style image. *)
Definition md_new_img (b64_str img_alt : string) : string :=
  "<img src=" +++ PyStr.dq +++ b64_str +++ PyStr.dq
  +++ " alt=" +++ PyStr.dq +++ img_alt +++ PyStr.dq +++ "/>".

(** The payload of an attachment reference. *)
Definition attachment_uri (c : cell) (img_fname : string) : result string :=
  img_fname <-- PyStr.split1_second ":" img_fname ;;
  let mime := guess_type w img_fname in
  table <-- match attachments c with
            | Some t => Ok t
            | None => Raise (KeyError "attachments")
            end ;;
  entry <-- dict_item img_fname table ;;
  b64_src <-- match mime with
              | Some m => dict_item m entry
              | None => Raise (KeyError "None")
              end ;;
  Ok (data_uri mime b64_src).

(** The body of the loop over the lines of a markdown cell: the new text of
    line [s]. *)
Definition embed_line (p dir : PyPath.PurePath) (c : cell) (s : string) : result string :=
  if PyStr.contains "img" s then
    img <-- lxml_fromstring w s ;;
    img_fname <-- dict_item "src" (el_attrib img) ;;
    b64_str <-- get_b64_str p dir img_fname ;;
    let new_img := lxml_tostring w
                     (mkElement (el_tag img) (dict_set "src" b64_str (el_attrib img)) (el_rest img)) in
    re_sub img_tag_length new_img s
  else if PyStr.contains "![" s then
    g <-- Re.md_image_first s ;;
    b64_str <-- (if PyStr.contains "attachment" (snd g)
                 then attachment_uri c (snd g)
                 else get_b64_str p dir (snd g)) ;;
    re_sub md_image_length (md_new_img b64_str (fst g)) s
  else Ok s.

Fixpoint embed_lines (p dir : PyPath.PurePath) (c : cell) (lines : list string)
  : result (list string) :=
  match lines with
  | [] => Ok []
  | s :: r =>
      s' <-- embed_line p dir c s ;;
      r' <-- embed_lines p dir c r ;;
      Ok (s' :: r')
  end.

(** [cell["source"][0].replace("#", "").strip()]. *)
Definition first_line_summary (c : cell) : result string :=
  match source c with
  | [] => Raise IndexError
  | s :: _ => Ok (PyStr.strip (PyStr.replace_char "#" "" s))
  end.

(** The loop over [data["cells"]]: the rewritten cells and [doc]. *)
Fixpoint embed_cells (p dir : PyPath.PurePath) (cs : list cell) (doc : string)
  : result (list cell * string) :=
  match cs with
  | [] => Ok ([], doc)
  | c :: r =>
      if negb (String.eqb (cell_type c) "markdown") then
        out <-- embed_cells p dir r doc ;;
        Ok (c :: fst out, snd out)
      else
        doc <-- (if PyStr.is_empty doc then first_line_summary c else Ok doc) ;;
        src <-- embed_lines p dir c (source c) ;;
        out <-- embed_cells p dir r doc ;;
        Ok (mkCell (cell_type c) src (attachments c) (cell_other c) :: fst out, snd out)
  end.

(** The summary and the rewritten document of one notebook. *)
Definition notebook_summary (p dir : PyPath.PurePath) (nb : notebook) : result string :=
  out <-- embed_cells p dir (cells nb) "" ;; Ok (snd out).

Record jupyter_files : Type := mkJupyterFiles {
  jf_summaries : list (string * string);
  jf_header_files : list string;
  jf_files : list PyPath.PurePath;
  jf_doc : option string
}.

(** One turn of the loop over [ex_category.iterdir()]. *)
Definition jupyter_file (p ex_category : PyPath.PurePath) (example_folder : string)
  (st : jupyter_files) (entry : string) : result jupyter_files :=
  let f := PyPath.child ex_category entry in
  if PyStr.mem (PyPath.suffix f) ignored_extensions || fs_is_dir w f then Ok st
  else if String.eqb (PyPath.name f) ".ipynb_checkpoints"
          || String.eqb (PyPath.name f) ".DS_Store" then Ok st
  else
    text <-- fs_read w f ;;
    data <-- json_loads w text ;;
    out <-- embed_cells p ex_category (cells data) "" ;;
    let cache_file :=
      PyPath.joinpath (PyPath.of_str (cache_folder kw))
                      [example_folder; PyPath.stem (PyPath.parent f); PyPath.name f] in
    _ <-- fs_write_json w cache_file (mkNotebook (fst out) (nb_other data)) ;;
    Ok (mkJupyterFiles
          (dict_set (last (PyStr.split_char "/" (PyPath.to_str f)) "") (snd out) (jf_summaries st))
          (jf_header_files st ++ [PyPath.to_str f])
          (jf_files st ++ [cache_file])
          (Some (snd out))).

(** One turn of the loop over [p.iterdir()]; the state is [headers],
    [files] and the variable [doc]. *)
Definition jupyter_category (p : PyPath.PurePath) (example_folder : string)
  (st : headers * list PyPath.PurePath * option string) (entry : string)
  : result (headers * list PyPath.PurePath * option string) :=
  let ex_category := PyPath.child p entry in
  if negb (fs_is_dir w ex_category) || PyStr.startswith (PyPath.name ex_category) "." then Ok st
  else if PyStr.mem (PyPath.suffix ex_category) ignored_extensions then Ok st
  else
    entries <-- fs_listdir w ex_category ;;
    fs <-- rfold (jupyter_file p ex_category example_folder) entries
                 (mkJupyterFiles [] [] (snd (fst st)) (snd st)) ;;
    c <-- dict_item (PyPath.stem ex_category) (fst (fst st)) ;;
    Ok (dict_set (PyPath.stem ex_category)
                 (mkCategory (cat_name c)
                             (Some (Natsort.natsorted (jf_header_files fs)))
                             (Some (jf_summaries fs)))
                 (fst (fst st)),
        jf_files fs, jf_doc fs).

Definition jupyter_collect (input_folder example_folder : string) (doc : option string)
  : result (headers * list PyPath.PurePath * option string) :=
  entries <-- fs_listdir w (PyPath.of_str input_folder) ;;
  rfold (jupyter_category (PyPath.of_str input_folder) example_folder) entries
        (jupyter_headers, [], doc).

(** One turn of the loop over the cached notebooks after the index task. *)
Definition jupyter_listing (template_deps0 : list string) (input_folder example_folder : string)
  (_ : unit) (f : PyPath.PurePath) : Gen unit :=
  if String.eqb (PyPath.to_str f) ".DS_Store" then gret tt
  else if PyStr.mem (PyPath.suffix f) ignored_extensions then gret tt
  else
    let in_name := PyPath.to_str (fs_resolve w f) in
    let parent := PyPath.stem (PyPath.parent f) in
    let f_name := PyPath.name f in
    let out_name := PyPath.os_join out_str
                      (PyPath.os_join (PyPath.os_join example_folder parent) (f_name +++ ".html")) in
    render_listing <~ glift (load_function "render_listing") ;;
    _ <~ gyield (mkTask plugin_name (Some out_name) (template_deps0 ++ [in_name]) [out_name]
                   [mkAction render_listing
                      [AText in_name; AText out_name; AText input_folder; AText example_folder]]
                   [mkConfigChanged uptodate "build_examples:source"] true) ;;
    let src_in_name :=
      PyPath.to_str (fs_resolve w (PyPath.joinpath (PyPath.of_str input_folder) [parent; f_name])) in
    let out_name := PyPath.os_join out_str
                      (PyPath.os_join (PyPath.os_join example_folder parent) f_name) in
    gyield (mkTask plugin_name (Some out_name) [src_in_name; in_name] [out_name]
              [mkAction UtilsCopyFile [AText src_in_name; AText out_name]] [] true).

Definition gen_jupyter (input_folder example_folder : string) (doc : option string)
  : Gen (option string) :=
  st <~ glift (jupyter_collect input_folder example_folder doc) ;;
  let h := fst (fst st) in
  let files := snd (fst st) in
  _ <~ gyield (index_task "jupyter" (os_index_name example_folder)
                 (template_deps site "jupyter-example-index.tmpl")
                 h input_folder example_folder
                 (folder_uptodate uptodate h (map PyPath.to_str files))) ;;
  _ <~ gfold (jupyter_listing (template_deps site "jupyter-example-index.tmpl")
                              input_folder example_folder) files tt ;;
  gret (snd st).

(** *** The loop over [examples_folders] *)

Inductive folder_kind : Type := Python | Matlab | Jupyter.

(** The branch taken for a destination folder. *)
Definition kind_of (example_folder : string) : option folder_kind :=
  if PyStr.contains "python" example_folder then Some Python
  else if PyStr.contains "matlab" example_folder then Some Matlab
  else if PyStr.contains "jupyter" example_folder then Some Jupyter
  else None.

Definition gen_folder (doc : option string) (entry : string * string) : Gen (option string) :=
  match kind_of (snd entry) with
  | Some Python => gen_python (fst entry) (snd entry) doc
  | Some Matlab => gen_matlab (fst entry) (snd entry) doc
  | Some Jupyter => gen_jupyter (fst entry) (snd entry) doc
  | None => gret doc
  end.

End Generation.

(** [gen_tasks], run on the [kw] that [set_site] stored. *)
Definition gen_tasks (w : World) (site : Site) (kw : Kw) : Gen (option string) :=
  _ <~ gyield group_task ;;
  uptodate <~ glift (base_uptodate site kw) ;;
  gfold (gen_folder w site kw uptodate) (examples_folders kw) None.

(** The plugin as Nikola drives it: [set_site], then [gen_tasks]. *)
Definition run (w : World) (site : Site) : Gen (option string) :=
  gen_tasks w site (fst (set_site site)).

(** ** Worlds given by tables, for concrete runs *)

Record Tables : Type := mkTables {
  tb_glob : list (string * list string);
  tb_dirs : list (string * list string);
  tb_files : list (string * string);
  tb_ast : list (string * list ast_stmt);
  tb_json : list (string * notebook);
  tb_html : list (string * element);
  tb_b64 : list (string * string);
  tb_mime : list (string * string)
}.

Definition render_attrib (kv : string * string) : string :=
  " " +++ fst kv +++ "=" +++ PyStr.dq +++ snd kv +++ PyStr.dq.

(** A serializer in the manner of [lxml.html.tostring]. *)
Definition render_element (e : element) : string :=
  "<" +++ el_tag e +++ String.concat "" (map render_attrib (el_attrib e)) +++ ">" +++ el_rest e.

Definition lookup_or_raise {V : Type} (e : exn) (k : string) (d : list (string * V)) : result V :=
  match dict_get k d with
  | Some v => Ok v
  | None => Raise e
  end.

Definition table_world (t : Tables) : World :=
  mkWorld
    (fun p => match dict_get (PyPath.to_str p) (tb_glob t) with
              | Some l => map PyPath.of_str l
              | None => []
              end)
    (fun p => p)
    (fun p => lookup_or_raise (OSError (PyPath.to_str p)) (PyPath.to_str p) (tb_dirs t))
    (fun p => match dict_get (PyPath.to_str p) (tb_dirs t) with
              | Some _ => true
              | None => false
              end)
    (fun p => lookup_or_raise (OSError (PyPath.to_str p)) (PyPath.to_str p) (tb_files t))
    (fun _ _ => Ok tt)
    (fun text => lookup_or_raise SyntaxError text (tb_ast t))
    (fun text => lookup_or_raise JSONDecodeError text (tb_json t))
    (fun text => lookup_or_raise ParserError text (tb_html t))
    render_element
    (fun bytes => match dict_get bytes (tb_b64 t) with
                  | Some s => s
                  | None => ""
                  end)
    (fun name => dict_get (PyPath.suffix (PyPath.of_str name)) (tb_mime t))
    (fun _ => Raise ReError).

Definition demo_site (folders : list (string * string)) : Site :=
  mkSite "en" folders "output" "index.html" true "cache"
         "context" [("extra_head", "deps")] ["blog_title"]
         (fun k lang => k +++ "@" +++ lang)
         (fun name => [name]).

(** ** Notions used to state the properties *)

Definition is_index_action (a : action) : bool :=
  match a_callable a with
  | RenderExampleIndex => true
  | _ => false
  end.

(** The tasks that render an index page. *)
Definition is_index_task (t : task) : bool := existsb is_index_action (t_actions t).

Definition index_tasks (ts : list task) : list task := filter is_index_task ts.

(** The change-detection values of the tasks of a run, in yield order. *)
Definition fingerprints {A : Type} (m : Gen A) : list (list config_changed) :=
  map t_uptodate (fst m).

Definition prefix_of {A : Type} (l1 l2 : list A) : Prop := exists r, l2 = l1 ++ r.

(** Two worlds that show the same directory listings; file contents and
    parsers may differ. *)
Definition same_listing (w1 w2 : World) : Prop :=
  (forall p, fs_glob_py w1 p = fs_glob_py w2 p)
  /\ (forall p, fs_listdir w1 p = fs_listdir w2 p)
  /\ (forall p, fs_is_dir w1 p = fs_is_dir w2 p).

(** The file name that [embed_line] takes from a line and hands to
    [get_b64_str]: the [src] of the parsed tag, or the target of the first
    link-style image when it is not an attachment. *)
Definition image_reference (w : World) (s : string) : option string :=
  if PyStr.contains "img" s then
    match lxml_fromstring w s with
    | Ok img => dict_get "src" (el_attrib img)
    | Raise _ => None
    end
  else if PyStr.contains "![" s then
    match Re.md_image_first s with
    | Ok g => if PyStr.contains "attachment" (snd g) then None else Some (snd g)
    | Raise _ => None
    end
  else None.

Definition is_markdown (c : cell) : bool := String.eqb (cell_type c) "markdown".

(** The summary as the specification words it: the first line of the first
    markdown cell, its leading markers (hashes and blanks) stripped. *)
Definition spec_strip_markers (s : string) : string :=
  PyStr.strip (PyStr.lstrip_with (fun c => Ascii.eqb c "#" || PyStr.isspace c) s).

Fixpoint spec_notebook_summary (cs : list cell) : string :=
  match cs with
  | [] => ""
  | c :: r =>
      if is_markdown c then
        match source c with
        | s :: _ => spec_strip_markers s
        | [] => ""
        end
      else spec_notebook_summary r
  end.

(** The summary as the code takes it: over the markdown cells in order, the
    first of the first lines that is not empty once every hash is removed
    and the blanks around it are trimmed. *)
Fixpoint first_line_doc (cs : list cell) : string :=
  match cs with
  | [] => ""
  | c :: r =>
      if is_markdown c then
        match source c with
        | s :: _ =>
            if PyStr.is_empty (PyStr.strip (PyStr.replace_char "#" "" s))
            then first_line_doc r
            else PyStr.strip (PyStr.replace_char "#" "" s)
        | [] => first_line_doc r
        end
      else first_line_doc r
  end.

(** The text of a Matlab comment line, empty for any other line. *)
Definition comment_text (line : string) : string :=
  if PyStr.startswith (PyStr.strip line) "%"
  then PyStr.strip (PyStr.strip_chars "%" (PyStr.strip line))
  else "".

(** The first line of a file that carries comment text. *)
Fixpoint first_comment (lines : list string) : string :=
  match lines with
  | [] => ""
  | line :: r => if PyStr.is_empty (comment_text line) then first_comment r else comment_text line
  end.

(** The run of comment lines at the top of a file, as the specification
    words the Matlab summary. *)
Fixpoint spec_top_run (lines : list string) : list string :=
  match lines with
  | [] => []
  | line :: r =>
      if PyStr.startswith (PyStr.strip line) "%"
      then PyStr.strip (PyStr.strip_chars "%" (PyStr.strip line)) :: spec_top_run r
      else []
  end.

Definition spec_matlab_doc (text : string) : string :=
  String.concat " " (spec_top_run (PyStr.lines text)).

(** The restated-name heuristic of the Matlab branch. *)
Definition strip_restated_name (stem doc : string) : string :=
  let name := PyStr.replace_char "_" " " stem in
  if PyStr.startswith (PyStr.replace_char "_" " " (PyStr.lower doc)) name
  then PyStr.strip (PyStr.drop (String.length name) doc)
  else doc.

(** The filters at the head of the two listing loops. *)
Definition listing_skipped (f : PyPath.PurePath) : bool :=
  String.eqb (PyPath.to_str f) ".DS_Store" || PyStr.mem (PyPath.suffix f) ignored_extensions.

(** The target of the index page of a folder, by branch. *)
Definition index_target (kw : Kw) (k : folder_kind) (example_folder : string) : string :=
  match k with
  | Python => python_index_name kw example_folder
  | Matlab | Jupyter => os_index_name kw example_folder
  end.

(** The part of a folder's processing that comes before its index task. *)
Definition collect_ok (w : World) (site : Site) (kw : Kw) (uptodate : list (string * uval))
  (k : folder_kind) (input_folder example_folder : string) (doc : option string) : bool :=
  match k with
  | Python => is_ok (snd (python_collect w site kw uptodate input_folder example_folder doc))
  | Matlab => is_ok (matlab_collect w input_folder doc)
  | Jupyter => is_ok (jupyter_collect w kw input_folder example_folder doc)
  end.

(** Whether [set_site] reports entry [(source, dest)] that comes after the
    entries [pre]. *)
Definition appearing_after (pre : list (string * string)) : list string :=
  fst (fold_left check_entry pre ([], [])).

Definition reported (pre : list (string * string)) (entry : string * string) : bool :=
  PyStr.mem (fst entry) (appearing_after pre) || PyStr.mem (snd entry) (appearing_after pre).

(** ** Concrete scenarios *)

Definition empty_tables : Tables := mkTables [] [] [] [] [] [] [] [].

Definition undocumented_py : string := "import cantera as ct".
Definition documented_py : string := "'''Adiabatic flame." +++ PyStr.nl +++ PyStr.nl +++ "Details.'''".

Definition python_site : Site := demo_site [("ex/py", "examples/python")].

(** A Python folder whose first file has no docstring. *)
Definition python_world_first : World :=
  table_world (mkTables
    [("ex/py", ["/r/ex/py/thermo/b.py"])] []
    [("/r/ex/py/thermo/b.py", undocumented_py)]
    [(undocumented_py, [SOther])] [] [] [] []).

(** A Python folder where a file without docstring follows a documented one. *)
Definition python_world_second : World :=
  table_world (mkTables
    [("ex/py", ["/r/ex/py/thermo/a.py"; "/r/ex/py/thermo/b.py"])] []
    [("/r/ex/py/thermo/a.py", documented_py); ("/r/ex/py/thermo/b.py", undocumented_py)]
    [(documented_py, [SExpr (EStr ("Adiabatic flame." +++ PyStr.nl +++ PyStr.nl +++ "Details."))]);
     (undocumented_py, [SOther])] [] [] [] []).

(** The same folder with both files documented, and with other contents. *)
Definition python_world_documented : World :=
  table_world (mkTables
    [("ex/py", ["/r/ex/py/thermo/a.py"; "/r/ex/py/thermo/b.py"])] []
    [("/r/ex/py/thermo/a.py", documented_py); ("/r/ex/py/thermo/b.py", documented_py)]
    [(documented_py, [SExpr (EStr "Adiabatic flame.")])] [] [] [] []).

Definition matlab_text : string :=
  "% FLAME_DEMO  a flame." +++ PyStr.nl +++ "x = 1;" +++ PyStr.nl.

Definition matlab_site : Site := demo_site [("ex/m", "examples/matlab")].

Definition matlab_world : World :=
  table_world (mkTables [] [("ex/m", ["flame_demo.m"])]
    [("ex/m/flame_demo.m", matlab_text)] [] [] [] [] []).

(** An image tag that is not self-closed, and one that is. *)
Definition open_img_line : string :=
  "<img src=" +++ PyStr.dq +++ "fig.png" +++ PyStr.dq +++ ">" +++ PyStr.nl.

Definition closed_img_line : string :=
  "<img src=" +++ PyStr.dq +++ "fig.png" +++ PyStr.dq +++ "/>" +++ PyStr.nl.

Definition md_img_line : string := "See ![plot](fig.png) here." +++ PyStr.nl.

Definition img_element : element := mkElement "img" [("src", "fig.png")] PyStr.nl.

Definition notebook_of (lines : list string) : notebook :=
  mkNotebook [mkCell "code" ["import cantera"] None "";
              mkCell "markdown" (("# Intro" +++ PyStr.nl) :: ("Some text" +++ PyStr.nl) :: lines) None ""] "".

Definition jupyter_site : Site := demo_site [("/ex/j", "examples/jupyter")].

(** A Jupyter folder with one notebook in [thermo]; [image] tells whether
    [fig.png] can be read. *)
Definition jupyter_world (lines : list string) (image : bool) : World :=
  table_world (mkTables []
    [("/ex/j", ["thermo"]); ("/ex/j/thermo", ["flame.ipynb"])]
    (("/ex/j/thermo/flame.ipynb", "flame") ::
     (if image then [("/ex/j/thermo/fig.png", "PNG")] else []))
    []
    [("flame", notebook_of lines)]
    [(open_img_line, img_element); (closed_img_line, img_element)]
    [("PNG", "UE5H")]
    [(".png", "image/png")]).

Definition j_root : PyPath.PurePath := PyPath.of_str "/ex/j".
Definition j_thermo : PyPath.PurePath := PyPath.child j_root "thermo".


Definition is_text_arg (a : arg) : bool :=
  match a with
  | AText _ => true
  | AHeaders _ => false
  end.

(** The two per-file tasks: a listing page and a copy. *)
Definition is_file_action (a : action) : bool :=
  match a_callable a with
  | RenderExample | UtilsCopyFile => forallb is_text_arg (a_args a)
  | _ => false
  end.

Definition is_file_task (t : task) : bool := forallb is_file_action (t_actions t).

(** The [headers] handed to the actions of a task. *)
Definition task_headers (t : task) : list headers :=
  flat_map (fun a => flat_map (fun x => match x with
                                        | AHeaders h => [h]
                                        | AText _ => []
                                        end) (a_args a)) (t_actions t).

(** The summaries recorded in the headers of the yielded tasks. *)
Definition recorded_summaries (ts : list task) : list (string * string) :=
  flat_map (fun h => flat_map (fun kc => match cat_summaries (snd kc) with
                                         | Some sm => sm
                                         | None => []
                                         end) h)
           (flat_map task_headers ts).



(** A folder mapping whose destination names none of the three kinds. *)
Definition cxx_site : Site := demo_site [("ex/cxx", "examples/cxx")].

(** Two mappings with the same destination. *)
Definition duplicate_site : Site :=
  demo_site [("ex/py", "examples/python"); ("ex/py2", "examples/python")].

(** The path named in the error message for a reported entry. *)
Definition problem_of (pre : list (string * string)) (entry : string * string) : string :=
  if PyStr.mem (fst entry) (appearing_after pre) then fst entry else snd entry.

(** The input folders named in the arguments of the actions of a task. *)
Definition task_texts (t : task) : list string :=
  flat_map (fun a => flat_map (fun x => match x with
                                        | AText s => [s]
                                        | AHeaders _ => []
                                        end) (a_args a)) (t_actions t).

(** Matlab files whose first comment is not at the top, and whose top
    comment runs over two lines. *)
Definition late_comment_text : string :=
  "x = 1;" +++ PyStr.nl +++ "% late comment" +++ PyStr.nl.

Definition two_comment_text : string :=
  "% first line" +++ PyStr.nl +++ "% second line" +++ PyStr.nl +++ "x = 1;" +++ PyStr.nl.

(** A cell or notebook without image lines and without empty markdown cells. *)
Definition plain_line (s : string) : bool :=
  negb (PyStr.contains "img" s) && negb (PyStr.contains "![" s).

Definition plain_cell (c : cell) : bool :=
  negb (is_markdown c)
  || (match source c with [] => false | _ :: _ => true end && forallb plain_line (source c)).

Definition markdown_cell (lines : list string) : cell := mkCell "markdown" lines None "".


(** Two lists of change-detection values that agree as far as both go. *)
Definition fp_compatible {A : Type} (l1 l2 : list A) : Prop :=
  prefix_of l1 l2 \/ prefix_of l2 l1.

(** Two runs whose tasks carry the same change-detection values, position
    by position: equal lists when both runs return, and the shorter list a
    prefix of the longer when a run raises. *)
Definition sim {A B : Type} (R : A -> B -> Prop) (m1 : Gen A) (m2 : Gen B) : Prop :=
  match snd m1, snd m2 with
  | Ok a, Ok b => fingerprints m1 = fingerprints m2 /\ R a b
  | Raise _, Ok _ => prefix_of (fingerprints m1) (fingerprints m2)
  | Ok _, Raise _ => prefix_of (fingerprints m2) (fingerprints m1)
  | Raise _, Raise _ => fp_compatible (fingerprints m1) (fingerprints m2)
  end.

Definition any {A B : Type} (_ : A) (_ : B) : Prop := True.


(** ** The actions of the tasks: [render_example_index] and [render_example] *)

(** What an action can raise: an exception of the generator's kind, or the
    [AttributeError] of a method looked up on a value that has none. *)
Inductive failure : Type :=
| Exn (e : exn)
| AttributeError (attribute : string).

Inductive outcome (A : Type) : Type :=
| Done (a : A)
| Failed (f : failure).
Arguments Done {A} a.
Arguments Failed {A} f.

Definition obind {A B} (o : outcome A) (f : A -> outcome B) : outcome B :=
  match o with
  | Done a => f a
  | Failed e => Failed e
  end.

Definition of_result {A} (r : result A) : outcome A :=
  match r with
  | Ok a => Done a
  | Raise e => Failed (Exn e)
  end.

Notation "x <== o ;; k" := (obind o (fun x => k))
  (at level 61, o at next level, right associativity).

(** [range(0, stop, step)] for a positive [step]. *)
Definition py_range (stop step : nat) : list nat :=
  map (fun k => k * step) (seq 0 ((stop + step - 1) / step)).

(** [list(chunks(l, n))]: the slices [l[i:i + n]] for [i] in
    [range(0, len(l), n)]; [range] refuses a zero step. *)
Definition chunks {A : Type} (l : list A) (n : nat) : result (list (list A)) :=
  match n with
  | O => Raise ValueError
  | S _ => Ok (map (fun i => firstn n (skipn i l)) (py_range (length l) n))
  end.

(** A category once its file list is cut into rows. *)
Record index_category : Type := mkIndexCategory {
  ic_name : string;
  ic_rows : list (list string);
  ic_summaries : option (list (string * string))
}.

(** [file_dict["files"] = list(chunks(file_dict["files"], 3))]. *)
Definition chunk_category (c : category) : result index_category :=
  match cat_files c with
  | Some fs =>
      rows <-- chunks fs 3 ;;
      Ok (mkIndexCategory (cat_name c) rows (cat_summaries c))
  | None => Raise (KeyError "files")
  end.

(** The loop over [headers.items()]. *)
Fixpoint chunk_headers (h : headers) : result (list (string * index_category)) :=
  match h with
  | [] => Ok []
  | (head, file_dict) :: r =>
      c <-- chunk_category file_dict ;;
      r' <-- chunk_headers r ;;
      Ok ((head, c) :: r')
  end.

Fixpoint list_eqb (a b : list string) : bool :=
  match a, b with
  | [], [] => true
  | x :: a', y :: b' => String.eqb x y && list_eqb a' b'
  | _, _ => false
  end.

(** The parts of a path with its anchor in front, as [relative_to]
    compares them. *)
Definition abs_parts (p : PyPath.PurePath) : list string :=
  if PyStr.is_empty (PyPath.p_root p) then PyPath.p_parts p
  else "" :: PyPath.p_root p :: PyPath.p_parts p.

(** [p.relative_to(other)]. *)
Definition relative_to (p other : PyPath.PurePath) : result PyPath.PurePath :=
  let n := length (abs_parts other) in
  if match n with
     | O => negb (PyStr.is_empty (PyPath.p_root p))
     | S _ => negb (list_eqb (firstn n (abs_parts p)) (abs_parts other))
     end
  then Raise ValueError
  else Ok (PyPath.mkPath (if Nat.eqb n 1 then PyPath.p_root p else "")
                         (skipn n (abs_parts p))).

Definition is_upper (c : ascii) : bool :=
  let n := nat_of_ascii c in Nat.leb 65 n && Nat.leb n 90.

Definition is_lower (c : ascii) : bool :=
  let n := nat_of_ascii c in Nat.leb 97 n && Nat.leb n 122.

Definition upper_char (c : ascii) : ascii :=
  if is_lower c then ascii_of_nat (nat_of_ascii c - 32) else c.

(** [s.title()]: a letter that follows a letter is lowered, any other
    letter is raised. *)
Fixpoint title_from (after_letter : bool) (s : string) : string :=
  match s with
  | EmptyString => EmptyString
  | String c r =>
      if is_upper c || is_lower c
      then String (if after_letter then PyStr.lower_char c else upper_char c) (title_from true r)
      else String c (title_from false r)
  end.

Definition title (s : string) : string := title_from false s.

(** A value that is a [Path] at some call sites and a [str] at others. *)
Inductive path_or_text : Type :=
| IsPath (p : PyPath.PurePath)
| IsText (s : string).

Definition text_of (v : path_or_text) : string :=
  match v with
  | IsPath p => PyPath.to_str p
  | IsText s => s
  end.

Record index_context : Type := mkIndexContext {
  ix_headers : list (string * index_category);
  ix_lang : string;
  ix_pagekind : list string;
  ix_permalink : string;
  ix_title : string;
  ix_description : string
}.

(** A call of [site.render_template(template, output, context)]. *)
Record render_call (C : Type) : Type := mkRenderCall {
  rc_template : string;
  rc_output : string;
  rc_context : C
}.
Arguments mkRenderCall {C}.
Arguments rc_template {C}.
Arguments rc_output {C}.
Arguments rc_context {C}.

(** [render_example_index]: the call it hands to the template engine. *)
Definition render_example_index (kw : Kw) (ex_type : string) (h : headers)
  (input_folder output_folder0 : string) (output_file : path_or_text)
  : outcome (render_call index_context) :=
  rows <== of_result (chunk_headers h) ;;
  permalink <== match output_file with
                | IsPath p => of_result (relative_to p (output_folder kw))
                | IsText _ => Failed (AttributeError "relative_to")
                end ;;
  let title0 := title (ex_type +++ " Examples") in
  Done (mkRenderCall (ex_type +++ "-example-index.tmpl") (text_of output_file)
          (mkIndexContext rows (default_lang kw) ["example"]
                          (PyPath.to_str permalink) title0 title0)).

(** Pygments and the notebook compiler. *)
Record Highlighter : Type := mkHighlighter {
  (** [None] stands for [ClassNotFound] *)
  get_lexer_for_filename : string -> option string;
  guess_lexer : string -> option string;
  (** [highlight(code, lexer, NikolaPygmentsHTML(name))] *)
  highlight : string -> string -> string -> string;
  (** [_nbformat_read] followed by [_compile_string] *)
  ipynb_compile : string -> result string
}.

Record example_context : Type := mkExampleContext {
  ex_code : string;
  ex_title : string;
  ex_permalink : string;
  ex_lang : string;
  ex_description : string;
  ex_source_link : string;
  ex_pagekind : list string;
  ex_needs_ipython_css : bool
}.

(** The [code] of a listing page and whether it needs the notebook style. *)
Definition example_code (w : World) (hl : Highlighter) (in_name : PyPath.PurePath)
  : result (string * bool) :=
  if String.eqb (PyPath.suffix in_name) ".ipynb" then
    text <-- fs_read w in_name ;;
    ipynb_raw <-- ipynb_compile hl text ;;
    ipynb_html <-- lxml_fromstring w ipynb_raw ;;
    Ok (lxml_tostring w ipynb_html, true)
  else if String.eqb (PyPath.suffix in_name) ".m" then
    bytes <-- fs_read w in_name ;;
    Ok (highlight hl bytes "MatlabLexer" (PyPath.name in_name), false)
  else
    lexer <-- match get_lexer_for_filename hl (PyPath.name in_name) with
              | Some lexer => Ok lexer
              | None =>
                  bytes <-- fs_read w in_name ;;
                  match guess_lexer hl bytes with
                  | Some lexer => Ok lexer
                  | None => Ok "TextLexer"
                  end
              end ;;
    bytes <-- fs_read w in_name ;;
    Ok (highlight hl bytes lexer (PyPath.name in_name), false).

(** [render_example]: the call it hands to the template engine. *)
Definition render_example (w : World) (hl : Highlighter) (kw : Kw)
  (in_name out_name : path_or_text) (input_folder output_folder0 : string)
  : outcome (render_call example_context) :=
  match in_name with
  | IsText _ => Failed (AttributeError "suffix")
  | IsPath in_path =>
      code <== of_result (example_code w hl in_path) ;;
      let title0 := PyPath.name in_path in
      match out_name with
      | IsText _ => Failed (AttributeError "relative_to")
      | IsPath out_path =>
          permalink <== of_result (relative_to out_path (output_folder kw)) ;;
          Done (mkRenderCall "examples.tmpl" (PyPath.to_str out_path)
                  (mkExampleContext (fst code) title0 (PyPath.to_str permalink)
                                    (default_lang kw) title0 (PyPath.stem permalink)
                                    ["example"] (snd code)))
      end
  end.

(** The listing-page target that [python_file] builds for a file. *)
Definition python_html_target (kw : Kw) (example_folder : string) (f : PyPath.PurePath)
  (html_name : string) : PyPath.PurePath :=
  PyPath.joinpath (output_folder kw)
                  [example_folder; PyPath.stem (PyPath.parent f); html_name].

(** ** Further notions *)

(** The paths of a list of folder mappings, sources and destinations. *)
Definition mapping_paths (l : list (string * string)) : list string :=
  flat_map (fun e => [fst e; snd e]) l.

Fixpoint has_upper (s : string) : bool :=
  match s with
  | EmptyString => false
  | String c r => is_upper c || has_upper r
  end.


(** A file is listed in [h] under the category of its parent folder. *)
Definition listed (f : PyPath.PurePath) (h : headers) : Prop :=
  exists c fs,
    dict_get (PyPath.stem (PyPath.parent f)) h = Some c
    /\ cat_files c = Some fs
    /\ In (PyPath.to_str f) fs.

(** A file has a summary recorded in [h] under its name. *)
Definition summarised (f : PyPath.PurePath) (h : headers) : Prop :=
  exists c sm d,
    dict_get (PyPath.stem (PyPath.parent f)) h = Some c
    /\ cat_summaries c = Some sm
    /\ dict_get (PyPath.name f) sm = Some d.

(** The shape of a task that does some work: one name, which is its one
    target, and one action. *)
Definition well_formed_task (t : task) : Prop :=
  t_basename t = plugin_name
  /\ (t = group_task
      \/ exists n a, t_name t = Some n /\ t_targets t = [n] /\ t_actions t = [a]
                     /\ t_clean t = true).

Definition has_slash (s : string) : bool := PyStr.mem_char "/" s.

(** The first file of the Python scenarios. *)
Definition python_file_a : PyPath.PurePath := PyPath.of_str "/r/ex/py/thermo/a.py".

Definition demo_highlighter : Highlighter :=
  mkHighlighter (fun name => if PyStr.endswith name ".py" then Some "PythonLexer" else None)
                (fun _ => None)
                (fun code lexer name => "<pre>" +++ code +++ "</pre>")
                (fun _ => Raise JSONDecodeError).

(** A text that parses to a path without root. *)
Definition rootless (s : string) : bool := PyStr.is_empty (PyPath.root_of s).

Definition has_files (c : category) : bool :=
  match cat_files c with
  | Some _ => true
  | None => false
  end.

(** The parts that a list of texts adds to a path they are joined to. *)
Definition joined_parts (args : list string) : list string :=
  flat_map (fun a => PyPath.p_parts (PyPath.of_str a)) args.

(** The two tasks that [python_file] yields for a file. *)
Definition python_html_task (kw : Kw) (uptodate2 : list (string * uval)) (deps : list string)
  (input_folder example_folder : string) (f : PyPath.PurePath) (html_name : string) : task :=
  mkTask plugin_name
         (Some (PyPath.to_str (python_html_target kw example_folder f html_name)))
         (deps ++ [PyPath.to_str f])
         [PyPath.to_str (python_html_target kw example_folder f html_name)]
         [mkAction RenderExample
            [AText (PyPath.to_str f);
             AText (PyPath.to_str (python_html_target kw example_folder f html_name));
             AText input_folder; AText example_folder]]
         [mkConfigChanged uptodate2 "build_examples:source"] true.

Definition python_copy_target (kw : Kw) (example_folder : string) (f : PyPath.PurePath)
  : PyPath.PurePath :=
  PyPath.joinpath (output_folder kw)
                  [example_folder; PyPath.stem (PyPath.parent f); PyPath.name f].

Definition python_copy_task (kw : Kw) (example_folder : string) (f : PyPath.PurePath) : task :=
  mkTask plugin_name
         (Some (PyPath.to_str (python_copy_target kw example_folder f)))
         [PyPath.to_str f]
         [PyPath.to_str (python_copy_target kw example_folder f)]
         [mkAction UtilsCopyFile
            [AText (PyPath.to_str f);
             AText (PyPath.to_str (python_copy_target kw example_folder f))]]
         [] true.

(** The headers after the loop over the two documented files. *)
Definition python_headers_after_documented : headers :=
  dict_set "thermo"
    (mkCategory "Thermodynamics"
       (Some ["/r/ex/py/thermo/a.py"; "/r/ex/py/thermo/b.py"])
       (Some [("a.py", "Adiabatic flame."); ("b.py", "Adiabatic flame.")]))
    python_headers.

(** A Matlab folder followed by a Python folder. *)
Definition matlab_then_python_site : Site :=
  demo_site [("ex/m", "examples/matlab"); ("ex/py", "examples/python")].

(** What the embedding leaves of a cell in its rewritten form: the type,
    the attachments and the rest, the number of lines, every line that has
    neither [img] nor [![] in it, and all of a cell that is not markdown. *)
Definition same_shape (c c' : cell) : Prop :=
  cell_type c' = cell_type c
  /\ attachments c' = attachments c
  /\ cell_other c' = cell_other c
  /\ Forall2 (fun s s' => PyStr.contains "img" s = false ->
                          PyStr.contains "![" s = false -> s' = s)
             (source c) (source c')
  /\ (cell_type c <> "markdown" -> c' = c).

(** An entry of the input folder that the Jupyter loop takes as a category. *)
Definition jupyter_directory (w : World) (d : PyPath.PurePath) : bool :=
  fs_is_dir w d
  && negb (PyStr.startswith (PyPath.name d) ".")
  && negb (PyStr.mem (PyPath.suffix d) ignored_extensions).

Definition is_copy_task (t : task) : bool :=
  forallb (fun a => match a_callable a with
                    | UtilsCopyFile => true
                    | _ => false
                    end) (t_actions t).

(** A Jupyter folder with a category directory that [headers] does not name. *)
Definition jupyter_world_kinetics : World :=
  table_world (mkTables []
    [("/ex/j", ["kinetics"]); ("/ex/j/kinetics", [])] [] [] [] [] [] []).

(** The entries of a Matlab folder that the discovery loop does not skip. *)
Definition matlab_kept (p : PyPath.PurePath) (entries : list string) : list string :=
  filter (fun e => negb (matlab_skipped (PyPath.child p e))) entries.

(** An entry name as a directory listing gives it: no slash in it, and
    neither empty nor a single dot. *)
Definition plain_entry (e : string) : bool := negb (has_slash e) && PyPath.keep_part e.

(** Every listing of the world holds such names only. *)
Definition plain_listings (w : World) : Prop :=
  forall d es, fs_listdir w d = Ok es -> forallb plain_entry es = true.

Definition valid_root (r : string) : Prop := r = "" \/ r = "/" \/ r = "//".

(** The site-wide fingerprint dictionary of a site on which it can be
    built; empty otherwise. *)
Definition site_uptodate (site : Site) (kw : Kw) : list (string * uval) :=
  match base_uptodate site kw with
  | Ok u => u
  | Raise _ => []
  end.

(** A site on which [c] is a translatable key. *)
Definition translatable_c_site : Site :=
  mkSite "en" [("ex/py", "examples/python")] "output" "index.html" true "cache"
         "context" [("extra_head", "deps")] ["blog_title"; "c"]
         (fun k lang => k +++ "@" +++ lang)
         (fun name => [name]).




(** * Properties *)

(** ** Sanity checks of the text and path functions *)

Example strip_demo : PyStr.strip ("  % Demo " +++ PyStr.nl) = "% Demo".
Proof. reflexivity. Qed.

Example strip_chars_demo : PyStr.strip_chars "%" "%% a % b %" = " a % b ".
Proof. reflexivity. Qed.

Example lines_demo :
  PyStr.lines ("a" +++ PyStr.nl +++ PyStr.nl +++ "b") = ["a" +++ PyStr.nl; PyStr.nl; "b"].
Proof. reflexivity. Qed.

Example path_demo :
  PyPath.to_str (PyPath.of_str "//a/./b//c/") = "//a/b/c"
  /\ PyPath.suffix (PyPath.of_str "a/b/flame.py") = ".py"
  /\ PyPath.stem (PyPath.of_str "a/.hidden") = ".hidden"
  /\ PyPath.with_suffix_name (PyPath.of_str "a/b/flame.py") ".py.html" = Ok "flame.py.html"
  /\ PyPath.os_join "output" (PyPath.os_join "/abs" "index.html") = "/abs/index.html".
Proof. repeat split; reflexivity. Qed.

Example regex_demo :
  Re.img_tag_match "<img a/> and <img b/> tail" = Some 21
  /\ Re.md_image_first "x ![a](b) ![c](d)" = Ok ("a", "b")
  /\ Re.scan (fun s => option_map fst (Re.md_image_match s)) (fun _ => "I") 0 "x ![a](b) ![c](d)."
     = "x I I.".
Proof. repeat split; reflexivity. Qed.

(** ** Natural ordering *)










(** ** The generator monad *)

Lemma gbind_ok {A B} (ts : list task) (a : A) (f : A -> Gen B) :
  gbind (ts, Ok a) f = (ts ++ fst (f a), snd (f a)).
Proof. simpl. destruct (f a); reflexivity. Qed.

Lemma gbind_raise {A B} (ts : list task) (e : exn) (f : A -> Gen B) :
  gbind (ts, Raise e) f = (ts, Raise e).
Proof. reflexivity. Qed.

Lemma gbind_glift_ok {A B} (r : result A) (a : A) (f : A -> Gen B) :
  r = Ok a -> gbind (glift r) f = f a.
Proof. intros ->. unfold glift. rewrite gbind_ok. simpl. destruct (f a); reflexivity. Qed.

Lemma gbind_glift_raise {A B} (r : result A) (e : exn) (f : A -> Gen B) :
  r = Raise e -> gbind (glift r) f = ([], Raise e).
Proof. intros ->. reflexivity. Qed.

Lemma in_gbind {A B} (m : Gen A) (f : A -> Gen B) (t : task) :
  In t (fst (gbind m f)) ->
  In t (fst m) \/ exists a, snd m = Ok a /\ In t (fst (f a)).
Proof.
  destruct m as [ts [a | e]].
  - rewrite gbind_ok. simpl. intros H. apply in_app_or in H as [H | H]; eauto.
  - simpl. auto.
Qed.

Lemma in_gfold {S X} (P : task -> Prop) (f : S -> X -> Gen S) :
  (forall s x t, In t (fst (f s x)) -> P t) ->
  forall l s t, In t (fst (gfold f l s)) -> P t.
Proof.
  intros Hf l. induction l as [| x l IH]; simpl; intros s t H.
  - destruct H.
  - apply in_gbind in H as [H | (s' & _ & H)]; eauto.
Qed.

Lemma gfold_no_yield {S X} (f : S -> X -> Gen S) :
  (forall s x, fst (f s x) = []) ->
  forall l s, fst (gfold f l s) = [].
Proof.
  intros Hf l s. destruct (fst (gfold f l s)) as [| t ts] eqn:E; [reflexivity |].
  exfalso. apply (in_gfold (fun _ => False) f) with (l := l) (s := s) (t := t).
  - intros s0 x t0. rewrite Hf. intros [].
  - rewrite E. left. reflexivity.
Qed.

Lemma rfold_invariant {S X} (P : S -> Prop) (f : S -> X -> result S) :
  (forall s x s', P s -> f s x = Ok s' -> P s') ->
  forall l s s', P s -> rfold f l s = Ok s' -> P s'.
Proof.
  intros Hf l. induction l as [| x l IH]; simpl; intros s s' Hs H.
  - inversion H; subst; exact Hs.
  - destruct (f s x) as [s1 | e] eqn:E; simpl in H; [| discriminate].
    eapply IH; [eapply Hf; eauto | exact H].
Qed.

(** ** The listing loops of the Matlab and Jupyter branches *)

Lemma load_render_listing : load_function "render_listing" = Raise (NameError "render_listing").
Proof. reflexivity. Qed.

Lemma matlab_listing_run w kw u deps inf exf (f : PyPath.PurePath) :
  matlab_listing w kw u deps inf exf tt f
  = if listing_skipped f then ([], Ok tt) else ([], Raise (NameError "render_listing")).
Proof.
  unfold matlab_listing, listing_skipped.
  destruct (String.eqb (PyPath.to_str f) ".DS_Store"); simpl; [reflexivity |].
  destruct (PyStr.mem (PyPath.suffix f) ignored_extensions); reflexivity.
Qed.

Lemma jupyter_listing_run w kw u deps inf exf (f : PyPath.PurePath) :
  jupyter_listing w kw u deps inf exf tt f
  = if listing_skipped f then ([], Ok tt) else ([], Raise (NameError "render_listing")).
Proof.
  unfold jupyter_listing, listing_skipped.
  destruct (String.eqb (PyPath.to_str f) ".DS_Store"); simpl; [reflexivity |].
  destruct (PyStr.mem (PyPath.suffix f) ignored_extensions); reflexivity.
Qed.

Lemma matlab_listing_yields w kw u deps inf exf files :
  fst (gfold (matlab_listing w kw u deps inf exf) files tt) = [].
Proof.
  apply gfold_no_yield. intros [] x. rewrite matlab_listing_run.
  destruct (listing_skipped x); reflexivity.
Qed.

Lemma jupyter_listing_yields w kw u deps inf exf files :
  fst (gfold (jupyter_listing w kw u deps inf exf) files tt) = [].
Proof.
  apply gfold_no_yield. intros [] x. rewrite jupyter_listing_run.
  destruct (listing_skipped x); reflexivity.
Qed.

(** The tasks a Matlab or Jupyter folder yields: nothing before its index
    task and nothing after it. *)
Lemma gen_matlab_yields w site kw u inf exf doc :
  fst (gen_matlab w site kw u inf exf doc)
  = match matlab_collect w inf doc with
    | Ok st =>
        [index_task "matlab" (os_index_name kw exf)
           (template_deps site "matlab-example-index.tmpl")
           (matlab_headers (snd (fst st)) (Natsort.natsorted (map PyPath.to_str (fst (fst st)))))
           inf exf
           (folder_uptodate u
              (matlab_headers (snd (fst st)) (Natsort.natsorted (map PyPath.to_str (fst (fst st)))))
              (map PyPath.to_str (fst (fst st))))]
    | Raise _ => []
    end.
Proof.
  unfold gen_matlab. destruct (matlab_collect w inf doc) as [st | e] eqn:E; [| reflexivity].
  unfold glift. rewrite gbind_ok. unfold gyield. rewrite gbind_ok. simpl.
  pose proof (matlab_listing_yields w kw u (template_deps site "matlab-example-index.tmpl")
                inf exf (fst (fst st))) as Hl.
  destruct (gfold _ (fst (fst st)) tt) as [ts [[] | e]]; simpl in *; subst; reflexivity.
Qed.

Lemma gen_jupyter_yields w site kw u inf exf doc :
  fst (gen_jupyter w site kw u inf exf doc)
  = match jupyter_collect w kw inf exf doc with
    | Ok st =>
        [index_task "jupyter" (os_index_name kw exf)
           (template_deps site "jupyter-example-index.tmpl")
           (fst (fst st)) inf exf
           (folder_uptodate u (fst (fst st)) (map PyPath.to_str (snd (fst st))))]
    | Raise _ => []
    end.
Proof.
  unfold gen_jupyter. destruct (jupyter_collect w kw inf exf doc) as [st | e] eqn:E; [| reflexivity].
  unfold glift. rewrite gbind_ok. unfold gyield. rewrite gbind_ok. simpl.
  pose proof (jupyter_listing_yields w kw u (template_deps site "jupyter-example-index.tmpl")
                inf exf (snd (fst st))) as Hl.
  destruct (gfold _ (snd (fst st)) tt) as [ts [[] | e]]; simpl in *; subst; reflexivity.
Qed.

(** ** The tasks of the Python branch *)

Lemma python_file_yields w kw u2 deps inf exf st f t :
  In t (fst (python_file w kw u2 deps inf exf st f)) -> is_file_task t = true.
Proof.
  unfold python_file. intros H.
  repeat (apply in_gbind in H; destruct H as [H | (? & _ & H)]; [simpl in H; try contradiction |]).
  - destruct H as [<- | []]. reflexivity.
  - destruct H as [<- | []]. reflexivity.
  - destruct H.
Qed.

Lemma python_collect_yields w site kw u inf exf doc t :
  In t (fst (python_collect w site kw u inf exf doc)) -> is_file_task t = true.
Proof.
  unfold python_collect. intros H.
  eapply (in_gfold (fun t0 => is_file_task t0 = true)); [| exact H].
  intros s x t0. apply python_file_yields.
Qed.

Lemma file_task_not_index t : is_file_task t = true -> is_index_task t = false.
Proof.
  unfold is_file_task, is_index_task. induction (t_actions t) as [| a l IH]; simpl; [reflexivity |].
  intros H. apply andb_true_iff in H as [Ha Hl]. rewrite (IH Hl), orb_false_r.
  unfold is_file_action in Ha. unfold is_index_action. destruct (a_callable a); congruence.
Qed.


Lemma gen_python_yields w site kw u inf exf doc :
  fst (gen_python w site kw u inf exf doc)
  = fst (python_collect w site kw u inf exf doc)
    ++ match snd (python_collect w site kw u inf exf doc) with
       | Ok st =>
           [index_task "python" (python_index_name kw exf)
              (template_deps site "python-example-index.tmpl")
              (sort_headers (fst st)) inf exf (python_uptodate2 w u inf)]
       | Raise _ => []
       end.
Proof.
  unfold gen_python. destruct (python_collect w site kw u inf exf doc) as [ts [st | e]].
  - rewrite gbind_ok. unfold gyield. rewrite gbind_ok. simpl. reflexivity.
  - simpl. rewrite app_nil_r. reflexivity.
Qed.

(** ** File lists handed to the index pages *)








(** ** Name resolution in the listing loops *)

Lemma matlab_listing_loop w kw u deps inf exf files :
  gfold (matlab_listing w kw u deps inf exf) files tt
  = ([], if forallb listing_skipped files then Ok tt else Raise (NameError "render_listing")).
Proof.
  induction files as [| f files IH]; simpl; [reflexivity |].
  rewrite matlab_listing_run. destruct (listing_skipped f); simpl; [| reflexivity].
  rewrite IH. reflexivity.
Qed.

Lemma jupyter_listing_loop w kw u deps inf exf files :
  gfold (jupyter_listing w kw u deps inf exf) files tt
  = ([], if forallb listing_skipped files then Ok tt else Raise (NameError "render_listing")).
Proof.
  induction files as [| f files IH]; simpl; [reflexivity |].
  rewrite jupyter_listing_run. destruct (listing_skipped f); simpl; [| reflexivity].
  rewrite IH. reflexivity.
Qed.

(** C2, as amended.  [render_listing] is bound nowhere, so the name fails
    to load while the task dictionary of a Matlab or Jupyter file is being
    built, inside the generator: a file that passes the filters of the
    listing loop ends task generation with [NameError], no listing page or
    copy task is ever yielded, and the only task a Matlab or Jupyter folder
    yields is its index task. *)
Theorem render_listing_fails_during_generation :
  load_function "render_listing" = Raise (NameError "render_listing")
  /\ (forall w kw u deps inf exf files,
         gfold (matlab_listing w kw u deps inf exf) files tt
         = ([], if forallb listing_skipped files then Ok tt
                else Raise (NameError "render_listing")))
  /\ (forall w kw u deps inf exf files,
         gfold (jupyter_listing w kw u deps inf exf) files tt
         = ([], if forallb listing_skipped files then Ok tt
                else Raise (NameError "render_listing")))
  /\ (forall w site kw u inf exf doc,
         Forall (fun t => is_index_task t = true) (fst (gen_matlab w site kw u inf exf doc))
         /\ length (fst (gen_matlab w site kw u inf exf doc)) <= 1)
  /\ (forall w site kw u inf exf doc,
         Forall (fun t => is_index_task t = true) (fst (gen_jupyter w site kw u inf exf doc))
         /\ length (fst (gen_jupyter w site kw u inf exf doc)) <= 1).
Proof.
  split; [reflexivity |].
  split; [intros; apply matlab_listing_loop |].
  split; [intros; apply jupyter_listing_loop |].
  split; intros.
  - rewrite gen_matlab_yields. destruct (matlab_collect w inf doc); simpl; split; auto.
  - rewrite gen_jupyter_yields. destruct (jupyter_collect w kw inf exf doc); simpl; split; auto.
Qed.

(** C2, as stated, fails: for the Matlab file [flame_demo.m] no task with
    the listing page as target is yielded; the run yields the group task
    and the index task and ends with [NameError]. *)
Lemma no_listing_task_is_yielded :
  ~ (exists t, In t (fst (run matlab_world matlab_site))
               /\ In "output/examples/matlab/flame_demo.m.html" (t_targets t))
  /\ map t_targets (fst (run matlab_world matlab_site))
     = [[]; ["output/examples/matlab/index.html"]]
  /\ snd (run matlab_world matlab_site) = Raise (NameError "render_listing").
Proof.
  split; [| split; vm_compute; reflexivity].
  intros (t & Ht & Hin).
  assert (E : exists l, In l (map t_targets (fst (run matlab_world matlab_site)))
                        /\ In "output/examples/matlab/flame_demo.m.html" l)
    by (exists (t_targets t); split; [apply in_map; exact Ht | exact Hin]).
  destruct E as (l & Hl & Hin'). vm_compute in Hl.
  destruct Hl as [<- | [<- | []]].
  - destruct Hin'.
  - destruct Hin' as [E | []]. discriminate.
Qed.

(** ** One index task per folder *)

Lemma no_index_among_file_tasks (ts : list task) :
  (forall t, In t ts -> is_file_task t = true) -> index_tasks ts = [].
Proof.
  induction ts as [| t ts IH]; simpl; intros H; [reflexivity |].
  rewrite (file_task_not_index t) by (apply H; left; reflexivity).
  apply IH. intros t0 Ht0. apply H. right. exact Ht0.
Qed.

Lemma index_tasks_app (l1 l2 : list task) :
  index_tasks (l1 ++ l2) = index_tasks l1 ++ index_tasks l2.
Proof. apply filter_app. Qed.

Lemma index_tasks_gen_python w site kw u inf exf doc :
  index_tasks (fst (gen_python w site kw u inf exf doc))
  = match snd (python_collect w site kw u inf exf doc) with
    | Ok st =>
        [index_task "python" (python_index_name kw exf)
           (template_deps site "python-example-index.tmpl")
           (sort_headers (fst st)) inf exf (python_uptodate2 w u inf)]
    | Raise _ => []
    end.
Proof.
  rewrite gen_python_yields, index_tasks_app.
  rewrite no_index_among_file_tasks by (intros t; apply python_collect_yields).
  destruct (snd (python_collect w site kw u inf exf doc)); reflexivity.
Qed.

(** C6, as amended.  A folder whose destination contains none of [python],
    [matlab], [jupyter] yields no task.  A folder of one of the three kinds
    yields at most one index task, and exactly one, with the index file
    under the destination under the output folder as its target, when the
    part of its processing that precedes the index task does not raise. *)
Theorem one_index_task_per_recognised_folder :
  forall w site kw u doc inf exf,
    (kind_of exf = None -> gen_folder w site kw u doc (inf, exf) = ([], Ok doc))
    /\ (forall k, kind_of exf = Some k ->
                  collect_ok w site kw u k inf exf doc = true ->
                  exists t, index_tasks (fst (gen_folder w site kw u doc (inf, exf))) = [t]
                            /\ t_targets t = [index_target kw k exf])
    /\ length (index_tasks (fst (gen_folder w site kw u doc (inf, exf)))) <= 1.
Proof.
  intros w site kw u doc inf exf. unfold gen_folder, collect_ok. simpl.
  split; [intros ->; reflexivity |]. split.
  - intros k Hk. rewrite Hk. destruct k.
    + rewrite index_tasks_gen_python.
      destruct (snd (python_collect w site kw u inf exf doc)); [| discriminate].
      intros _. eexists; split; reflexivity.
    + rewrite gen_matlab_yields.
      destruct (matlab_collect w inf doc); [| discriminate].
      intros _. eexists; split; reflexivity.
    + rewrite gen_jupyter_yields.
      destruct (jupyter_collect w kw inf exf doc); [| discriminate].
      intros _. eexists; split; reflexivity.
  - destruct (kind_of exf) as [[ | | ] |].
    + rewrite index_tasks_gen_python.
      destruct (snd (python_collect w site kw u inf exf doc)); simpl; auto.
    + rewrite gen_matlab_yields. destruct (matlab_collect w inf doc); simpl; auto.
    + rewrite gen_jupyter_yields. destruct (jupyter_collect w kw inf exf doc); simpl; auto.
    + simpl. auto.
Qed.

Lemma one_index_task_per_recognised_folder_witness :
  kind_of "examples/python" = Some Python
  /\ collect_ok python_world_documented python_site (make_kw python_site)
       (site_uptodate python_site (make_kw python_site)) Python
       "ex/py" "examples/python" None = true
  /\ exists t,
      index_tasks (fst (gen_folder python_world_documented python_site (make_kw python_site)
                          (site_uptodate python_site (make_kw python_site)) None
                          ("ex/py", "examples/python"))) = [t]
      /\ t_targets t = ["output/examples/python/index.html"].
Proof.
  split; [reflexivity |]. split; [vm_compute; reflexivity |].
  apply (proj1 (proj2 (one_index_task_per_recognised_folder
                         python_world_documented python_site (make_kw python_site)
                         (site_uptodate python_site (make_kw python_site)) None
                         "ex/py" "examples/python")) Python).
  - reflexivity.
  - vm_compute; reflexivity.
Defined.

(** C6, as stated, fails: a mapping to [examples/cxx], with no duplicate
    path, yields no index task. *)
Lemma unrecognised_folder_has_no_index_task :
  snd (set_site cxx_site) = []
  /\ index_tasks (fst (run (table_world empty_tables) cxx_site)) = []
  /\ run (table_world empty_tables) cxx_site = ([group_task], Ok None).
Proof. repeat split; vm_compute; reflexivity. Qed.

(** ** The check of [set_site] *)

Lemma gbind_assoc {A B C} (m : Gen A) (f : A -> Gen B) (g : B -> Gen C) :
  gbind (gbind m f) g = gbind m (fun a => gbind (f a) g).
Proof.
  destruct m as [ts [a | e]]; [| reflexivity].
  rewrite !gbind_ok. destruct (f a) as [ts1 [b | e1]]; simpl.
  - destruct (g b) as [ts2 r]. simpl. rewrite app_assoc. reflexivity.
  - reflexivity.
Qed.

Lemma gbind_gret {A B} (a : A) (f : A -> Gen B) : gbind (gret a) f = f a.
Proof. unfold gret. rewrite gbind_ok. simpl. destruct (f a); reflexivity. Qed.

Lemma gbind_ext {A B} (m : Gen A) (f g : A -> Gen B) :
  (forall a, f a = g a) -> gbind m f = gbind m g.
Proof. intros H. destruct m as [ts [a | e]]; simpl; [rewrite H |]; reflexivity. Qed.

Lemma gfold_app {S X} (f : S -> X -> Gen S) (l1 l2 : list X) (s : S) :
  gfold f (l1 ++ l2) s = gbind (gfold f l1 s) (gfold f l2).
Proof.
  revert s; induction l1 as [| x l1 IH]; intros s; simpl.
  - symmetry. apply gbind_gret.
  - rewrite gbind_assoc. apply gbind_ext. intros s'. apply IH.
Qed.

Lemma check_entry_log (l : list (string * string)) (a log : list string) :
  exists more, snd (fold_left check_entry l (a, log)) = log ++ more.
Proof.
  revert a log; induction l as [| [s d] l IH]; intros a log; simpl.
  - exists []. rewrite app_nil_r. reflexivity.
  - destruct (PyStr.mem s a || PyStr.mem d a).
    + destruct (IH a (log ++ [duplicate_message (if PyStr.mem s a then s else d)])) as (more & E).
      rewrite E, <- app_assoc. eexists; reflexivity.
    + apply IH.
Qed.

Lemma check_entry_last (pre : list (string * string)) (entry : string * string) :
  fold_left check_entry (pre ++ [entry]) ([], [])
  = if reported pre entry
    then (appearing_after pre,
          snd (fold_left check_entry pre ([], [])) ++ [duplicate_message (problem_of pre entry)])
    else (appearing_after pre ++ [fst entry; snd entry],
          snd (fold_left check_entry pre ([], []))).
Proof.
  rewrite fold_left_app. simpl. unfold reported, problem_of, appearing_after.
  destruct (fold_left check_entry pre ([], [])) as [a log]. destruct entry as [s d]. simpl.
  destruct (PyStr.mem s a || PyStr.mem d a); reflexivity.
Qed.

(** C5, as amended.  A mapping whose source or destination was recorded by
    an earlier mapping is reported through the logger and its own paths are
    not recorded; nothing else is skipped: [gen_tasks] iterates over the
    whole of [EXAMPLES_FOLDERS], and when generation gets to the reported
    mapping (the fingerprint dictionary is built and the mappings before it
    are processed without error), it is processed by [gen_folder] like any
    other. *)
Theorem duplicate_folder_is_reported_but_processed :
  forall site w pre entry post,
    EXAMPLES_FOLDERS site = pre ++ entry :: post ->
    reported pre entry = true ->
    In (duplicate_message (problem_of pre entry)) (snd (set_site site))
    /\ appearing_after (pre ++ [entry]) = appearing_after pre
    /\ examples_folders (fst (set_site site)) = EXAMPLES_FOLDERS site
    /\ forall u ts doc,
        base_uptodate site (make_kw site) = Ok u ->
        gfold (gen_folder w site (make_kw site) u) pre None = (ts, Ok doc) ->
        exists rest,
          fst (run w site)
          = group_task :: ts ++ fst (gen_folder w site (make_kw site) u doc entry) ++ rest.
Proof.
  intros site w pre entry post Hsplit Hrep.
  split; [| split; [| split; [reflexivity |]]].
  - unfold set_site. simpl. rewrite Hsplit.
    replace (pre ++ entry :: post) with ((pre ++ [entry]) ++ post)
      by (rewrite <- app_assoc; reflexivity).
    rewrite fold_left_app, check_entry_last, Hrep.
    destruct (check_entry_log post (appearing_after pre)
                (snd (fold_left check_entry pre ([], []))
                 ++ [duplicate_message (problem_of pre entry)])) as (more & E).
    rewrite E. apply in_or_app. left. apply in_or_app. right. left. reflexivity.
  - unfold appearing_after at 1. rewrite check_entry_last, Hrep. reflexivity.
  - intros u ts doc Hu Hpre. unfold run, gen_tasks.
    change (fst (set_site site)) with (make_kw site).
    change (examples_folders (make_kw site)) with (EXAMPLES_FOLDERS site).
    rewrite Hsplit, Hu. unfold gyield. rewrite gbind_ok.
    unfold glift. rewrite gbind_ok. cbn [fst snd app].
    change (pre ++ entry :: post) with (pre ++ [entry] ++ post).
    rewrite gfold_app, Hpre, gbind_ok. simpl gfold.
    destruct (gen_folder w site (make_kw site) u doc entry) as [ts1 [d1 | e1]].
    + rewrite gbind_ok. simpl. eexists. reflexivity.
    + simpl. exists []. rewrite app_nil_r. reflexivity.
Qed.

Lemma duplicate_folder_is_reported_but_processed_witness :
  EXAMPLES_FOLDERS duplicate_site
  = [("ex/py", "examples/python")] ++ ("ex/py2", "examples/python") :: []
  /\ reported [("ex/py", "examples/python")] ("ex/py2", "examples/python") = true
  /\ In (duplicate_message "examples/python") (snd (set_site duplicate_site)).
Proof.
  split; [reflexivity |]. split; [reflexivity |].
  apply (proj1 (duplicate_folder_is_reported_but_processed duplicate_site
                  python_world_documented [("ex/py", "examples/python")]
                  ("ex/py2", "examples/python") [] eq_refl eq_refl)).
Defined.

(** C5, as stated, fails: the second of two mappings to [examples/python]
    is reported, and its index task is yielded all the same. *)
Lemma reported_folder_still_yields_tasks :
  reported [("ex/py", "examples/python")] ("ex/py2", "examples/python") = true
  /\ snd (set_site duplicate_site) = [duplicate_message "examples/python"]
  /\ exists t, In t (fst (run python_world_documented duplicate_site))
               /\ is_index_task t = true
               /\ In "ex/py2" (task_texts t).
Proof.
  split; [reflexivity |]. split; [reflexivity |].
  exists (last (fst (run python_world_documented duplicate_site)) group_task).
  split; [| split]; vm_compute; auto 20.
Qed.

(** ** Summaries *)

Lemma is_empty_true (s : string) : PyStr.is_empty s = true -> s = "".
Proof. destruct s; [reflexivity | discriminate]. Qed.

Lemma matlab_scan_first_comment (ls : list string) : matlab_scan ls "" = first_comment ls.
Proof.
  induction ls as [| line r IH]; simpl; [reflexivity |].
  unfold comment_text.
  destruct (PyStr.startswith (PyStr.strip line) "%").
  - destruct (PyStr.is_empty (PyStr.strip (PyStr.strip_chars "%" (PyStr.strip line)))) eqn:E.
    + rewrite (is_empty_true _ E). exact IH.
    + reflexivity.
  - simpl. exact IH.
Qed.

Lemma first_comment_skips (pre : list string) (line : string) (post : list string) :
  Forall (fun l => comment_text l = "") pre ->
  comment_text line <> "" ->
  first_comment (pre ++ line :: post) = comment_text line.
Proof.
  induction 1 as [| l pre Hl _ IH]; intros Hline; simpl.
  - destruct (comment_text line); [congruence | reflexivity].
  - rewrite Hl. simpl. apply IH. exact Hline.
Qed.

(** C9, as amended.  The summary of a Matlab file comes from one line: the
    first line, wherever it stands in the file, that starts with a percent
    sign and has text left once the percent signs and blanks at its ends
    are stripped; lines before it need not be comments and comment lines
    after it are not read.  The restated-name heuristic is applied to that
    text. *)
Theorem matlab_summary_is_first_comment_line :
  (forall stem text,
      matlab_summary stem text = strip_restated_name stem (first_comment (PyStr.lines text)))
  /\ (forall pre line post,
         Forall (fun l => comment_text l = "") pre ->
         comment_text line <> "" ->
         first_comment (pre ++ line :: post) = comment_text line).
Proof.
  split.
  - intros stem text. unfold matlab_summary, strip_restated_name.
    rewrite matlab_scan_first_comment. reflexivity.
  - apply first_comment_skips.
Qed.

Lemma matlab_summary_is_first_comment_line_witness :
  Forall (fun l => comment_text l = "") ["x = 1;" +++ PyStr.nl]
  /\ comment_text ("% late comment" +++ PyStr.nl) <> ""
  /\ first_comment (["x = 1;" +++ PyStr.nl] ++ ("% late comment" +++ PyStr.nl) :: ["% more" +++ PyStr.nl])
     = "late comment".
Proof.
  assert (H1 : Forall (fun l => comment_text l = "") ["x = 1;" +++ PyStr.nl])
    by (repeat constructor).
  assert (H2 : comment_text ("% late comment" +++ PyStr.nl) <> "")
    by (vm_compute; discriminate).
  split; [exact H1 |]. split; [exact H2 |].
  exact (proj2 matlab_summary_is_first_comment_line _ _ ["% more" +++ PyStr.nl] H1 H2).
Defined.

(** C9, as stated, fails: a comment below a statement is taken although the
    run of comments at the top is empty, and of a two-line run at the top
    only the first line is taken. *)
Lemma matlab_summary_is_not_the_top_run :
  (matlab_summary "demo" late_comment_text = "late comment"
   /\ spec_top_run (PyStr.lines late_comment_text) = []
   /\ matlab_summary "demo" late_comment_text
      <> strip_restated_name "demo" (spec_matlab_doc late_comment_text))
  /\ (matlab_summary "demo" two_comment_text = "first line"
      /\ spec_top_run (PyStr.lines two_comment_text) = ["first line"; "second line"]
      /\ matlab_summary "demo" two_comment_text
         <> strip_restated_name "demo" (spec_matlab_doc two_comment_text)).
Proof.
  repeat split; try (vm_compute; reflexivity); vm_compute; discriminate.
Qed.

Lemma embed_cells_doc w p dir (cs : list cell) :
  forall doc out,
    embed_cells w p dir cs doc = Ok out ->
    snd out = if PyStr.is_empty doc then first_line_doc cs else doc.
Proof.
  induction cs as [| c r IH]; intros doc out; simpl.
  - intros E; inversion E; subst; simpl. destruct doc; reflexivity.
  - unfold is_markdown. destruct (String.eqb (cell_type c) "markdown"); simpl.
    + remember (embed_lines w p dir c (source c)) as el eqn:El. clear El.
      destruct (PyStr.is_empty doc) eqn:Ed.
      * unfold first_line_summary. destruct (source c) as [| s ss]; simpl; [discriminate |].
        destruct el as [src | e]; simpl; [| discriminate].
        destruct (embed_cells w p dir r _) as [o | e] eqn:Er; simpl; [| discriminate].
        intros E; inversion E; subst; simpl. apply IH in Er. rewrite Er.
        destruct (PyStr.is_empty (PyStr.strip (PyStr.replace_char "#" "" s))); reflexivity.
      * simpl. destruct el as [src | e]; simpl; [| discriminate].
        destruct (embed_cells w p dir r doc) as [o | e] eqn:Er; simpl; [| discriminate].
        intros E; inversion E; subst; simpl. apply IH in Er. rewrite Er, Ed. reflexivity.
    + destruct (embed_cells w p dir r doc) as [o | e] eqn:Er; simpl; [| discriminate].
      intros E; inversion E; subst; simpl. apply IH in Er. rewrite Er.
      destruct (PyStr.is_empty doc); reflexivity.
Qed.

Lemma embed_lines_plain w p dir c (ls : list string) :
  forallb plain_line ls = true -> embed_lines w p dir c ls = Ok ls.
Proof.
  induction ls as [| s r IH]; simpl; [reflexivity |].
  intros H. apply andb_true_iff in H as [Hs Hr].
  unfold plain_line in Hs. apply andb_true_iff in Hs as [H1 H2].
  apply negb_true_iff in H1, H2. unfold embed_line. rewrite H1, H2. simpl.
  rewrite (IH Hr). reflexivity.
Qed.

Lemma embed_cells_plain w p dir (cs : list cell) :
  forallb plain_cell cs = true ->
  forall doc, embed_cells w p dir cs doc
              = Ok (cs, if PyStr.is_empty doc then first_line_doc cs else doc).
Proof.
  induction cs as [| c r IH]; simpl; intros H doc.
  - destruct doc; reflexivity.
  - apply andb_true_iff in H as [Hc Hr]. unfold plain_cell, is_markdown in *.
    destruct (String.eqb (cell_type c) "markdown"); simpl in *.
    + assert (El : embed_lines w p dir c (source c) = Ok (source c)).
      { apply embed_lines_plain. destruct (source c); [discriminate | exact Hc]. }
      rewrite El. unfold first_line_summary.
      destruct (source c) as [| s ss] eqn:Es; [discriminate |].
      destruct (PyStr.is_empty doc) eqn:Ed; simpl.
      * rewrite (IH Hr). simpl. rewrite <- Es.
        destruct c; simpl. destruct (PyStr.is_empty (PyStr.strip _)); reflexivity.
      * rewrite (IH Hr). simpl. rewrite Ed, <- Es.
        destruct c; reflexivity.
    + rewrite (IH Hr). simpl. destruct (PyStr.is_empty doc); reflexivity.
Qed.

Lemma first_line_doc_intro (pre : list cell) (c : cell) (more : list string) (rest : list cell) :
  forallb (fun x => negb (is_markdown x)) pre = true ->
  is_markdown c = true ->
  source c = ("# Intro" +++ PyStr.nl) :: more ->
  first_line_doc (pre ++ c :: rest) = "Intro".
Proof.
  intros Hpre Hc Hs. induction pre as [| x pre IH]; simpl in *.
  - rewrite Hc, Hs. reflexivity.
  - apply andb_true_iff in Hpre as [Hx Hpre]. apply negb_true_iff in Hx. rewrite Hx.
    apply IH. exact Hpre.
Qed.

(** C8, as amended.  The summary of a notebook is taken over the markdown
    cells in order: it is the first of their first lines that is not empty
    once every hash character is removed, at any position, and the blanks
    around it are trimmed; a notebook without such a line has the empty
    summary.  A notebook without image lines, whose markdown cells have a
    first line, always gets its summary.  A first markdown cell that starts
    with the line [# Intro] gives [Intro]. *)
Theorem notebook_summary_is_first_nonempty_line :
  (forall w p dir nb doc,
      notebook_summary w p dir nb = Ok doc -> doc = first_line_doc (cells nb))
  /\ (forall w p dir nb,
         forallb plain_cell (cells nb) = true ->
         notebook_summary w p dir nb = Ok (first_line_doc (cells nb)))
  /\ (forall pre c more rest,
         forallb (fun x => negb (is_markdown x)) pre = true ->
         is_markdown c = true ->
         source c = ("# Intro" +++ PyStr.nl) :: more ->
         first_line_doc (pre ++ c :: rest) = "Intro").
Proof.
  split; [| split].
  - intros w p dir nb doc. unfold notebook_summary.
    destruct (embed_cells w p dir (cells nb) "") as [out | e] eqn:E; simpl; [| discriminate].
    intros H; inversion H; subst. apply embed_cells_doc in E. exact E.
  - intros w p dir nb H. unfold notebook_summary. rewrite (embed_cells_plain w p dir _ H).
    reflexivity.
  - apply first_line_doc_intro.
Qed.

Lemma notebook_summary_is_first_nonempty_line_witness :
  notebook_summary (jupyter_world [md_img_line] true) j_root j_thermo (notebook_of [md_img_line])
  = Ok "Intro"
  /\ "Intro" = first_line_doc (cells (notebook_of [md_img_line])).
Proof.
  assert (H : notebook_summary (jupyter_world [md_img_line] true) j_root j_thermo
                (notebook_of [md_img_line]) = Ok "Intro") by (vm_compute; reflexivity).
  split; [exact H |].
  exact (proj1 notebook_summary_is_first_nonempty_line _ _ _ _ _ H).
Defined.

(** C8, as stated, fails: a hash inside the line is removed too, and a
    first markdown cell whose first line is only markers passes the summary
    on to the next markdown cell. *)
Lemma notebook_summary_is_not_the_stripped_first_line :
  (notebook_summary (table_world empty_tables) j_root j_thermo
     (mkNotebook [markdown_cell ["C# basics" +++ PyStr.nl]] "") = Ok "C basics"
   /\ spec_notebook_summary [markdown_cell ["C# basics" +++ PyStr.nl]] = "C# basics")
  /\ (notebook_summary (table_world empty_tables) j_root j_thermo
        (mkNotebook [markdown_cell ["##" +++ PyStr.nl]; markdown_cell ["Later" +++ PyStr.nl]] "")
      = Ok "Later"
      /\ spec_notebook_summary [markdown_cell ["##" +++ PyStr.nl];
                                markdown_cell ["Later" +++ PyStr.nl]] = "").
Proof. repeat split; vm_compute; reflexivity. Qed.

Lemma scan_body_without_docstring (body : list ast_stmt) (doc : option string) :
  (forall s, ~ In (SExpr (EStr s)) body) -> scan_body body doc = doc.
Proof.
  induction body as [| st r IH]; simpl; intros H; [reflexivity |].
  destruct st as [[s |] |].
  - exfalso. apply (H s). left. reflexivity.
  - apply IH. intros s Hs. apply (H s). right. exact Hs.
  - apply IH. intros s Hs. apply (H s). right. exact Hs.
Qed.

(** C1, at the failing inputs.  A Python file without a module-level string
    leaves [doc] as it was.  As the first file of the run it makes task
    generation end with [UnboundLocalError] before any task of the folder is
    yielded; after a documented file it is recorded under the summary of
    that file, not under the empty text. *)
Theorem python_summary_without_docstring :
  run python_world_first python_site = ([group_task], Raise (UnboundLocalError "doc"))
  /\ recorded_summaries (fst (run python_world_second python_site))
     = [("a.py", "Adiabatic flame."); ("b.py", "Adiabatic flame.")]
  /\ scan_body [SOther] None = None
  /\ scan_body [SOther] (Some "Adiabatic flame.") = Some "Adiabatic flame.".
Proof. repeat split; vm_compute; reflexivity. Qed.

(** ** Image embedding *)

Lemma prefix_empty (s : string) : String.prefix "" s = true.
Proof. destruct s; reflexivity. Qed.

Lemma prefix_of_empty (sub : string) : String.prefix sub "" = true -> sub = "".
Proof. destruct sub; [reflexivity | discriminate]. Qed.

Lemma contains_empty (s : string) : PyStr.contains "" s = true.
Proof. destruct s; reflexivity. Qed.

Lemma split_first_cons (sep : string) (c : ascii) (r : string) :
  PyStr.split_first sep (String c r)
  = if String.prefix sep (String c r) then "" else String c (PyStr.split_first sep r).
Proof. reflexivity. Qed.

Lemma contains_cons (sub : string) (c : ascii) (r : string) :
  PyStr.contains sub (String c r) = String.prefix sub (String c r) || PyStr.contains sub r.
Proof. reflexivity. Qed.

Lemma rfind_cons (sub : string) (c : ascii) (r : string) :
  PyStr.rfind sub (String c r)
  = match PyStr.rfind sub r with
    | Some i => Some (S i)
    | None => if String.prefix sub (String c r) then Some 0 else None
    end.
Proof. reflexivity. Qed.

Lemma contains_tail (sub : string) (c : ascii) (r : string) :
  PyStr.contains sub r = true -> PyStr.contains sub (String c r) = true.
Proof. intros H. rewrite contains_cons, H. apply orb_true_r. Qed.

Lemma prefix_split_first (sep s : string) :
  forall sub, String.prefix sub (PyStr.split_first sep s) = true -> String.prefix sub s = true.
Proof.
  induction s as [| c r IH]; intros sub.
  - simpl. destruct sep; simpl; auto.
  - rewrite split_first_cons. destruct (String.prefix sep (String c r)).
    + intros H. apply prefix_of_empty in H. subst. reflexivity.
    + destruct sub as [| a sub']; [reflexivity |]. simpl.
      destruct (ascii_dec a c); [apply IH | auto].
Qed.

Lemma contains_split_first (sub sep s : string) :
  PyStr.contains sub (PyStr.split_first sep s) = true -> PyStr.contains sub s = true.
Proof.
  induction s as [| c r IH].
  - simpl. destruct sep; simpl; auto.
  - rewrite split_first_cons. destruct (String.prefix sep (String c r)) eqn:Ep.
    + intros H. assert (sub = "") as ->; [| apply contains_empty].
      destruct sub; [reflexivity | discriminate].
    + intros H. rewrite contains_cons in H. apply orb_true_iff in H as [H | H].
      * rewrite contains_cons. apply orb_true_iff. left.
        apply (prefix_split_first sep (String c r)).
        rewrite split_first_cons, Ep. exact H.
      * apply contains_tail, IH, H.
Qed.

Lemma contains_drop (sub : string) (n : nat) :
  forall s, PyStr.contains sub (PyStr.drop n s) = true -> PyStr.contains sub s = true.
Proof.
  induction n as [| n IH]; intros s; [simpl; auto |].
  destruct s as [| c r]; [simpl; auto |].
  simpl PyStr.drop. intros H. apply contains_tail, IH, H.
Qed.

Lemma rfind_contains (sub s : string) :
  forall j, PyStr.rfind sub s = Some j -> PyStr.contains sub s = true.
Proof.
  induction s as [| c r IH]; intros j.
  - simpl. destruct sub; [reflexivity | discriminate].
  - rewrite rfind_cons. destruct (PyStr.rfind sub r) as [i |] eqn:E.
    + intros _. apply contains_tail. eapply IH; reflexivity.
    + destruct (String.prefix sub (String c r)) eqn:Ep; [| discriminate].
      intros _. rewrite contains_cons, Ep. reflexivity.
Qed.

Lemma img_tag_match_needs_close (s : string) (n : nat) :
  Re.img_tag_match s = Some n -> PyStr.contains "/>" s = true.
Proof.
  unfold Re.img_tag_match. destruct (String.prefix "<img" s); [| discriminate].
  destruct (PyStr.rfind "/>" _) as [j |] eqn:E; [| discriminate].
  intros _. apply rfind_contains in E. apply contains_split_first in E.
  apply contains_drop in E. exact E.
Qed.

Lemma scan_without_close (f : string -> string) (s : string) :
  PyStr.contains "/>" s = false -> Re.scan img_tag_length f 0 s = s.
Proof.
  induction s as [| c r IH]; intros H; [reflexivity |].
  assert (Hm : img_tag_length (String c r) = None).
  { unfold img_tag_length. destruct (Re.img_tag_match (String c r)) as [n |] eqn:E; [| reflexivity].
    apply img_tag_match_needs_close in E. congruence. }
  change (Re.scan img_tag_length f 0 (String c r))
    with (match img_tag_length (String c r) with
          | Some (S n) => f (PyStr.take (S n) (String c r)) +++ Re.scan img_tag_length f n r
          | _ => String c (Re.scan img_tag_length f 0 r)
          end).
  rewrite Hm. f_equal. apply IH.
  rewrite contains_cons in H. apply orb_false_iff in H as [_ H]. exact H.
Qed.

Lemma embed_line_open_tag w p dir c (s s' : string) :
  PyStr.contains "img" s = true ->
  PyStr.contains "/>" s = false ->
  embed_line w p dir c s = Ok s' -> s' = s.
Proof.
  intros Himg Hclose. unfold embed_line. rewrite Himg.
  destruct (lxml_fromstring w s) as [img | e]; simpl; [| discriminate].
  destruct (dict_item "src" (el_attrib img)) as [fname | e]; simpl; [| discriminate].
  destruct (get_b64_str w p dir fname) as [b64 | e]; simpl; [| discriminate].
  unfold re_sub. destruct (if PyStr.contains PyStr.backslash _ then _ else _) as [f | e];
    simpl; [| discriminate].
  intros E. inversion E; subst. apply scan_without_close. exact Hclose.
Qed.

(** C3, at the failing input.  A line that holds an image tag without the
    closing [/>] is parsed, its image is read and encoded, and the line is
    then stored back unchanged, since [<img.*/>] finds no match: whenever the
    embedding of such a line succeeds, the line still carries the external
    path.  The notebook with the line [<img src="fig.png">] comes out of the
    embedding step as it went in. *)
Theorem open_img_tag_keeps_external_path :
  (forall w p dir c s s',
      PyStr.contains "img" s = true ->
      PyStr.contains "/>" s = false ->
      embed_line w p dir c s = Ok s' -> s' = s)
  /\ embed_cells (jupyter_world [open_img_line] true) j_root j_thermo
       (cells (notebook_of [open_img_line])) ""
     = Ok (cells (notebook_of [open_img_line]), "Intro")
  /\ PyStr.contains "fig.png" open_img_line = true
  /\ image_reference (jupyter_world [open_img_line] true) open_img_line = Some "fig.png".
Proof.
  split; [apply embed_line_open_tag |]. repeat split; vm_compute; reflexivity.
Qed.

Lemma open_img_tag_keeps_external_path_witness :
  PyStr.contains "img" open_img_line = true
  /\ PyStr.contains "/>" open_img_line = false
  /\ exists s', embed_line (jupyter_world [open_img_line] true) j_root j_thermo
                  (markdown_cell [open_img_line]) open_img_line = Ok s'
                /\ s' = open_img_line.
Proof.
  split; [reflexivity |]. split; [reflexivity |].
  eexists. split; [vm_compute; reflexivity |].
  apply (proj1 open_img_tag_keeps_external_path
           (jupyter_world [open_img_line] true) j_root j_thermo
           (markdown_cell [open_img_line]) open_img_line _ eq_refl eq_refl).
  vm_compute; reflexivity.
Defined.










(** ** Change-detection values *)

Lemma prefix_of_refl {A} (l : list A) : prefix_of l l.
Proof. exists []. rewrite app_nil_r. reflexivity. Qed.

Lemma prefix_of_app {A} (l l1 l2 : list A) : prefix_of l1 l2 -> prefix_of (l ++ l1) (l ++ l2).
Proof. intros (r & ->). exists r. rewrite app_assoc. reflexivity. Qed.

Lemma prefix_of_app_r {A} (l1 l2 r : list A) : prefix_of l1 l2 -> prefix_of l1 (l2 ++ r).
Proof. intros (r0 & ->). exists (r0 ++ r). rewrite app_assoc. reflexivity. Qed.

Lemma prefix_of_nth {A} (l1 l2 : list A) (k : nat) (a : A) :
  prefix_of l1 l2 -> nth_error l1 k = Some a -> nth_error l2 k = Some a.
Proof.
  intros (r & ->) H. rewrite nth_error_app1; [exact H |].
  apply nth_error_Some. congruence.
Qed.

Lemma fingerprints_pair {A} (ts : list task) (r : result A) :
  fingerprints (ts, r) = map t_uptodate ts.
Proof. reflexivity. Qed.

Lemma fingerprints_gbind_ok {A B} (ts : list task) (a : A) (f : A -> Gen B) :
  fingerprints (gbind (ts, Ok a) f) = map t_uptodate ts ++ fingerprints (f a).
Proof. rewrite gbind_ok. unfold fingerprints. simpl. apply map_app. Qed.

Lemma sim_bind {A1 A2 B1 B2} (R : A1 -> A2 -> Prop) (R' : B1 -> B2 -> Prop)
  (m1 : Gen A1) (m2 : Gen A2) (f1 : A1 -> Gen B1) (f2 : A2 -> Gen B2) :
  sim R m1 m2 ->
  (forall a b, R a b -> sim R' (f1 a) (f2 b)) ->
  sim R' (gbind m1 f1) (gbind m2 f2).
Proof.
  destruct m1 as [ts1 [a | e1]], m2 as [ts2 [b | e2]]; intros H Hf;
    unfold sim in H; simpl in H; rewrite ?fingerprints_pair in H.
  - destruct H as [Hfp HR]. specialize (Hf a b HR). unfold sim in *.
    rewrite !fingerprints_gbind_ok, !gbind_ok. simpl snd. rewrite Hfp.
    destruct (snd (f1 a)), (snd (f2 b)).
    + destruct Hf as [E HR']. rewrite E. auto.
    + apply prefix_of_app, Hf.
    + apply prefix_of_app, Hf.
    + destruct Hf as [Hf | Hf]; [left | right]; apply prefix_of_app, Hf.
  - unfold sim. rewrite fingerprints_gbind_ok, gbind_ok, gbind_raise. simpl snd.
    rewrite fingerprints_pair.
    destruct (snd (f1 a)); [| right]; apply prefix_of_app_r, H.
  - unfold sim. rewrite fingerprints_gbind_ok, gbind_ok, gbind_raise. simpl snd.
    rewrite fingerprints_pair.
    destruct (snd (f2 b)); [| left]; apply prefix_of_app_r, H.
  - rewrite !gbind_raise. unfold sim. simpl snd. rewrite !fingerprints_pair. exact H.
Qed.

Lemma sim_glift {A B} (R : A -> B -> Prop) (r1 : result A) (r2 : result B) :
  (forall a b, r1 = Ok a -> r2 = Ok b -> R a b) -> sim R (glift r1) (glift r2).
Proof.
  intros H. unfold sim, glift. simpl. destruct r1, r2; simpl.
  - split; [reflexivity | apply H; reflexivity].
  - apply prefix_of_refl.
  - apply prefix_of_refl.
  - left. apply prefix_of_refl.
Qed.

Lemma sim_glift_any {A B} (r1 : result A) (r2 : result B) : sim any (glift r1) (glift r2).
Proof. apply sim_glift. intros; exact I. Qed.

Lemma sim_gret {A B} (R : A -> B -> Prop) (a : A) (b : B) : R a b -> sim R (gret a) (gret b).
Proof. intros H. unfold sim. simpl. auto. Qed.

Lemma sim_gyield (t1 t2 : task) :
  t_uptodate t1 = t_uptodate t2 -> sim any (gyield t1) (gyield t2).
Proof. intros H. unfold sim, fingerprints. simpl. rewrite H. split; [reflexivity | exact I]. Qed.

Lemma sim_same {A} (R : A -> A -> Prop) (m : Gen A) :
  (forall a, R a a) -> sim R m m.
Proof.
  intros H. unfold sim. destruct (snd m); [auto | left; apply prefix_of_refl].
Qed.

Lemma sim_gfold {S1 S2 X} (R : S1 -> S2 -> Prop)
  (f1 : S1 -> X -> Gen S1) (f2 : S2 -> X -> Gen S2) :
  (forall s1 s2 x, R s1 s2 -> sim R (f1 s1 x) (f2 s2 x)) ->
  forall l s1 s2, R s1 s2 -> sim R (gfold f1 l s1) (gfold f2 l s2).
Proof.
  intros Hf l. induction l as [| x l IH]; intros s1 s2 HR; simpl.
  - apply sim_gret, HR.
  - eapply sim_bind; [apply Hf, HR | intros a b Hab; apply IH, Hab].
Qed.

Lemma sim_compatible {A B} (R : A -> B -> Prop) (m1 : Gen A) (m2 : Gen B) :
  sim R m1 m2 ->
  fp_compatible (fingerprints m1) (fingerprints m2)
  /\ (is_ok (snd m1) = true -> is_ok (snd m2) = true -> fingerprints m1 = fingerprints m2).
Proof.
  unfold sim, fp_compatible. destruct (snd m1), (snd m2); simpl; intros H.
  - destruct H as [E _]. rewrite E. split; [left; apply prefix_of_refl | auto].
  - split; [right; exact H | discriminate].
  - split; [left; exact H | discriminate].
  - split; [exact H | discriminate].
Qed.

Lemma rfold_related {S1 S2 X} (R : S1 -> S2 -> Prop)
  (f1 : S1 -> X -> result S1) (f2 : S2 -> X -> result S2) :
  (forall s1 s2 x s1' s2', R s1 s2 -> f1 s1 x = Ok s1' -> f2 s2 x = Ok s2' -> R s1' s2') ->
  forall l s1 s2 s1' s2',
    R s1 s2 -> rfold f1 l s1 = Ok s1' -> rfold f2 l s2 = Ok s2' -> R s1' s2'.
Proof.
  intros Hf l. induction l as [| x l IH]; simpl; intros s1 s2 s1' s2' HR H1 H2.
  - inversion H1; inversion H2; subst. exact HR.
  - destruct (f1 s1 x) as [a |] eqn:E1; simpl in H1; [| discriminate].
    destruct (f2 s2 x) as [b |] eqn:E2; simpl in H2; [| discriminate].
    eapply IH; [eapply Hf; eauto | eauto | eauto].
Qed.

Lemma listing_result_sim (files1 files2 : list PyPath.PurePath) :
  files1 = files2 ->
  sim any (A := unit) (B := unit)
      ([], if forallb listing_skipped files1 then Ok tt else Raise (NameError "render_listing"))
      ([], if forallb listing_skipped files2 then Ok tt else Raise (NameError "render_listing")).
Proof.
  intros ->. unfold sim, fingerprints. simpl.
  destruct (forallb listing_skipped files2); simpl;
    [split; [reflexivity | exact I] | left; apply prefix_of_refl].
Qed.

Section TwoWorlds.

Variables w1 w2 : World.
Hypothesis listing : same_listing w1 w2.
Variable site : Site.
Variable kw : Kw.
Variable u : list (string * uval).

Lemma python_file_sim u2 deps inf exf st1 st2 (f : PyPath.PurePath) :
  sim any (python_file w1 kw u2 deps inf exf st1 f) (python_file w2 kw u2 deps inf exf st2 f).
Proof.
  unfold python_file.
  repeat (eapply sim_bind; [apply sim_glift_any | intros ? ? _]).
  eapply sim_bind; [apply sim_gyield; reflexivity | intros ? ? _].
  eapply sim_bind; [apply sim_gyield; reflexivity | intros ? ? _].
  apply sim_gret. exact I.
Qed.

Lemma gen_python_sim inf exf doc1 doc2 :
  sim any (gen_python w1 site kw u inf exf doc1) (gen_python w2 site kw u inf exf doc2).
Proof.
  destruct listing as (Hglob & _ & _).
  unfold gen_python, python_collect, python_uptodate2, python_examples.
  rewrite (Hglob (PyPath.of_str inf)).
  eapply sim_bind.
  - apply (sim_gfold any); [| exact I]. intros s1 s2 x _. apply python_file_sim.
  - intros st1 st2 _.
    eapply sim_bind; [apply sim_gyield; reflexivity | intros ? ? _].
    apply sim_gret. exact I.
Qed.

Lemma matlab_collect_files inf doc1 doc2 st1 st2 :
  matlab_collect w1 inf doc1 = Ok st1 ->
  matlab_collect w2 inf doc2 = Ok st2 ->
  fst (fst st1) = fst (fst st2).
Proof.
  destruct listing as (_ & Hdir & _). unfold matlab_collect.
  rewrite (Hdir (PyPath.of_str inf)).
  destruct (fs_listdir w2 (PyPath.of_str inf)) as [entries | e]; simpl; [| discriminate].
  apply (rfold_related (fun s1 s2 => fst (fst s1) = fst (fst s2))); [| reflexivity].
  intros s1 s2 x s1' s2' HR. unfold matlab_file.
  destruct (matlab_skipped (PyPath.child (PyPath.of_str inf) x)).
  - intros E1 E2. inversion E1; inversion E2; subst. exact HR.
  - destruct (fs_read w1 _); simpl; [| discriminate].
    destruct (fs_read w2 _); simpl; [| discriminate].
    intros E1 E2. inversion E1; inversion E2; subst. simpl. rewrite HR. reflexivity.
Qed.

Lemma gen_matlab_sim inf exf doc1 doc2 :
  sim any (gen_matlab w1 site kw u inf exf doc1) (gen_matlab w2 site kw u inf exf doc2).
Proof.
  unfold gen_matlab.
  eapply sim_bind with (R := fun st1 st2 => fst (fst st1) = fst (fst st2)).
  - apply sim_glift. intros a b Ha Hb. eapply matlab_collect_files; eauto.
  - intros st1 st2 Hfiles.
    eapply sim_bind.
    + apply sim_gyield. simpl. unfold folder_uptodate. simpl. rewrite Hfiles. reflexivity.
    + intros ? ? _. rewrite Hfiles, !matlab_listing_loop.
      eapply sim_bind with (R := any).
      * unfold sim, fingerprints. simpl.
        destruct (forallb listing_skipped (fst (fst st2))); simpl;
          [split; [reflexivity | exact I] | left; apply prefix_of_refl].
      * intros ? ? _. apply sim_gret. exact I.
Qed.

Lemma dict_set_keys {V} (k : string) (v c : V) (d : list (string * V)) :
  dict_item k d = Ok c -> map fst (dict_set k v d) = map fst d.
Proof.
  unfold dict_item. induction d as [| [k1 v1] d IH]; simpl; [discriminate |].
  destruct (String.eqb k k1); simpl; [reflexivity |].
  intros H. rewrite IH; [reflexivity | exact H].
Qed.

Lemma jupyter_file_files dir exf p1 p2 st1 st2 entry st1' st2' :
  jf_files st1 = jf_files st2 ->
  jupyter_file w1 kw p1 dir exf st1 entry = Ok st1' ->
  jupyter_file w2 kw p2 dir exf st2 entry = Ok st2' ->
  jf_files st1' = jf_files st2'.
Proof.
  destruct listing as (_ & _ & Hisdir). intros HR. unfold jupyter_file.
  rewrite (Hisdir (PyPath.child dir entry)).
  destruct (PyStr.mem _ ignored_extensions || fs_is_dir w2 _).
  - intros E1 E2. inversion E1; inversion E2; subst. exact HR.
  - destruct (String.eqb _ ".ipynb_checkpoints" || String.eqb _ ".DS_Store").
    + intros E1 E2. inversion E1; inversion E2; subst. exact HR.
    + destruct (fs_read w1 _); simpl; [| discriminate].
      destruct (json_loads w1 _); simpl; [| discriminate].
      destruct (embed_cells w1 _ _ _ _); simpl; [| discriminate].
      destruct (fs_write_json w1 _ _); simpl; [| discriminate].
      destruct (fs_read w2 _); simpl; [| discriminate].
      destruct (json_loads w2 _); simpl; [| discriminate].
      destruct (embed_cells w2 _ _ _ _); simpl; [| discriminate].
      destruct (fs_write_json w2 _ _); simpl; [| discriminate].
      intros E1 E2. inversion E1; inversion E2; subst. simpl. rewrite HR. reflexivity.
Qed.

Lemma jupyter_category_related p exf st1 st2 entry st1' st2' :
  map fst (fst (fst st1)) = map fst (fst (fst st2)) /\ snd (fst st1) = snd (fst st2) ->
  jupyter_category w1 kw p exf st1 entry = Ok st1' ->
  jupyter_category w2 kw p exf st2 entry = Ok st2' ->
  map fst (fst (fst st1')) = map fst (fst (fst st2')) /\ snd (fst st1') = snd (fst st2').
Proof.
  destruct listing as (_ & Hdir & Hisdir). intros [Hk Hf]. unfold jupyter_category.
  rewrite (Hisdir (PyPath.child p entry)), (Hdir (PyPath.child p entry)).
  destruct (negb (fs_is_dir w2 _) || _).
  - intros E1 E2. inversion E1; inversion E2; subst. auto.
  - destruct (PyStr.mem _ ignored_extensions).
    + intros E1 E2. inversion E1; inversion E2; subst. auto.
    + destruct (fs_listdir w2 (PyPath.child p entry)) as [entries | e]; simpl; [| discriminate].
      destruct (rfold (jupyter_file w1 kw p _ exf) entries _) as [fs1 |] eqn:F1;
        simpl; [| discriminate].
      destruct (rfold (jupyter_file w2 kw p _ exf) entries _) as [fs2 |] eqn:F2;
        simpl; [| discriminate].
      assert (Hfs : jf_files fs1 = jf_files fs2).
      { refine (rfold_related (fun a b => jf_files a = jf_files b) _ _ _ entries _ _ _ _ _ F1 F2).
        - intros a b x a' b' Hab. apply jupyter_file_files. exact Hab.
        - simpl. exact Hf. }
      match goal with
      | |- context [dict_item ?k ?h] => destruct (dict_item k h) as [c1 |] eqn:D1
      end; simpl; [| discriminate].
      intros E1.
      match goal with
      | |- context [dict_item ?k ?h] => destruct (dict_item k h) as [c2 |] eqn:D2
      end; simpl; [| discriminate].
      intros E2. inversion E1; inversion E2; subst. simpl.
      rewrite (dict_set_keys _ _ _ _ D1), (dict_set_keys _ _ _ _ D2). auto.
Qed.

Lemma jupyter_collect_related inf exf doc1 doc2 st1 st2 :
  jupyter_collect w1 kw inf exf doc1 = Ok st1 ->
  jupyter_collect w2 kw inf exf doc2 = Ok st2 ->
  map fst (fst (fst st1)) = map fst (fst (fst st2)) /\ snd (fst st1) = snd (fst st2).
Proof.
  destruct listing as (_ & Hdir & _). unfold jupyter_collect.
  rewrite (Hdir (PyPath.of_str inf)).
  destruct (fs_listdir w2 (PyPath.of_str inf)) as [entries | e]; simpl; [| discriminate].
  apply (rfold_related
           (fun s1 s2 => map fst (fst (fst s1)) = map fst (fst (fst s2))
                         /\ snd (fst s1) = snd (fst s2))).
  - intros s1 s2 x s1' s2' HR. apply jupyter_category_related. exact HR.
  - simpl. auto.
Qed.

Lemma gen_jupyter_sim inf exf doc1 doc2 :
  sim any (gen_jupyter w1 site kw u inf exf doc1) (gen_jupyter w2 site kw u inf exf doc2).
Proof.
  unfold gen_jupyter.
  eapply sim_bind with (R := fun st1 st2 =>
                               map fst (fst (fst st1)) = map fst (fst (fst st2))
                               /\ snd (fst st1) = snd (fst st2)).
  - apply sim_glift. intros a b Ha Hb. eapply jupyter_collect_related; eauto.
  - intros st1 st2 [Hkeys Hfiles].
    eapply sim_bind.
    + apply sim_gyield. unfold index_task. cbn [t_uptodate]. unfold folder_uptodate.
      repeat (f_equal; try exact Hfiles; try exact Hkeys).
    + intros ? ? _. rewrite !jupyter_listing_loop.
      eapply sim_bind with (R := any).
      * apply listing_result_sim. exact Hfiles.
      * intros ? ? _. apply sim_gret. exact I.
Qed.

Lemma gen_folder_sim doc1 doc2 entry :
  sim any (gen_folder w1 site kw u doc1 entry) (gen_folder w2 site kw u doc2 entry).
Proof.
  unfold gen_folder. destruct (kind_of (snd entry)) as [[ | | ] |].
  - apply gen_python_sim.
  - apply gen_matlab_sim.
  - apply gen_jupyter_sim.
  - apply sim_gret. exact I.
Qed.

End TwoWorlds.

Lemma run_sim w1 w2 site :
  same_listing w1 w2 -> sim any (run w1 site) (run w2 site).
Proof.
  intros H. unfold run, gen_tasks.
  eapply sim_bind; [apply sim_gyield; reflexivity | intros ? ? _].
  eapply (sim_bind eq); [apply sim_same; reflexivity | intros u ? <-].
  apply (sim_gfold any); [| exact I].
  intros d1 d2 x _. apply gen_folder_sim. exact H.
Qed.

(** C10.  The change-detection values of the yielded tasks are a function of
    the site (configuration, template hooks, translatable context values,
    navigation links, the plugin's [kw]) and of the directory listings (file
    lists and category keys) alone.  Two runs on the same site and the same
    listings, whatever the contents of the files, yield the same value at
    every position that both runs reach; when both return, the two lists of
    values are equal. *)
Theorem fingerprints_depend_on_listed_inputs :
  forall w1 w2 site,
    same_listing w1 w2 ->
    fp_compatible (fingerprints (run w1 site)) (fingerprints (run w2 site))
    /\ (is_ok (snd (run w1 site)) = true -> is_ok (snd (run w2 site)) = true ->
        fingerprints (run w1 site) = fingerprints (run w2 site))
    /\ (forall k f1 f2,
           nth_error (fingerprints (run w1 site)) k = Some f1 ->
           nth_error (fingerprints (run w2 site)) k = Some f2 ->
           f1 = f2).
Proof.
  intros w1 w2 site H.
  destruct (sim_compatible any _ _ (run_sim w1 w2 site H)) as [Hc Heq].
  split; [exact Hc |]. split; [exact Heq |].
  intros k f1 f2 H1 H2. destruct Hc as [Hp | Hp].
  - apply (prefix_of_nth _ _ k f1 Hp) in H1. congruence.
  - apply (prefix_of_nth _ _ k f2 Hp) in H2. congruence.
Qed.

Lemma fingerprints_depend_on_listed_inputs_witness :
  same_listing python_world_second python_world_documented
  /\ fp_compatible (fingerprints (run python_world_second python_site))
                   (fingerprints (run python_world_documented python_site)).
Proof.
  assert (H : same_listing python_world_second python_world_documented)
    by (repeat split; intros p; reflexivity).
  split; [exact H |].
  exact (proj1 (fingerprints_depend_on_listed_inputs _ _ python_site H)).
Defined.

(** * Further properties *)

(** ** Rows of the index page *)

Lemma firstn_plus {A} (a b : nat) (l : list A) :
  firstn (a + b) l = firstn a l ++ firstn b (skipn a l).
Proof.
  revert l; induction a as [| a IH]; intros l; simpl; [reflexivity |].
  destruct l as [| x l]; simpl.
  - destruct b; reflexivity.
  - rewrite IH. reflexivity.
Qed.

Lemma concat_slices {A} (l : list A) (n m : nat) :
  concat (map (fun i => firstn n (skipn i l)) (map (fun k => k * n) (seq 0 m)))
  = firstn (m * n) l.
Proof.
  induction m as [| m IH]; [reflexivity |].
  rewrite seq_S, !map_app, concat_app, IH. simpl.
  rewrite app_nil_r, <- firstn_plus. f_equal. lia.
Qed.

Lemma range_covers (len n : nat) : 0 < n -> len <= (len + n - 1) / n * n.
Proof.
  intros Hn. pose proof (Nat.div_mod_eq (len + n - 1) n) as E.
  pose proof (Nat.mod_upper_bound (len + n - 1) n ltac:(lia)) as U. nia.
Qed.

Lemma range_inside (len n k : nat) : 0 < n -> k < (len + n - 1) / n -> k * n < len.
Proof.
  intros Hn Hk. pose proof (Nat.div_mod_eq (len + n - 1) n) as E.
  pose proof (Nat.mod_upper_bound (len + n - 1) n ltac:(lia)) as U. nia.
Qed.

Lemma nth_map_inside {A B} (f : A -> B) (l : list A) (i : nat) (d : B) (d0 : A) :
  i < length l -> nth i (map f l) d = f (nth i l d0).
Proof.
  intros H. rewrite nth_indep with (d' := f d0) by (rewrite length_map; exact H).
  apply map_nth.
Qed.

Lemma chunks_positive {A} (l : list A) (n : nat) (rows : list (list A)) :
  chunks l n = Ok rows ->
  0 < n /\ rows = map (fun i => firstn n (skipn i l)) (py_range (length l) n).
Proof.
  unfold chunks. destruct n as [| n']; [discriminate |].
  intros E. split; [lia | congruence].
Qed.

(** X1.  Cutting a list into rows loses nothing and changes no order: the rows
    of [chunks(l, n)], put end to end, are [l]. *)
Theorem chunks_concat :
  forall (A : Type) (l : list A) (n : nat) (rows : list (list A)),
    chunks l n = Ok rows -> concat rows = l.
Proof.
  intros A l n rows E. apply chunks_positive in E as [Hn ->].
  unfold py_range. rewrite concat_slices.
  apply firstn_all2. apply range_covers. exact Hn.
Qed.

Lemma chunks_concat_witness :
  chunks ["a.py"; "b.py"; "c.py"; "d.py"] 3 = Ok [["a.py"; "b.py"; "c.py"]; ["d.py"]]
  /\ concat [["a.py"; "b.py"; "c.py"]; ["d.py"]] = ["a.py"; "b.py"; "c.py"; "d.py"].
Proof.
  split; [reflexivity |].
  exact (chunks_concat string ["a.py"; "b.py"; "c.py"; "d.py"] 3 _ eq_refl).
Defined.

(** X2.  The rows of [chunks(l, n)]: there are [ceil(len(l) / n)] of them, none
    is empty, none is longer than [n], and every row but the last has
    exactly [n] entries.  A zero [n] raises [ValueError]. *)
Theorem chunks_rows :
  forall (A : Type) (l : list A) (n : nat),
    chunks l 0 = Raise ValueError
    /\ forall rows,
        chunks l n = Ok rows ->
        length rows = (length l + n - 1) / n
        /\ Forall (fun row => 1 <= length row /\ length row <= n) rows
        /\ forall i, S i < length rows -> length (nth i rows []) = n.
Proof.
  intros A l n. split; [reflexivity |].
  intros rows E. apply chunks_positive in E as [Hn ->]. unfold py_range.
  rewrite !length_map, length_seq. split; [reflexivity |]. split.
  - apply Forall_forall. intros row Hrow.
    apply in_map_iff in Hrow as (i & <- & Hi). apply in_map_iff in Hi as (k & <- & Hk).
    apply in_seq in Hk. pose proof (range_inside (length l) n k Hn ltac:(lia)) as Hin.
    rewrite length_firstn, length_skipn. lia.
  - intros i Hi. rewrite map_map.
    rewrite (nth_map_inside _ _ i [] 0) by (rewrite length_seq; lia).
    rewrite seq_nth by lia. simpl Nat.add.
    pose proof (range_inside (length l) n (S i) Hn Hi) as Hin.
    rewrite length_firstn, length_skipn. simpl in Hin. lia.
Qed.

Lemma chunks_rows_witness :
  chunks ["a.py"; "b.py"; "c.py"; "d.py"] 3 = Ok [["a.py"; "b.py"; "c.py"]; ["d.py"]]
  /\ length [["a.py"; "b.py"; "c.py"]; ["d.py"]] = (4 + 3 - 1) / 3.
Proof.
  split; [reflexivity |].
  exact (proj1 (proj2 (chunks_rows string ["a.py"; "b.py"; "c.py"; "d.py"] 3) _ eq_refl)).
Defined.

(** ** Permalinks *)

Lemma list_eqb_refl (l : list string) : list_eqb l l = true.
Proof. induction l as [| x l IH]; simpl; [reflexivity |]. rewrite String.eqb_refl. exact IH. Qed.

Lemma firstn_length_app {A} (l r : list A) : firstn (length l) (l ++ r) = l.
Proof. induction l as [| x l IH]; simpl; [reflexivity | rewrite IH; reflexivity]. Qed.

Lemma skipn_length_app {A} (l r : list A) : skipn (length l) (l ++ r) = r.
Proof. induction l as [| x l IH]; simpl; [reflexivity | exact IH]. Qed.

Lemma relative_to_extended (root : string) (ps qs : list string) :
  relative_to (PyPath.mkPath root (ps ++ qs)) (PyPath.mkPath root ps)
  = Ok (PyPath.mkPath "" qs).
Proof.
  unfold relative_to, abs_parts. simpl PyPath.p_root. simpl PyPath.p_parts.
  destruct (PyStr.is_empty root) eqn:Er.
  - apply is_empty_true in Er. subst root. destruct ps as [| x ps]; [reflexivity |].
    change (length (x :: ps)) with (S (length ps)).
    change (firstn (S (length ps)) ((x :: ps) ++ qs))
      with (x :: firstn (length ps) (ps ++ qs)).
    rewrite firstn_length_app, list_eqb_refl. simpl negb. cbv iota.
    change (skipn (S (length ps)) ((x :: ps) ++ qs)) with (skipn (length ps) (ps ++ qs)).
    rewrite skipn_length_app. destruct (Nat.eqb (S (length ps)) 1); reflexivity.
  - change (length ("" :: root :: ps)) with (S (S (length ps))).
    change (firstn (S (S (length ps))) ("" :: root :: ps ++ qs))
      with ("" :: root :: firstn (length ps) (ps ++ qs)).
    rewrite firstn_length_app, list_eqb_refl. simpl negb. cbv iota.
    change (skipn (S (S (length ps))) ("" :: root :: ps ++ qs))
      with (skipn (length ps) (ps ++ qs)).
    rewrite skipn_length_app. reflexivity.
Qed.

Lemma joinpath_rootless (p : PyPath.PurePath) (args : list string) :
  forallb rootless args = true ->
  PyPath.joinpath p args
  = PyPath.mkPath (PyPath.p_root p) (PyPath.p_parts p ++ joined_parts args).
Proof.
  unfold PyPath.joinpath. revert p. induction args as [| a args IH]; intros p H; simpl.
  - unfold joined_parts. simpl. rewrite app_nil_r. destruct p; reflexivity.
  - apply andb_true_iff in H as [Ha Hargs]. rewrite (IH _ Hargs).
    unfold PyPath.join. unfold rootless in Ha. simpl PyPath.p_root at 1.
    change (PyPath.p_root (PyPath.of_str a)) with (PyPath.root_of a). rewrite Ha.
    simpl. unfold joined_parts. simpl. rewrite <- app_assoc. reflexivity.
Qed.

(** X3.  [relative_to] undoes [joinpath]: a path built by joining rootless
    texts to a folder is relative to that folder, and the relative path has
    exactly the parts that the texts added.  This is the permalink that both
    actions compute from the task's target. *)
Theorem relative_to_joinpath :
  forall (p : PyPath.PurePath) (args : list string),
    forallb rootless args = true ->
    relative_to (PyPath.joinpath p args) p = Ok (PyPath.mkPath "" (joined_parts args)).
Proof.
  intros p args H. rewrite (joinpath_rootless p args H).
  destruct p as [root ps]. apply relative_to_extended.
Qed.

Lemma relative_to_joinpath_witness :
  forallb rootless ["examples/python"; "index.html"] = true
  /\ relative_to (PyPath.joinpath (PyPath.of_str "output") ["examples/python"; "index.html"])
                 (PyPath.of_str "output")
     = Ok (PyPath.mkPath "" ["examples"; "python"; "index.html"]).
Proof.
  split; [reflexivity |].
  exact (relative_to_joinpath (PyPath.of_str "output") ["examples/python"; "index.html"] eq_refl).
Defined.

(** ** The index action *)

Lemma chunk_headers_complete (h : headers) :
  forallb (fun kc => has_files (snd kc)) h = true ->
  exists rows,
    chunk_headers h = Ok rows
    /\ map fst rows = map fst h
    /\ Forall2 (fun kc row => cat_files (snd kc) = Some (concat (ic_rows (snd row)))
                              /\ ic_name (snd row) = cat_name (snd kc)
                              /\ ic_summaries (snd row) = cat_summaries (snd kc)) h rows.
Proof.
  induction h as [| [k c] h IH]; simpl; intros H.
  - exists []. repeat split. constructor.
  - apply andb_true_iff in H as [Hc Hh]. destruct (IH Hh) as (rows & E & Hk & Hr).
    unfold chunk_category, has_files in *. destruct (cat_files c) as [fs |] eqn:Ef; [| discriminate].
    destruct (chunks fs 3) as [rs | e] eqn:Ec; [| discriminate].
    simpl. rewrite E. simpl. eexists. split; [reflexivity |]. split; [simpl; f_equal; exact Hk |].
    constructor; [| exact Hr]. simpl. apply chunks_positive in Ec as [Hn ->].
    unfold py_range. rewrite concat_slices, firstn_all2 by (apply range_covers; exact Hn).
    auto.
Qed.

Lemma chunk_headers_incomplete (h : headers) :
  forallb (fun kc => has_files (snd kc)) h = false ->
  chunk_headers h = Raise (KeyError "files").
Proof.
  induction h as [| [k c] h IH]; simpl; [discriminate |].
  unfold chunk_category, has_files at 1. destruct (cat_files c) as [fs |]; simpl; [| reflexivity].
  intros H. destruct (chunks fs 3) as [rs | e] eqn:Ec; [| discriminate]. simpl.
  rewrite (IH H). reflexivity.
Qed.

(** X4.  The index action cannot render when its output file is a text, as it
    is for the Matlab and Jupyter folders, whose task name comes from
    [os.path.join]: after the file lists are cut into rows, the lookup of
    [relative_to] on a [str] raises [AttributeError]; when a category has no
    file list (a Jupyter category that was not discovered) the rows already
    fail with [KeyError]. *)
Theorem index_action_fails_on_text_output :
  forall kw ex_type h input_folder example_folder name,
    render_example_index kw ex_type h input_folder example_folder (IsText name)
    = Failed (if forallb (fun kc => has_files (snd kc)) h
              then AttributeError "relative_to"
              else Exn (KeyError "files")).
Proof.
  intros kw ex_type h inf exf name. unfold render_example_index.
  destruct (forallb (fun kc => has_files (snd kc)) h) eqn:E.
  - destruct (chunk_headers_complete h E) as (rows & -> & _). reflexivity.
  - rewrite (chunk_headers_incomplete h E). reflexivity.
Qed.

(** ** The loop over the Python files *)

Lemma gbind_glift_Ok {A B} (a : A) (f : A -> Gen B) : gbind (glift (Ok a)) f = f a.
Proof. apply gbind_glift_ok. reflexivity. Qed.

Lemma gbind_gyield {B} (t : task) (f : unit -> Gen B) :
  gbind (gyield t) f = (t :: fst (f tt), snd (f tt)).
Proof. unfold gyield. rewrite gbind_ok. reflexivity. Qed.

Lemma python_file_cases w kw u2 deps inf exf st (f : PyPath.PurePath) :
  (exists e, python_file w kw u2 deps inf exf st f = ([], Raise e))
  \/ exists h1 text body d h2 html,
      headers_append_file (fst st) (PyPath.stem (PyPath.parent f)) (PyPath.to_str f) = Ok h1
      /\ fs_read w f = Ok text
      /\ ast_parse w text = Ok body
      /\ load_doc (scan_body body (snd st)) = Ok d
      /\ headers_set_summary h1 (PyPath.stem (PyPath.parent f)) (PyPath.name f) d = Ok h2
      /\ PyPath.with_suffix_name f ".py.html" = Ok html
      /\ python_file w kw u2 deps inf exf st f
         = ([python_html_task kw u2 deps inf exf f html; python_copy_task kw exf f],
            Ok (h2, scan_body body (snd st))).
Proof.
  unfold python_file.
  destruct (headers_append_file _ _ _) as [h1 | e] eqn:E1; [| left; eexists; reflexivity].
  rewrite gbind_glift_Ok.
  destruct (fs_read w f) as [text | e] eqn:E2; [| left; eexists; reflexivity].
  rewrite gbind_glift_Ok.
  destruct (ast_parse w text) as [body | e] eqn:E3; [| left; eexists; reflexivity].
  rewrite gbind_glift_Ok.
  destruct (load_doc (scan_body body (snd st))) as [d | e] eqn:E4; [| left; eexists; reflexivity].
  rewrite gbind_glift_Ok.
  destruct (headers_set_summary h1 _ _ d) as [h2 | e] eqn:E5; [| left; eexists; reflexivity].
  rewrite gbind_glift_Ok.
  destruct (PyPath.with_suffix_name f ".py.html") as [html | e] eqn:E6;
    [| left; eexists; reflexivity].
  rewrite gbind_glift_Ok.
  right. exists h1, text, body, d, h2, html. repeat (split; [assumption || reflexivity |]).
  rewrite !gbind_gyield. reflexivity.
Qed.

Lemma gfold_cons_ok {S X} (f : S -> X -> Gen S) (x : X) (l : list X) (s s' : S) (ts : list task) :
  gfold f (x :: l) s = (ts, Ok s') ->
  exists ts1 s1 ts2,
    f s x = (ts1, Ok s1) /\ gfold f l s1 = (ts2, Ok s') /\ ts = ts1 ++ ts2.
Proof.
  simpl. destruct (f s x) as [ts1 [s1 | e]]; [| discriminate].
  rewrite gbind_ok. destruct (gfold f l s1) as [ts2 r] eqn:E. simpl.
  intros H. inversion H; subst. exists ts1, s1, ts2. auto.
Qed.

Lemma gfold_invariant {S X} (P : S -> Prop) (f : S -> X -> Gen S) :
  (forall s x ts s', P s -> f s x = (ts, Ok s') -> P s') ->
  forall l s ts s', P s -> gfold f l s = (ts, Ok s') -> P s'.
Proof.
  intros Hf l. induction l as [| x l IH]; intros s ts s' Hs H.
  - inversion H; subst. exact Hs.
  - apply gfold_cons_ok in H as (ts1 & s1 & ts2 & H1 & H2 & _).
    eapply IH; [eapply Hf; eauto | eauto].
Qed.

Lemma python_loop_length w kw u2 deps inf exf (l : list PyPath.PurePath) :
  forall st,
    Nat.even (length (fst (gfold (python_file w kw u2 deps inf exf) l st))) = true
    /\ forall ts st', gfold (python_file w kw u2 deps inf exf) l st = (ts, Ok st') ->
                      length ts = 2 * length l.
Proof.
  induction l as [| f l IH]; intros st.
  - split; [reflexivity |]. intros ts st' H. inversion H. reflexivity.
  - split.
    + simpl gfold.
      destruct (python_file_cases w kw u2 deps inf exf st f)
        as [(e & E) | (h1 & text & body & d & h2 & html & _ & _ & _ & _ & _ & _ & E)];
        rewrite E.
      * reflexivity.
      * rewrite gbind_ok. cbn [fst app length Nat.even].
        exact (proj1 (IH _)).
    + intros ts st' H. apply gfold_cons_ok in H as (ts1 & s1 & ts2 & H1 & H2 & ->).
      destruct (python_file_cases w kw u2 deps inf exf st f)
        as [(e & E) | (h1 & text & body & d & h2 & html & _ & _ & _ & _ & _ & _ & E)];
        rewrite E in H1; inversion H1; subst.
      rewrite length_app, (proj2 (IH _) _ _ H2). simpl. lia.
Qed.

(** X5.  A Python file is listed with both its tasks or with none: one turn of
    the loop either raises before anything is yielded, or yields the listing
    page and then the copy.  So the loop never ends between the two, the
    number of tasks it has yielded is even whatever happens, and it is twice
    the number of files when the loop returns. *)
Theorem python_tasks_come_in_pairs :
  forall w site kw u inf exf doc,
    (forall u2 deps st f,
        (exists e, python_file w kw u2 deps inf exf st f = ([], Raise e))
        \/ exists html st',
            python_file w kw u2 deps inf exf st f
            = ([python_html_task kw u2 deps inf exf f html; python_copy_task kw exf f], Ok st'))
    /\ Nat.even (length (fst (python_collect w site kw u inf exf doc))) = true
    /\ (forall ts st, python_collect w site kw u inf exf doc = (ts, Ok st) ->
                      length ts = 2 * length (python_examples w inf)).
Proof.
  intros w site kw u inf exf doc. split; [| split].
  - intros u2 deps st f.
    destruct (python_file_cases w kw u2 deps inf exf st f)
      as [H | (h1 & text & body & d & h2 & html & _ & _ & _ & _ & _ & _ & E)];
      [left; exact H | right; eauto].
  - apply python_loop_length.
  - apply python_loop_length.
Qed.

Lemma python_tasks_come_in_pairs_witness :
  python_collect python_world_documented python_site (make_kw python_site)
    (site_uptodate python_site (make_kw python_site)) "ex/py" "examples/python" None
  = (fst (python_collect python_world_documented python_site (make_kw python_site)
            (site_uptodate python_site (make_kw python_site)) "ex/py" "examples/python" None),
     Ok (python_headers_after_documented, Some "Adiabatic flame."))
  /\ length (fst (python_collect python_world_documented python_site (make_kw python_site)
                    (site_uptodate python_site (make_kw python_site)) "ex/py" "examples/python"
                    None)) = 4.
Proof.
  assert (H : python_collect python_world_documented python_site (make_kw python_site)
                (site_uptodate python_site (make_kw python_site)) "ex/py" "examples/python" None
              = (fst (python_collect python_world_documented python_site (make_kw python_site)
                        (site_uptodate python_site (make_kw python_site)) "ex/py"
                        "examples/python" None),
                 Ok (python_headers_after_documented, Some "Adiabatic flame.")))
    by (vm_compute; reflexivity).
  split; [exact H |].
  exact (proj2 (proj2 (python_tasks_come_in_pairs python_world_documented python_site
                         (make_kw python_site)
                         (site_uptodate python_site (make_kw python_site))
                         "ex/py" "examples/python" None)) _ _ H).
Defined.

(** ** Dictionaries *)

Lemma dict_get_set_same {V} (k : string) (v : V) (d : list (string * V)) :
  dict_get k (dict_set k v d) = Some v.
Proof.
  induction d as [| [k1 v1] d IH]; simpl.
  - rewrite String.eqb_refl. reflexivity.
  - destruct (String.eqb k k1) eqn:E; simpl; rewrite E; [reflexivity | exact IH].
Qed.

Lemma dict_get_set_other {V} (k k' : string) (v : V) (d : list (string * V)) :
  k' <> k -> dict_get k' (dict_set k v d) = dict_get k' d.
Proof.
  intros Hne. induction d as [| [k1 v1] d IH]; simpl.
  - apply String.eqb_neq in Hne. rewrite Hne. reflexivity.
  - destruct (String.eqb k k1) eqn:E; simpl.
    + apply String.eqb_eq in E. subst k1. apply String.eqb_neq in Hne. rewrite Hne. reflexivity.
    + destruct (String.eqb k' k1); [reflexivity | exact IH].
Qed.

Lemma dict_get_mem {V} (k : string) (v : V) (d : list (string * V)) :
  dict_get k d = Some v -> PyStr.mem k (map fst d) = true.
Proof.
  induction d as [| [k1 v1] d IH]; simpl; [discriminate |].
  destruct (String.eqb k k1); [reflexivity | exact IH].
Qed.

Lemma dict_item_get {V} (k : string) (c : V) (d : list (string * V)) :
  dict_item k d = Ok c <-> dict_get k d = Some c.
Proof.
  unfold dict_item. destruct (dict_get k d); split; intros H; inversion H; reflexivity.
Qed.

Lemma complete_dict_set (k : string) (v : category) (h : headers) :
  forallb (fun kc => has_files (snd kc)) h = true ->
  has_files v = true ->
  forallb (fun kc => has_files (snd kc)) (dict_set k v h) = true.
Proof.
  intros Hh Hv. induction h as [| [k1 v1] h IH]; simpl.
  - rewrite Hv. reflexivity.
  - simpl in Hh. apply andb_true_iff in Hh as [H1 H2].
    destruct (String.eqb k k1); simpl.
    + rewrite Hv, H2. reflexivity.
    + rewrite H1, (IH H2). reflexivity.
Qed.

(** ** What the loop over the Python files records *)

Lemma headers_append_file_inv (h h1 : headers) (k file : string) :
  headers_append_file h k file = Ok h1 ->
  exists c fs,
    dict_get k h = Some c /\ cat_files c = Some fs
    /\ h1 = dict_set k (mkCategory (cat_name c) (Some (fs ++ [file])) (cat_summaries c)) h.
Proof.
  unfold headers_append_file. destruct (dict_item k h) as [c | e] eqn:E; simpl; [| discriminate].
  destruct (cat_files c) as [fs |] eqn:Ef; [| discriminate].
  intros H. inversion H. exists c, fs. apply dict_item_get in E. auto.
Qed.

Lemma headers_set_summary_inv (h h2 : headers) (k name doc : string) :
  headers_set_summary h k name doc = Ok h2 ->
  exists c sm,
    dict_get k h = Some c /\ cat_summaries c = Some sm
    /\ h2 = dict_set k (mkCategory (cat_name c) (cat_files c) (Some (dict_set name doc sm))) h.
Proof.
  unfold headers_set_summary. destruct (dict_item k h) as [c | e] eqn:E; simpl; [| discriminate].
  destruct (cat_summaries c) as [sm |] eqn:Es; [| discriminate].
  intros H. inversion H. exists c, sm. apply dict_item_get in E. auto.
Qed.

(** The headers after one successful turn, from the headers before it. *)
Lemma python_file_headers w kw u2 deps inf exf st (f : PyPath.PurePath) ts st' :
  python_file w kw u2 deps inf exf st f = (ts, Ok st') ->
  exists c fs sm d,
    dict_get (PyPath.stem (PyPath.parent f)) (fst st) = Some c
    /\ cat_files c = Some fs
    /\ cat_summaries c = Some sm
    /\ fst st'
       = dict_set (PyPath.stem (PyPath.parent f))
           (mkCategory (cat_name c) (Some (fs ++ [PyPath.to_str f]))
                       (Some (dict_set (PyPath.name f) d sm)))
           (fst st).
Proof.
  intros H.
  destruct (python_file_cases w kw u2 deps inf exf st f)
    as [(e & E) | (h1 & text & body & d & h2 & html & E1 & _ & _ & _ & E5 & _ & E)];
    rewrite E in H; inversion H; subst; clear H.
  apply headers_append_file_inv in E1 as (c & fs & Hc & Hfs & ->).
  apply headers_set_summary_inv in E5 as (c1 & sm & Hc1 & Hsm & ->).
  rewrite dict_get_set_same in Hc1. inversion Hc1; subst c1; clear Hc1. simpl in Hsm.
  exists c, fs, sm, d. repeat split; try assumption. simpl.
  clear. induction (fst st) as [| [k1 v1] h IH]; simpl.
  - rewrite String.eqb_refl. reflexivity.
  - destruct (String.eqb _ k1) eqn:E; simpl; rewrite E; [reflexivity | rewrite IH; reflexivity].
Qed.

Lemma python_file_keeps_keys w kw u2 deps inf exf st f ts st' :
  python_file w kw u2 deps inf exf st f = (ts, Ok st') ->
  map fst (fst st') = map fst (fst st)
  /\ (forallb (fun kc => has_files (snd kc)) (fst st) = true ->
      forallb (fun kc => has_files (snd kc)) (fst st') = true).
Proof.
  intros H. apply python_file_headers in H as (c & fs & sm & d & Hc & Hfs & Hsm & ->).
  split.
  - apply (dict_set_keys _ _ c). apply dict_item_get. exact Hc.
  - intros Hh. apply complete_dict_set; [exact Hh | reflexivity].
Qed.

Lemma python_file_lists w kw u2 deps inf exf st f ts st' :
  python_file w kw u2 deps inf exf st f = (ts, Ok st') ->
  listed f (fst st') /\ summarised f (fst st').
Proof.
  intros H. apply python_file_headers in H as (c & fs & sm & d & Hc & Hfs & Hsm & ->).
  split.
  - eexists _, _. rewrite dict_get_set_same. split; [reflexivity |]. split; [reflexivity |].
    apply in_or_app. right. left. reflexivity.
  - eexists _, _, d. rewrite dict_get_set_same. split; [reflexivity |]. split; [reflexivity |].
    apply dict_get_set_same.
Qed.

Lemma python_file_keeps_listed w kw u2 deps inf exf st f ts st' (g : PyPath.PurePath) :
  python_file w kw u2 deps inf exf st f = (ts, Ok st') ->
  (listed g (fst st) -> listed g (fst st'))
  /\ (summarised g (fst st) -> summarised g (fst st')).
Proof.
  intros H. apply python_file_headers in H as (c & fs & sm & d & Hc & Hfs & Hsm & ->).
  destruct (String.string_dec (PyPath.stem (PyPath.parent g)) (PyPath.stem (PyPath.parent f)))
    as [Ek | Ek].
  - split.
    + intros (c0 & fs0 & Hc0 & Hfs0 & Hin). rewrite Ek in Hc0. rewrite Hc in Hc0.
      inversion Hc0; subst c0. rewrite Hfs in Hfs0. inversion Hfs0; subst fs0.
      eexists _, _. rewrite Ek, dict_get_set_same. split; [reflexivity |].
      split; [reflexivity |]. apply in_or_app. left. exact Hin.
    + intros (c0 & sm0 & d0 & Hc0 & Hsm0 & Hd0). rewrite Ek in Hc0. rewrite Hc in Hc0.
      inversion Hc0; subst c0. rewrite Hsm in Hsm0. inversion Hsm0; subst sm0.
      destruct (String.string_dec (PyPath.name g) (PyPath.name f)) as [En | En].
      * eexists _, _, d. rewrite Ek, dict_get_set_same. split; [reflexivity |].
        split; [reflexivity |]. rewrite En. apply dict_get_set_same.
      * eexists _, _, d0. rewrite Ek, dict_get_set_same. split; [reflexivity |].
        split; [reflexivity |]. rewrite dict_get_set_other; assumption.
  - split.
    + intros (c0 & fs0 & Hc0 & Hfs0 & Hin). exists c0, fs0.
      rewrite dict_get_set_other by exact Ek. auto.
    + intros (c0 & sm0 & d0 & Hc0 & Hsm0 & Hd0). exists c0, sm0, d0.
      rewrite dict_get_set_other by exact Ek. auto.
Qed.

Lemma python_loop_lists w kw u2 deps inf exf (l : list PyPath.PurePath) :
  forall st ts st',
    gfold (python_file w kw u2 deps inf exf) l st = (ts, Ok st') ->
    forall f, In f l -> listed f (fst st') /\ summarised f (fst st').
Proof.
  induction l as [| x l IH]; intros st ts st' H f Hin; [destruct Hin |].
  apply gfold_cons_ok in H as (ts1 & s1 & ts2 & H1 & H2 & _).
  destruct Hin as [-> | Hin]; [| eapply IH; eauto].
  pose proof (python_file_lists _ _ _ _ _ _ _ _ _ _ H1) as [Hl Hs].
  split.
  - refine (gfold_invariant (fun s => listed f (fst s)) _ _ l s1 ts2 st' Hl H2).
    intros s y ts0 s0 Hs0 Hy. apply (python_file_keeps_listed _ _ _ _ _ _ _ _ _ _ f Hy). exact Hs0.
  - refine (gfold_invariant (fun s => summarised f (fst s)) _ _ l s1 ts2 st' Hs H2).
    intros s y ts0 s0 Hs0 Hy. apply (python_file_keeps_listed _ _ _ _ _ _ _ _ _ _ f Hy). exact Hs0.
Qed.

Lemma python_collect_keys w site kw u inf exf doc ts st :
  python_collect w site kw u inf exf doc = (ts, Ok st) ->
  map fst (fst st) = map fst python_headers
  /\ forallb (fun kc => has_files (snd kc)) (fst st) = true.
Proof.
  unfold python_collect. intros H.
  refine (gfold_invariant
            (fun s => map fst (fst s) = map fst python_headers
                      /\ forallb (fun kc => has_files (snd kc)) (fst s) = true)
            _ _ _ _ _ _ _ H); [| split; reflexivity].
  intros s x ts0 s0 [Hk Hc] Hx. apply python_file_keeps_keys in Hx as [Hk' Hc'].
  split; [exact (eq_trans Hk' Hk) | auto].
Qed.

(** X6.  When the loop over the Python files returns, every file of the folder
    is on the file list of the category named by its parent folder and has
    a summary recorded under its name; the categories are still the seven
    fixed ones, in their order, so the parent folder of every file is one
    of them. *)
Theorem python_collect_lists_every_file :
  forall w site kw u inf exf doc ts st,
    python_collect w site kw u inf exf doc = (ts, Ok st) ->
    map fst (fst st)
    = ["thermo"; "kinetics"; "transport"; "reactors"; "onedim"; "multiphase";
       "surface_chemistry"]
    /\ forall f, In f (python_examples w inf) ->
                 listed f (fst st) /\ summarised f (fst st)
                 /\ PyStr.mem (PyPath.stem (PyPath.parent f)) (map fst python_headers) = true.
Proof.
  intros w site kw u inf exf doc ts st H.
  pose proof (python_collect_keys _ _ _ _ _ _ _ _ _ H) as [Hk _].
  split; [exact Hk |]. intros f Hin. unfold python_collect in H.
  destruct (python_loop_lists _ _ _ _ _ _ _ _ _ _ H f Hin) as [Hl Hs].
  split; [exact Hl |]. split; [exact Hs |].
  destruct Hl as (c & fs & Hc & _). rewrite <- Hk. eapply dict_get_mem; eauto.
Qed.

Lemma python_collect_lists_every_file_witness :
  listed python_file_a python_headers_after_documented
  /\ summarised python_file_a python_headers_after_documented.
Proof.
  assert (H : python_collect python_world_documented python_site (make_kw python_site)
                (site_uptodate python_site (make_kw python_site)) "ex/py" "examples/python" None
              = (fst (python_collect python_world_documented python_site (make_kw python_site)
                        (site_uptodate python_site (make_kw python_site)) "ex/py"
                        "examples/python" None),
                 Ok (python_headers_after_documented, Some "Adiabatic flame.")))
    by (vm_compute; reflexivity).
  destruct (proj2 (python_collect_lists_every_file _ _ _ _ _ _ _ _ _ H) python_file_a
              (or_introl eq_refl)) as (Hl & Hs & _).
  split; assumption.
Defined.

(** X7.  The index action of a Python folder renders whenever the loop over the
    files returned and neither the destination folder nor the index file
    name is rooted: the template is [python-example-index.tmpl], the output
    is the task's target, the permalink is the destination joined with the
    index file name, and the context lists the seven categories, each with
    its naturally sorted files cut into rows. *)
Theorem python_index_action_renders :
  forall w site kw u inf exf doc ts st,
    python_collect w site kw u inf exf doc = (ts, Ok st) ->
    rootless exf = true ->
    rootless (index_file kw) = true ->
    exists rows,
      render_example_index kw "python" (sort_headers (fst st)) inf exf
        (IsPath (PyPath.joinpath (output_folder kw) [exf; index_file kw]))
      = Done (mkRenderCall "python-example-index.tmpl" (python_index_name kw exf)
                (mkIndexContext rows (default_lang kw) ["example"]
                   (PyPath.to_str (PyPath.mkPath "" (joined_parts [exf; index_file kw])))
                   "Python Examples" "Python Examples"))
      /\ map fst rows = map fst python_headers
      /\ Forall2 (fun kc row =>
                    option_map Natsort.natsorted (cat_files (snd kc))
                    = Some (concat (ic_rows (snd row))))
                 (fst st) rows.
Proof.
  intros w site kw u inf exf doc ts st H Hexf Hidx.
  pose proof (python_collect_keys _ _ _ _ _ _ _ _ _ H) as [Hk Hc].
  assert (Hc' : forallb (fun kc => has_files (snd kc)) (sort_headers (fst st)) = true).
  { clear - Hc. induction (fst st) as [| [k c] h IH]; simpl in *; [reflexivity |].
    apply andb_true_iff in Hc as [H1 H2]. rewrite (IH H2), andb_true_r.
    unfold has_files in *. simpl. destruct (cat_files c); [reflexivity | discriminate]. }
  destruct (chunk_headers_complete _ Hc') as (rows & E & Hkeys & Hrows).
  exists rows. split; [| split].
  - unfold render_example_index. rewrite E. cbn [of_result obind].
    assert (Hrel : relative_to (PyPath.joinpath (output_folder kw) [exf; index_file kw])
                     (output_folder kw)
                   = Ok (PyPath.mkPath "" (joined_parts [exf; index_file kw]))).
    { rewrite joinpath_rootless by (simpl; rewrite Hexf, Hidx; reflexivity).
      destruct (output_folder kw) as [root ps]. apply relative_to_extended. }
    rewrite Hrel. reflexivity.
  - rewrite Hkeys, <- Hk. unfold sort_headers. rewrite map_map. reflexivity.
  - clear - Hrows. unfold sort_headers in Hrows.
    remember (fst st) as h eqn:Eh. clear Eh. revert rows Hrows.
    induction h as [| [k c] h IH]; intros rows Hrows; inversion Hrows; subst; constructor.
    + simpl in *. destruct H1 as (H1 & _). exact H1.
    + apply IH. assumption.
Qed.

Lemma python_index_action_renders_witness :
  rootless "examples/python" = true
  /\ rootless (index_file (make_kw python_site)) = true
  /\ exists rows,
      render_example_index (make_kw python_site) "python"
        (sort_headers python_headers_after_documented) "ex/py" "examples/python"
        (IsPath (PyPath.joinpath (output_folder (make_kw python_site))
                   ["examples/python"; index_file (make_kw python_site)]))
      = Done (mkRenderCall "python-example-index.tmpl" "output/examples/python/index.html"
                (mkIndexContext rows "en" ["example"] "examples/python/index.html"
                   "Python Examples" "Python Examples")).
Proof.
  assert (H : python_collect python_world_documented python_site (make_kw python_site)
                (site_uptodate python_site (make_kw python_site)) "ex/py" "examples/python" None
              = (fst (python_collect python_world_documented python_site (make_kw python_site)
                        (site_uptodate python_site (make_kw python_site)) "ex/py"
                        "examples/python" None),
                 Ok (python_headers_after_documented, Some "Adiabatic flame.")))
    by (vm_compute; reflexivity).
  split; [reflexivity |]. split; [reflexivity |].
  destruct (python_index_action_renders _ _ _ _ _ _ _ _ _ H eq_refl eq_refl)
    as (rows & E & _).
  exists rows. exact E.
Defined.

(** ** Texts and names *)

Lemma append_assoc (a b c : string) : (a +++ b) +++ c = a +++ (b +++ c).
Proof. induction a as [| x a IH]; simpl; [reflexivity | rewrite IH; reflexivity]. Qed.

Lemma length_append (a b : string) : String.length (a +++ b) = String.length a + String.length b.
Proof. induction a as [| x a IH]; simpl; [reflexivity | rewrite IH; reflexivity]. Qed.

Lemma rfind_append (sub a b : string) (j : nat) :
  PyStr.rfind sub b = Some j -> PyStr.rfind sub (a +++ b) = Some (String.length a + j).
Proof.
  intros H. induction a as [| x a IH]; [exact H |].
  change (String x a +++ b) with (String x (a +++ b)). rewrite rfind_cons, IH. reflexivity.
Qed.

Lemma take_length_append (a b : string) : PyStr.take (String.length a) (a +++ b) = a.
Proof.
  induction a as [| x a IH]; simpl; [destruct b; reflexivity | rewrite IH; reflexivity].
Qed.

Lemma take_drop (i : nat) (s : string) : PyStr.take i s +++ PyStr.drop i s = s.
Proof.
  revert s; induction i as [| i IH]; intros s; [reflexivity |].
  destruct s as [| c r]; simpl; [reflexivity | rewrite IH; reflexivity].
Qed.

Lemma length_drop (i : nat) (s : string) :
  String.length (PyStr.drop i s) = String.length s - i.
Proof.
  revert s; induction i as [| i IH]; intros s; simpl; [lia |].
  destruct s as [| c r]; simpl; [reflexivity | apply IH].
Qed.

Lemma length_take (i : nat) (s : string) :
  i <= String.length s -> String.length (PyStr.take i s) = i.
Proof.
  revert s; induction i as [| i IH]; intros s H; [reflexivity |].
  destruct s as [| c r]; simpl in *; [lia | rewrite IH; lia].
Qed.

Lemma mem_char_append (c : ascii) (a b : string) :
  PyStr.mem_char c (a +++ b) = PyStr.mem_char c a || PyStr.mem_char c b.
Proof.
  induction a as [| x a IH]; simpl; [reflexivity |]. rewrite IH, orb_assoc. reflexivity.
Qed.

Lemma split_char_plain (c : ascii) (s : string) :
  PyStr.mem_char c s = false -> PyStr.split_char c s = [s].
Proof.
  induction s as [| x s IH]; simpl; [reflexivity |].
  intros H. apply orb_false_iff in H as [Hx Hs].
  rewrite Ascii.eqb_sym, Hx, (IH Hs). reflexivity.
Qed.

Lemma root_of_plain (s : string) : has_slash s = false -> PyPath.root_of s = "".
Proof.
  destruct s as [| c r]; [reflexivity |]. unfold has_slash. simpl.
  intros H. apply orb_false_iff in H as [Hc _].
  destruct c as [[] [] [] [] [] [] [] []]; try reflexivity; discriminate.
Qed.

Lemma keep_part_long (s : string) : 2 <= String.length s -> PyPath.keep_part s = true.
Proof.
  destruct s as [| a [| b r]]; simpl; try lia. intros _.
  unfold PyPath.keep_part. simpl. destruct (Ascii.eqb a "."); reflexivity.
Qed.

Lemma of_str_plain (s : string) :
  has_slash s = false -> 2 <= String.length s -> PyPath.of_str s = PyPath.mkPath "" [s].
Proof.
  intros Hs Hl. unfold PyPath.of_str. rewrite (root_of_plain s Hs).
  unfold has_slash in Hs. rewrite (split_char_plain _ _ Hs). simpl.
  rewrite (keep_part_long s Hl). reflexivity.
Qed.

Lemma name_with_py_suffix (f : PyPath.PurePath) :
  PyPath.suffix f = ".py" ->
  exists x, PyPath.name f = x +++ ".py" /\ 0 < String.length x.
Proof.
  unfold PyPath.suffix, PyPath.suffix_index.
  destruct (PyStr.rfind "." (PyPath.name f)) as [i |]; [| discriminate].
  destruct (Nat.ltb 0 i && Nat.ltb i (String.length (PyPath.name f) - 1)) eqn:E; [| discriminate].
  intros H. apply andb_true_iff in E as [E1 E2].
  apply Nat.ltb_lt in E1, E2. exists (PyStr.take i (PyPath.name f)). split.
  - rewrite <- H. symmetry. apply take_drop.
  - rewrite length_take; lia.
Qed.

Lemma concat_last (ps : list string) (a b : string) :
  String.concat "/" (ps ++ [a +++ b]) = String.concat "/" (ps ++ [a]) +++ b.
Proof.
  induction ps as [| x ps IH]; [reflexivity |].
  destruct ps as [| y ps].
  - simpl. rewrite !append_assoc. reflexivity.
  - change (String.concat "/" ((x :: y :: ps) ++ [a +++ b]))
      with (x +++ "/" +++ String.concat "/" ((y :: ps) ++ [a +++ b])).
    change (String.concat "/" ((x :: y :: ps) ++ [a]))
      with (x +++ "/" +++ String.concat "/" ((y :: ps) ++ [a])).
    rewrite IH, !append_assoc. reflexivity.
Qed.

Lemma to_str_last (root : string) (ps : list string) (a b : string) :
  PyPath.to_str (PyPath.mkPath root (ps ++ [a +++ b]))
  = PyPath.to_str (PyPath.mkPath root (ps ++ [a])) +++ b.
Proof.
  unfold PyPath.to_str. simpl PyPath.p_root. simpl PyPath.p_parts.
  destruct (ps ++ [a +++ b]) as [| u us] eqn:E1; [destruct ps; discriminate |].
  destruct (ps ++ [a]) as [| v vs] eqn:E2; [destruct ps; discriminate |].
  rewrite <- E1, <- E2, concat_last.
  destruct root; [reflexivity | rewrite append_assoc; reflexivity].
Qed.

Lemma joined_parts_three (a b n : string) :
  has_slash n = false -> 2 <= String.length n ->
  joined_parts [a; b; n]
  = (PyPath.p_parts (PyPath.of_str a) ++ PyPath.p_parts (PyPath.of_str b)) ++ [n].
Proof.
  intros Hs Hl. unfold joined_parts. cbn [flat_map]. rewrite (of_str_plain n Hs Hl).
  cbn [PyPath.p_parts]. rewrite app_nil_r, app_assoc. reflexivity.
Qed.

Lemma stem_of_html (root : string) (ps : list string) (n : string) :
  0 < String.length n -> PyPath.stem (PyPath.mkPath root (ps ++ [n +++ ".html"])) = n.
Proof.
  intros Hn. unfold PyPath.stem, PyPath.name. simpl PyPath.p_parts. rewrite !last_last.
  unfold PyPath.suffix_index.
  rewrite (rfind_append "." n ".html" 0 eq_refl), length_append.
  replace (Nat.ltb 0 (String.length n + 0)) with true
    by (symmetry; apply Nat.ltb_lt; lia).
  replace (Nat.ltb (String.length n + 0) (String.length n + String.length ".html" - 1))
    with true by (symmetry; apply Nat.ltb_lt; simpl; lia).
  simpl andb. cbv iota. rewrite Nat.add_0_r. apply take_length_append.
Qed.

Section PythonListing.

Variable kw : Kw.
Variable exf : string.
Variable f : PyPath.PurePath.
Hypothesis py_suffix : PyPath.suffix f = ".py".
Hypothesis plain_name : has_slash (PyPath.name f) = false.
Hypothesis rootless_folder : rootless exf = true.
Hypothesis rootless_category : rootless (PyPath.stem (PyPath.parent f)) = true.

Lemma py_name_length : 4 <= String.length (PyPath.name f).
Proof.
  destruct (name_with_py_suffix f py_suffix) as (x & E & Hx). rewrite E, length_append.
  simpl. lia.
Qed.

Lemma py_html_name : PyPath.with_suffix_name f ".py.html" = Ok (PyPath.name f +++ ".html").
Proof.
  unfold PyPath.with_suffix_name. rewrite py_suffix.
  destruct (name_with_py_suffix f py_suffix) as (x & E & Hx).
  pose proof py_name_length as Hl.
  destruct (PyPath.name f) as [| c r] eqn:En; [simpl in Hl; lia |].
  cbn [PyStr.is_empty]. rewrite E, length_append.
  replace (String.length x + String.length ".py" - String.length ".py") with (String.length x)
    by lia.
  rewrite take_length_append, append_assoc. reflexivity.
Qed.

Lemma html_name_plain :
  has_slash (PyPath.name f +++ ".html") = false
  /\ 2 <= String.length (PyPath.name f +++ ".html").
Proof.
  split.
  - unfold has_slash in *. rewrite mem_char_append, plain_name. reflexivity.
  - rewrite length_append. simpl. lia.
Qed.

Lemma html_target_parts :
  python_html_target kw exf f (PyPath.name f +++ ".html")
  = PyPath.mkPath (PyPath.p_root (output_folder kw))
      (PyPath.p_parts (output_folder kw)
       ++ joined_parts [exf; PyPath.stem (PyPath.parent f); PyPath.name f +++ ".html"]).
Proof.
  unfold python_html_target. apply joinpath_rootless. simpl.
  rewrite rootless_folder, rootless_category. unfold rootless.
  rewrite (root_of_plain _ (proj1 html_name_plain)). reflexivity.
Qed.

Lemma copy_target_parts :
  python_copy_target kw exf f
  = PyPath.mkPath (PyPath.p_root (output_folder kw))
      (PyPath.p_parts (output_folder kw)
       ++ joined_parts [exf; PyPath.stem (PyPath.parent f); PyPath.name f]).
Proof.
  unfold python_copy_target. apply joinpath_rootless. simpl.
  rewrite rootless_folder, rootless_category. unfold rootless.
  rewrite (root_of_plain _ plain_name). reflexivity.
Qed.

Lemma html_beside_copy :
  PyPath.to_str (python_html_target kw exf f (PyPath.name f +++ ".html"))
  = PyPath.to_str (python_copy_target kw exf f) +++ ".html".
Proof.
  rewrite html_target_parts, copy_target_parts.
  destruct html_name_plain as [H1 H2]. pose proof py_name_length as Hl.
  rewrite (joined_parts_three _ _ _ H1 H2).
  rewrite (joined_parts_three _ _ _ plain_name ltac:(lia)).
  rewrite !app_assoc. apply to_str_last.
Qed.

Lemma permalink_stem :
  PyPath.stem (PyPath.mkPath ""
                 (joined_parts [exf; PyPath.stem (PyPath.parent f); PyPath.name f +++ ".html"]))
  = PyPath.name f.
Proof.
  destruct html_name_plain as [H1 H2]. pose proof py_name_length as Hl.
  rewrite (joined_parts_three _ _ _ H1 H2). apply stem_of_html. lia.
Qed.

End PythonListing.

(** X8.  For a Python example whose name ends in [.py], with a destination
    and a category that are rootless, the listing page is named after the
    file with [.html] appended and is placed beside the copy of the file:
    the target of the listing task is the target of the copy task followed
    by [.html]. *)
Theorem python_listing_page_beside_copy :
  forall kw exf f,
    PyPath.suffix f = ".py" ->
    has_slash (PyPath.name f) = false ->
    rootless exf = true ->
    rootless (PyPath.stem (PyPath.parent f)) = true ->
    PyPath.with_suffix_name f ".py.html" = Ok (PyPath.name f +++ ".html")
    /\ PyPath.to_str (python_html_target kw exf f (PyPath.name f +++ ".html"))
       = PyPath.to_str (python_copy_target kw exf f) +++ ".html".
Proof.
  intros kw exf f H1 H2 H3 H4. split.
  - apply py_html_name; assumption.
  - apply html_beside_copy; assumption.
Qed.

Lemma python_listing_page_beside_copy_witness :
  PyPath.with_suffix_name python_file_a ".py.html" = Ok "a.py.html"
  /\ PyPath.to_str (python_html_target (make_kw python_site) "examples/python" python_file_a
                      "a.py.html")
     = "output/examples/python/thermo/a.py" +++ ".html".
Proof.
  exact (python_listing_page_beside_copy (make_kw python_site) "examples/python" python_file_a
           eq_refl eq_refl eq_refl eq_refl).
Defined.

(** X9.  The listing action of a Python example whose name ends in [.py]
    (destination and category rootless), when the file can be read, renders
    [examples.tmpl] to the task's target; the title and the description are
    the file name, the permalink is the target relative to the output
    folder, and the source link is the file name again, which is the name of
    the copy beside the page.  The lexer is the one for the file name, else
    the one guessed from the contents, else the plain text lexer. *)
Theorem python_listing_links_to_source :
  forall w hl kw inf exf f bytes,
    PyPath.suffix f = ".py" ->
    has_slash (PyPath.name f) = false ->
    rootless exf = true ->
    rootless (PyPath.stem (PyPath.parent f)) = true ->
    fs_read w f = Ok bytes ->
    render_example w hl kw (IsPath f)
      (IsPath (python_html_target kw exf f (PyPath.name f +++ ".html"))) inf exf
    = Done (mkRenderCall "examples.tmpl"
              (PyPath.to_str (python_copy_target kw exf f) +++ ".html")
              (mkExampleContext
                 (highlight hl bytes
                    match get_lexer_for_filename hl (PyPath.name f) with
                    | Some lexer => lexer
                    | None => match guess_lexer hl bytes with
                              | Some lexer => lexer
                              | None => "TextLexer"
                              end
                    end (PyPath.name f))
                 (PyPath.name f)
                 (PyPath.to_str
                    (PyPath.mkPath ""
                       (joined_parts [exf; PyPath.stem (PyPath.parent f);
                                      PyPath.name f +++ ".html"])))
                 (default_lang kw) (PyPath.name f) (PyPath.name f) ["example"] false)).
Proof.
  intros w hl kw inf exf f bytes H1 H2 H3 H4 Hread.
  pose proof (html_target_parts kw exf f H2 H3 H4) as Ht.
  pose proof (html_beside_copy kw exf f H1 H2 H3 H4) as Hside.
  pose proof (permalink_stem exf f H1 H2) as Hstem.
  assert (Hrel : relative_to (python_html_target kw exf f (PyPath.name f +++ ".html"))
                   (output_folder kw)
                 = Ok (PyPath.mkPath ""
                         (joined_parts [exf; PyPath.stem (PyPath.parent f);
                                        PyPath.name f +++ ".html"]))).
  { rewrite Ht. destruct (output_folder kw) as [root ps]. apply relative_to_extended. }
  unfold render_example, example_code. rewrite H1. simpl String.eqb. cbv iota.
  rewrite Hread.
  destruct (get_lexer_for_filename hl (PyPath.name f)) as [lexer |];
    cbn [rbind]; [| destruct (guess_lexer hl bytes) as [lexer |]];
    cbn [rbind of_result obind fst snd]; rewrite Hrel; cbn [of_result obind];
    rewrite Hstem, Hside; reflexivity.
Qed.

Lemma python_listing_links_to_source_witness :
  exists call,
    render_example
      (table_world (mkTables [] [] [("/r/ex/py/thermo/a.py", documented_py)] [] [] [] [] []))
      demo_highlighter (make_kw python_site) (IsPath python_file_a)
      (IsPath (python_html_target (make_kw python_site) "examples/python" python_file_a
                 "a.py.html")) "ex/py" "examples/python"
    = Done call
    /\ ex_source_link (rc_context call) = "a.py".
Proof.
  eexists. split.
  - exact (python_listing_links_to_source
             (table_world (mkTables [] [] [("/r/ex/py/thermo/a.py", documented_py)]
                             [] [] [] [] []))
             demo_highlighter (make_kw python_site) "ex/py" "examples/python" python_file_a
             documented_py eq_refl eq_refl eq_refl eq_refl eq_refl).
  - reflexivity.
Defined.

(** ** A folder that fails *)

Lemma root_of_cases (s : string) :
  PyPath.root_of s = "" \/ PyPath.root_of s = "/" \/ PyPath.root_of s = "//".
Proof.
  destruct s as [| c1 s]; [left; reflexivity |].
  destruct c1 as [[] [] [] [] [] [] [] []]; try (left; reflexivity).
  destruct s as [| c2 s]; [right; left; reflexivity |].
  destruct c2 as [[] [] [] [] [] [] [] []]; try (right; left; reflexivity).
  destruct s as [| c3 s]; [right; right; reflexivity |].
  destruct c3 as [[] [] [] [] [] [] [] []]; try (right; right; reflexivity).
  right; left; reflexivity.
Qed.

Lemma concat_with_slash (x : string) (ps : list string) (e : string) :
  PyStr.mem_char "/" (String.concat "/" (x :: ps ++ [e])) = true.
Proof.
  change (String.concat "/" (x :: ps ++ [e]))
    with (match ps ++ [e] with
          | [] => x
          | _ :: _ => x +++ "/" +++ String.concat "/" (ps ++ [e])
          end).
  destruct (ps ++ [e]) as [| y l] eqn:E; [destruct ps; discriminate |].
  rewrite mem_char_append. simpl. apply orb_true_r.
Qed.

Lemma child_named_ds_store (inf entry : string) :
  String.eqb (PyPath.to_str (PyPath.child (PyPath.of_str inf) entry)) ".DS_Store" = true ->
  PyPath.name (PyPath.child (PyPath.of_str inf) entry) = ".DS_Store".
Proof.
  unfold PyPath.name, PyPath.child, PyPath.to_str. simpl PyPath.p_parts. simpl PyPath.p_root.
  rewrite last_last.
  remember (filter PyPath.keep_part (PyStr.split_char "/" inf)) as ps eqn:Eps. clear Eps.
  destruct (root_of_cases inf) as [-> | [-> | ->]]; [| simpl; discriminate | simpl; discriminate].
  destruct ps as [| x ps].
  - simpl. intros H. apply String.eqb_eq in H. exact H.
  - change ((x :: ps) ++ [entry]) with (x :: ps ++ [entry]). cbv iota.
    change ("" +++ String.concat "/" (x :: ps ++ [entry]))
      with (String.concat "/" (x :: ps ++ [entry])).
    intros H. apply String.eqb_eq in H.
    pose proof (concat_with_slash x ps entry) as Hs. rewrite H in Hs. discriminate.
Qed.

Lemma matlab_kept_is_listed (inf entry : string) :
  matlab_skipped (PyPath.child (PyPath.of_str inf) entry) = false ->
  listing_skipped (PyPath.child (PyPath.of_str inf) entry) = false.
Proof.
  unfold matlab_skipped, listing_skipped. intros H.
  apply orb_false_iff in H as [_ H]. apply orb_false_iff in H as [Hs Hn]. rewrite Hs, orb_false_r.
  destruct (String.eqb (PyPath.to_str _) ".DS_Store") eqn:E; [| reflexivity].
  apply child_named_ds_store in E. rewrite E in Hn. discriminate.
Qed.

Lemma matlab_collect_kept w inf doc st :
  matlab_collect w inf doc = Ok st ->
  Forall (fun f => listing_skipped f = false) (fst (fst st)).
Proof.
  unfold matlab_collect. destruct (fs_listdir w (PyPath.of_str inf)) as [entries | e];
    [| discriminate].
  simpl. apply (rfold_invariant (fun s => Forall (fun f => listing_skipped f = false) (fst (fst s)))).
  - intros s x s' Hs. unfold matlab_file.
    destruct (matlab_skipped (PyPath.child (PyPath.of_str inf) x)) eqn:Ek.
    + intros H. inversion H; subst. exact Hs.
    + destruct (fs_read w _) as [text | e]; [| discriminate]. simpl.
      intros H. inversion H; subst. simpl. apply Forall_app. split; [exact Hs |].
      constructor; [| constructor]. apply matlab_kept_is_listed. exact Ek.
  - constructor.
Qed.

(** X10.  The filters at the head of the Matlab listing loop never skip a file
    that the discovery loop kept, so a Matlab folder is generated to the end
    only when no file is kept: with a kept file, generation ends with
    [NameError] for [render_listing] right after the index task; with none
    it returns, passing on the variable [doc]. *)
Theorem matlab_folder_with_example_fails :
  forall w site kw u inf exf doc st,
    matlab_collect w inf doc = Ok st ->
    Forall (fun f => listing_skipped f = false) (fst (fst st))
    /\ length (fst (gen_matlab w site kw u inf exf doc)) = 1
    /\ snd (gen_matlab w site kw u inf exf doc)
       = match fst (fst st) with
         | [] => Ok (snd st)
         | _ :: _ => Raise (NameError "render_listing")
         end.
Proof.
  intros w site kw u inf exf doc st H.
  pose proof (matlab_collect_kept w inf doc st H) as Hk.
  split; [exact Hk |]. split.
  - rewrite gen_matlab_yields, H. reflexivity.
  - unfold gen_matlab. rewrite H, gbind_glift_Ok, gbind_gyield. cbn [snd].
    rewrite matlab_listing_loop.
    destruct (fst (fst st)) as [| f files]; [reflexivity |].
    inversion Hk as [| ? ? Hf _]; subst. simpl. rewrite Hf. reflexivity.
Qed.

Lemma matlab_folder_with_example_fails_witness :
  matlab_collect matlab_world "ex/m" None
  = Ok ([PyPath.of_str "ex/m/flame_demo.m"], [("flame_demo.m", "a flame.")], Some "a flame.")
  /\ snd (gen_matlab matlab_world matlab_site (make_kw matlab_site)
            (site_uptodate matlab_site (make_kw matlab_site)) "ex/m" "examples/matlab" None)
     = Raise (NameError "render_listing").
Proof.
  split; [reflexivity |].
  exact (proj2 (proj2 (matlab_folder_with_example_fails matlab_world matlab_site
                         (make_kw matlab_site)
                         (site_uptodate matlab_site (make_kw matlab_site))
                         "ex/m" "examples/matlab" None _ eq_refl))).
Defined.

(** X11.  Once the fingerprint dictionary is built, generation ends at the
    first folder that raises: the tasks yielded are the group task, the
    tasks of the folders before it and the tasks that the failing folder
    yielded before the error, and no later folder of [EXAMPLES_FOLDERS] is
    looked at. *)
Theorem failing_folder_ends_generation :
  forall w site u pre entry post ts doc ts1 e,
    base_uptodate site (make_kw site) = Ok u ->
    EXAMPLES_FOLDERS site = pre ++ entry :: post ->
    gfold (gen_folder w site (make_kw site) u) pre None = (ts, Ok doc) ->
    gen_folder w site (make_kw site) u doc entry = (ts1, Raise e) ->
    run w site = (group_task :: ts ++ ts1, Raise e).
Proof.
  intros w site u pre entry post ts doc ts1 e Hu Hsplit Hpre Hentry.
  unfold run, gen_tasks.
  change (fst (set_site site)) with (make_kw site).
  change (examples_folders (make_kw site)) with (EXAMPLES_FOLDERS site).
  rewrite Hsplit, Hu, gbind_gyield, gbind_glift_Ok, gfold_app, Hpre, gbind_ok.
  simpl gfold. rewrite Hentry. reflexivity.
Qed.

Lemma failing_folder_ends_generation_witness :
  EXAMPLES_FOLDERS matlab_then_python_site
  = [] ++ ("ex/m", "examples/matlab") :: [("ex/py", "examples/python")]
  /\ map t_targets (fst (run matlab_world matlab_then_python_site))
     = [[]; ["output/examples/matlab/index.html"]]
  /\ snd (run matlab_world matlab_then_python_site) = Raise (NameError "render_listing").
Proof.
  split; [reflexivity |].
  rewrite (failing_folder_ends_generation matlab_world matlab_then_python_site
             (site_uptodate matlab_then_python_site (make_kw matlab_then_python_site))
             [] ("ex/m", "examples/matlab") [("ex/py", "examples/python")]
             [] None
             (fst (gen_folder matlab_world matlab_then_python_site
                     (make_kw matlab_then_python_site)
                     (site_uptodate matlab_then_python_site (make_kw matlab_then_python_site))
                     None ("ex/m", "examples/matlab")))
             (NameError "render_listing") eq_refl eq_refl eq_refl);
    [split; reflexivity | vm_compute; reflexivity].
Defined.

(** ** Mappings without a repeated path *)

Lemma mem_In (x : string) (l : list string) : PyStr.mem x l = true <-> In x l.
Proof.
  induction l as [| y l IH]; simpl; [split; [discriminate | intros []] |].
  rewrite orb_true_iff, IH, String.eqb_eq. split; intros [H | H]; auto.
Qed.

Lemma mem_not_In (x : string) (l : list string) : ~ In x l -> PyStr.mem x l = false.
Proof.
  intros H. destruct (PyStr.mem x l) eqn:E; [| reflexivity].
  apply mem_In in E. contradiction.
Qed.

Lemma check_entries_distinct (l : list (string * string)) :
  forall a log,
    NoDup (a ++ mapping_paths l) ->
    fold_left check_entry l (a, log) = (a ++ mapping_paths l, log).
Proof.
  induction l as [| [s d] l IH]; intros a log H; simpl.
  - rewrite app_nil_r. reflexivity.
  - unfold mapping_paths in H. simpl in H. fold (mapping_paths l) in H.
    assert (Hs : ~ In s a).
    { apply NoDup_remove_2 in H. intros Hin. apply H. apply in_or_app. left. exact Hin. }
    assert (Hd : ~ In d a).
    { change (a ++ s :: d :: mapping_paths l) with (a ++ [s] ++ d :: mapping_paths l) in H.
      rewrite app_assoc in H. apply NoDup_remove_2 in H. intros Hin. apply H.
      apply in_or_app. left. apply in_or_app. left. exact Hin. }
    rewrite (mem_not_In s a Hs), (mem_not_In d a Hd). simpl.
    rewrite IH.
    + unfold mapping_paths. simpl. rewrite <- app_assoc. reflexivity.
    + rewrite <- app_assoc. exact H.
Qed.

(** X12.  When no path occurs twice among the sources and destinations of
    [EXAMPLES_FOLDERS], [set_site] reports nothing, and the paths it has
    recorded at the end are those of all the mappings, in order. *)
Theorem distinct_paths_are_not_reported :
  forall site,
    NoDup (mapping_paths (EXAMPLES_FOLDERS site)) ->
    snd (set_site site) = []
    /\ appearing_after (EXAMPLES_FOLDERS site) = mapping_paths (EXAMPLES_FOLDERS site).
Proof.
  intros site H. unfold set_site, appearing_after. simpl.
  rewrite (check_entries_distinct (EXAMPLES_FOLDERS site) [] [] H). split; reflexivity.
Qed.

Lemma distinct_paths_are_not_reported_witness :
  NoDup (mapping_paths (EXAMPLES_FOLDERS matlab_then_python_site))
  /\ snd (set_site matlab_then_python_site) = [].
Proof.
  assert (H : NoDup (mapping_paths (EXAMPLES_FOLDERS matlab_then_python_site))).
  { repeat constructor; simpl; intuition discriminate. }
  split; [exact H |].
  exact (proj1 (distinct_paths_are_not_reported matlab_then_python_site H)).
Defined.

(** ** Summaries of the Python files *)

Lemma rev_acc_append (a b acc : string) :
  PyStr.rev_acc (a +++ b) acc = PyStr.rev_acc b (PyStr.rev_acc a acc).
Proof. revert acc; induction a as [| c a IH]; intros acc; simpl; [reflexivity | apply IH]. Qed.

Lemma endswith_added_period (d : string) : PyStr.endswith (d +++ ".") "." = true.
Proof.
  unfold PyStr.endswith, PyStr.rev. rewrite rev_acc_append. simpl.
  destruct (ascii_dec "." ".") as [_ | H]; [| contradiction H; reflexivity].
  destruct (PyStr.rev_acc d ""); reflexivity.
Qed.

Lemma docstring_summary_period (s : string) :
  PyStr.endswith (docstring_summary s) "." = true.
Proof.
  unfold docstring_summary.
  destruct (PyStr.endswith (PyStr.strip (PyStr.split_first _ (PyStr.strip s))) ".") eqn:E;
    [exact E | apply endswith_added_period].
Qed.

Lemma scan_body_period (body : list ast_stmt) (doc : option string) (d : string) :
  (forall d0, doc = Some d0 -> PyStr.endswith d0 "." = true) ->
  scan_body body doc = Some d -> PyStr.endswith d "." = true.
Proof.
  intros Hdoc. induction body as [| stmt body IH]; simpl; [apply Hdoc |].
  destruct stmt as [[s | ] | ]; try exact IH.
  intros H. inversion H. apply docstring_summary_period.
Qed.

Lemma python_file_state w kw u2 deps inf exf st (f : PyPath.PurePath) ts st' :
  python_file w kw u2 deps inf exf st f = (ts, Ok st') ->
  exists c fs sm d body,
    dict_get (PyPath.stem (PyPath.parent f)) (fst st) = Some c
    /\ cat_files c = Some fs
    /\ cat_summaries c = Some sm
    /\ scan_body body (snd st) = Some d
    /\ snd st' = Some d
    /\ fst st'
       = dict_set (PyPath.stem (PyPath.parent f))
           (mkCategory (cat_name c) (Some (fs ++ [PyPath.to_str f]))
                       (Some (dict_set (PyPath.name f) d sm)))
           (fst st).
Proof.
  intros H.
  destruct (python_file_cases w kw u2 deps inf exf st f)
    as [(e & E) | (h1 & text & body & d & h2 & html & E1 & _ & _ & E4 & E5 & _ & E)];
    rewrite E in H; inversion H; subst; clear H.
  apply headers_append_file_inv in E1 as (c & fs & Hc & Hfs & ->).
  apply headers_set_summary_inv in E5 as (c1 & sm & Hc1 & Hsm & ->).
  rewrite dict_get_set_same in Hc1. inversion Hc1; subst c1; clear Hc1. simpl in Hsm.
  unfold load_doc in E4. destruct (scan_body body (snd st)) as [d0 |] eqn:Ed; [| discriminate].
  inversion E4; subst d0.
  exists c, fs, sm, d, body. repeat split; try assumption. simpl.
  clear. induction (fst st) as [| [k1 v1] h IH]; simpl.
  - rewrite String.eqb_refl. reflexivity.
  - destruct (String.eqb _ k1) eqn:E; simpl; rewrite E; [reflexivity | rewrite IH; reflexivity].
Qed.

Lemma python_headers_no_summary (k name : string) (c : category) (sm : list (string * string))
  (d : string) :
  dict_get k python_headers = Some c -> cat_summaries c = Some sm ->
  dict_get name sm = Some d -> False.
Proof.
  unfold python_headers. simpl.
  repeat match goal with
         | |- context [String.eqb k ?x] => destruct (String.eqb k x)
         end;
    intros H; inversion H; subst; simpl; intros Hs; inversion Hs; subst; discriminate.
Qed.

(** X13.  Every summary of a Python folder ends with a period, and so does the
    text left in the variable [doc], provided the text that [doc] holds when
    the folder is entered, if any, does: the only texts the loop records are
    those made from a docstring, which get the period, and the one
    inherited. *)
Theorem python_summaries_end_with_period :
  forall w site kw u inf exf doc ts st,
    python_collect w site kw u inf exf doc = (ts, Ok st) ->
    (forall d, doc = Some d -> PyStr.endswith d "." = true) ->
    (forall d, snd st = Some d -> PyStr.endswith d "." = true)
    /\ forall k c sm name d,
        dict_get k (fst st) = Some c -> cat_summaries c = Some sm ->
        dict_get name sm = Some d -> PyStr.endswith d "." = true.
Proof.
  intros w site kw u inf exf doc ts st H Hdoc. unfold python_collect in H.
  refine (gfold_invariant
            (fun s => (forall d, snd s = Some d -> PyStr.endswith d "." = true)
                      /\ forall k c sm name d,
                          dict_get k (fst s) = Some c -> cat_summaries c = Some sm ->
                          dict_get name sm = Some d -> PyStr.endswith d "." = true)
            _ _ _ _ _ _ _ H).
  - intros s f ts1 s' [Hd Hh] Hf.
    apply python_file_state in Hf as (c & fs & sm & d & body & Hc & Hfs & Hsm & Hscan & Hs' & Hh').
    assert (Hend : PyStr.endswith d "." = true) by (eapply scan_body_period; eauto).
    unfold headers in *. split.
    + intros d0 E. rewrite Hs' in E. inversion E; subst. exact Hend.
    + intros k c0 sm0 name d0 Hk Hsm0 Hname. rewrite Hh' in Hk.
      destruct (String.string_dec k (PyPath.stem (PyPath.parent f))) as [-> | Hne].
      * rewrite dict_get_set_same in Hk. inversion Hk; subst c0; clear Hk.
        simpl in Hsm0. inversion Hsm0; subst sm0; clear Hsm0.
        destruct (String.string_dec name (PyPath.name f)) as [-> | Hn].
        -- rewrite dict_get_set_same in Hname. inversion Hname; subst. exact Hend.
        -- rewrite dict_get_set_other in Hname by exact Hn. eapply Hh; eauto.
      * rewrite dict_get_set_other in Hk by exact Hne. eapply Hh; eauto.
  - split; [exact Hdoc |]. intros k c sm name d Hk Hsm Hname. exfalso.
    eapply python_headers_no_summary; eauto.
Qed.

Lemma python_summaries_end_with_period_witness :
  PyStr.endswith "Adiabatic flame." "." = true
  /\ dict_get "a.py" [("a.py", "Adiabatic flame."); ("b.py", "Adiabatic flame.")]
     = Some "Adiabatic flame.".
Proof.
  assert (H : python_collect python_world_documented python_site (make_kw python_site)
                (site_uptodate python_site (make_kw python_site)) "ex/py" "examples/python" None
              = (fst (python_collect python_world_documented python_site (make_kw python_site)
                        (site_uptodate python_site (make_kw python_site)) "ex/py"
                        "examples/python" None),
                 Ok (python_headers_after_documented, Some "Adiabatic flame.")))
    by (vm_compute; reflexivity).
  assert (Hdoc : forall d, @None string = Some d -> PyStr.endswith d "." = true)
    by (intros d E; discriminate E).
  split; [| reflexivity].
  exact (proj2 (python_summaries_end_with_period _ _ _ _ _ _ _ _ _ H Hdoc)
           "thermo"
           (mkCategory "Thermodynamics"
              (Some ["/r/ex/py/thermo/a.py"; "/r/ex/py/thermo/b.py"])
              (Some [("a.py", "Adiabatic flame."); ("b.py", "Adiabatic flame.")]))
           [("a.py", "Adiabatic flame."); ("b.py", "Adiabatic flame.")]
           "a.py" "Adiabatic flame." eq_refl eq_refl eq_refl).
Defined.

(** ** The restated name of a Matlab file *)

Lemma lower_char_not_upper (c : ascii) : is_upper (PyStr.lower_char c) = false.
Proof. destruct c as [[] [] [] [] [] [] [] []]; vm_compute; reflexivity. Qed.

Lemma lower_without_upper (s : string) : has_upper (PyStr.lower s) = false.
Proof.
  induction s as [| c s IH]; simpl; [reflexivity |].
  rewrite lower_char_not_upper, IH. reflexivity.
Qed.

Lemma replace_underscore_upper (s : string) :
  has_upper (PyStr.replace_char "_" " " s) = has_upper s.
Proof.
  induction s as [| c s IH]; simpl; [reflexivity |].
  destruct (Ascii.eqb c "_") eqn:E.
  - apply Ascii.eqb_eq in E. subst c. simpl. exact IH.
  - simpl. rewrite IH. reflexivity.
Qed.

Lemma prefix_upper (p s : string) :
  String.prefix p s = true -> has_upper p = true -> has_upper s = true.
Proof.
  revert s; induction p as [| a p IH]; intros s; [discriminate 2 |].
  destruct s as [| b s]; simpl; [discriminate |].
  destruct (ascii_dec a b) as [-> | _]; [| discriminate].
  intros Hp Hu. apply orb_true_iff in Hu as [Hu | Hu].
  - rewrite Hu. reflexivity.
  - rewrite (IH s Hp Hu). apply orb_true_r.
Qed.

(** X14.  For a Matlab file whose stem has an upper-case letter the heuristic
    that strips a restated file name never fires, whatever the comment
    says: the comment is compared in lower case with the stem as it is.  The
    summary is then the text of the first comment line. *)
Theorem matlab_summary_with_uppercase_stem :
  forall stem text,
    has_upper stem = true ->
    matlab_summary stem text = matlab_scan (PyStr.lines text) "".
Proof.
  intros stem text Hu. unfold matlab_summary, PyStr.startswith.
  destruct (String.prefix (PyStr.replace_char "_" " " stem)
              (PyStr.replace_char "_" " " (PyStr.lower (matlab_scan (PyStr.lines text) ""))))
    eqn:E; [| reflexivity].
  apply prefix_upper in E; [| rewrite replace_underscore_upper; exact Hu].
  rewrite replace_underscore_upper, lower_without_upper in E. discriminate.
Qed.

Lemma matlab_summary_with_uppercase_stem_witness :
  has_upper "Flame_Demo" = true
  /\ matlab_summary "Flame_Demo" ("% FLAME_DEMO  a flame." +++ PyStr.nl)
     = "FLAME_DEMO  a flame."
  /\ matlab_summary "flame_demo" ("% FLAME_DEMO  a flame." +++ PyStr.nl) = "a flame.".
Proof.
  split; [reflexivity |]. split; [| reflexivity].
  rewrite (matlab_summary_with_uppercase_stem "Flame_Demo"
             ("% FLAME_DEMO  a flame." +++ PyStr.nl) eq_refl).
  reflexivity.
Defined.

(** ** The shape of an embedded notebook *)

Lemma embed_lines_shape w p dir c (ls : list string) :
  forall ls',
    embed_lines w p dir c ls = Ok ls' ->
    Forall2 (fun s s' => PyStr.contains "img" s = false ->
                         PyStr.contains "![" s = false -> s' = s) ls ls'.
Proof.
  induction ls as [| s r IH]; intros ls' H.
  - inversion H. constructor.
  - cbn [embed_lines] in H.
    destruct (embed_line w p dir c s) as [s' | e] eqn:E1; [| discriminate].
    cbn [rbind] in H.
    destruct (embed_lines w p dir c r) as [r' | e] eqn:E2; [| discriminate].
    cbn [rbind] in H. inversion H; subst. constructor; [| apply IH; reflexivity].
    intros H1 H2. unfold embed_line in E1. rewrite H1, H2 in E1. inversion E1. reflexivity.
Qed.

Lemma same_lines (ls : list string) :
  Forall2 (fun s s' => PyStr.contains "img" s = false ->
                       PyStr.contains "![" s = false -> s' = s) ls ls.
Proof. induction ls; constructor; auto. Qed.

(** X15.  Embedding the images keeps the shape of the document: the cells come
    back in the same number and order, each with its type, attachments and
    other fields, and with as many lines as before; a line with neither
    [img] nor [![] in it is unchanged, and so is every cell that is not a
    markdown cell. *)
Theorem embedding_keeps_document_shape :
  forall w p dir cs doc cs' d,
    embed_cells w p dir cs doc = Ok (cs', d) ->
    Forall2 same_shape cs cs'
    /\ map (fun c => length (source c)) cs' = map (fun c => length (source c)) cs.
Proof.
  intros w p dir cs.
  assert (Hshape : forall doc cs' d, embed_cells w p dir cs doc = Ok (cs', d) ->
                                     Forall2 same_shape cs cs').
  { induction cs as [| c r IH]; intros doc cs' d H.
    - inversion H. constructor.
    - cbn [embed_cells] in H.
      destruct (negb (String.eqb (cell_type c) "markdown")) eqn:Em.
      + destruct (embed_cells w p dir r doc) as [[r' d'] | e] eqn:Er; [| discriminate].
        cbn [rbind fst snd] in H. inversion H; subst. constructor; [| eapply IH; eauto].
        unfold same_shape. split; [reflexivity |]. split; [reflexivity |].
        split; [reflexivity |]. split; [apply same_lines | reflexivity].
      + destruct (if PyStr.is_empty doc then first_line_summary c else Ok doc)
          as [doc1 | e]; [| discriminate].
        cbn [rbind] in H.
        destruct (embed_lines w p dir c (source c)) as [src | e] eqn:El; [| discriminate].
        cbn [rbind] in H.
        destruct (embed_cells w p dir r doc1) as [[r' d'] | e] eqn:Er; [| discriminate].
        cbn [rbind fst snd] in H. inversion H; subst. constructor; [| eapply IH; eauto].
        unfold same_shape. cbn [cell_type attachments cell_other source].
        split; [reflexivity |]. split; [reflexivity |]. split; [reflexivity |].
        split; [eapply embed_lines_shape; exact El |].
        intros Hne. apply negb_false_iff, String.eqb_eq in Em. contradiction. }
  intros doc cs' d H. pose proof (Hshape doc cs' d H) as HF. split; [exact HF |].
  clear H Hshape. induction HF as [| c c' l l' Hc _ IH]; [reflexivity |].
  simpl. rewrite IH. f_equal. destruct Hc as (_ & _ & _ & Hl & _).
  symmetry. eapply Forall2_length; eauto.
Qed.

Lemma embedding_keeps_document_shape_witness :
  exists out,
    embed_cells (jupyter_world [md_img_line] true) j_root j_thermo
      (cells (notebook_of [md_img_line])) "" = Ok out
    /\ snd out = "Intro"
    /\ map (fun c => length (source c)) (fst out) = [1; 3].
Proof.
  eexists (_, _). split; [vm_compute; reflexivity |]. split; [reflexivity |].
  exact (proj2 (embedding_keeps_document_shape (jupyter_world [md_img_line] true) j_root j_thermo
                  (cells (notebook_of [md_img_line])) "" _ _ eq_refl)).
Defined.

(** ** The categories of a Jupyter folder *)

Lemma rfold_each {S X} (P : S -> Prop) (Q : X -> Prop) (f : S -> X -> result S) :
  (forall s x s', P s -> f s x = Ok s' -> P s' /\ Q x) ->
  forall l s s', P s -> rfold f l s = Ok s' -> P s' /\ Forall Q l.
Proof.
  intros Hf l. induction l as [| x l IH]; simpl; intros s s' Hs H.
  - inversion H; subst. split; [exact Hs | constructor].
  - destruct (f s x) as [s1 | e] eqn:E; simpl in H; [| discriminate].
    destruct (Hf _ _ _ Hs E) as [Hs1 Hx].
    destruct (IH _ _ Hs1 H) as [Hs' Hl]. split; [exact Hs' | constructor; assumption].
Qed.

Lemma jupyter_category_known w kw p exf st entry st' :
  jupyter_category w kw p exf st entry = Ok st' ->
  map fst (fst (fst st')) = map fst (fst (fst st))
  /\ (jupyter_directory w (PyPath.child p entry) = true ->
      PyStr.mem (PyPath.stem (PyPath.child p entry)) (map fst (fst (fst st))) = true).
Proof.
  unfold jupyter_category, jupyter_directory.
  destruct (fs_is_dir w (PyPath.child p entry)); cbn [negb orb andb];
    [| intros H; inversion H; subst; split; [reflexivity | discriminate]].
  destruct (PyStr.startswith (PyPath.name (PyPath.child p entry)) "."); cbn [negb orb andb];
    [intros H; inversion H; subst; split; [reflexivity | discriminate] |].
  destruct (PyStr.mem (PyPath.suffix (PyPath.child p entry)) ignored_extensions);
    cbn [negb orb andb];
    [intros H; inversion H; subst; split; [reflexivity | discriminate] |].
  destruct (fs_listdir w (PyPath.child p entry)) as [entries | e]; [| discriminate].
  cbn [rbind].
  destruct (rfold _ entries _) as [fs | e]; [| discriminate]. cbn [rbind].
  destruct (dict_item (PyPath.stem (PyPath.child p entry)) (fst (fst st))) as [c | e] eqn:Ec;
    [| discriminate].
  cbn [rbind]. intros H. inversion H; subst. cbn [fst]. split.
  - apply (dict_set_keys _ _ c). exact Ec.
  - intros _. apply dict_item_get in Ec. eapply dict_get_mem; eauto.
Qed.

(** X16.  A Jupyter folder is collected only when every category directory in
    it is one of [thermo], [reactors] and [flames]: the categories of the
    index are these three whatever the folder holds, and a directory with
    another name, not hidden and without an ignored suffix, makes the
    collection raise. *)
Theorem jupyter_categories_are_fixed :
  forall w kw inf exf doc st,
    jupyter_collect w kw inf exf doc = Ok st ->
    map fst (fst (fst st)) = ["thermo"; "reactors"; "flames"]
    /\ forall entries entry,
        fs_listdir w (PyPath.of_str inf) = Ok entries ->
        In entry entries ->
        jupyter_directory w (PyPath.child (PyPath.of_str inf) entry) = true ->
        In (PyPath.stem (PyPath.child (PyPath.of_str inf) entry))
           ["thermo"; "reactors"; "flames"].
Proof.
  intros w kw inf exf doc st. unfold jupyter_collect.
  destruct (fs_listdir w (PyPath.of_str inf)) as [entries | e]; [| discriminate].
  cbn [rbind]. intros H.
  destruct (rfold_each
              (fun s => map fst (fst (fst s)) = ["thermo"; "reactors"; "flames"])
              (fun entry => jupyter_directory w (PyPath.child (PyPath.of_str inf) entry) = true ->
                            In (PyPath.stem (PyPath.child (PyPath.of_str inf) entry))
                               ["thermo"; "reactors"; "flames"])
              (jupyter_category w kw (PyPath.of_str inf) exf)) with (l := entries)
              (s := (jupyter_headers, @nil PyPath.PurePath, doc)) (s' := st) as [Hk Hall].
  - intros s x s' Hs Hx. apply jupyter_category_known in Hx as [Hkeys Hmem].
    cbv beta in *. split; [exact (eq_trans Hkeys Hs) |].
    intros Hd. apply mem_In. specialize (Hmem Hd).
    refine (eq_trans _ Hmem). f_equal. symmetry. exact Hs.
  - reflexivity.
  - exact H.
  - split; [exact Hk |]. intros entries0 entry E Hin. inversion E; subst entries0.
    rewrite Forall_forall in Hall. apply Hall. exact Hin.
Qed.

Lemma jupyter_categories_are_fixed_witness :
  exists st,
    jupyter_collect (jupyter_world [] true) (make_kw jupyter_site) "/ex/j" "examples/jupyter" None
    = Ok st
    /\ map fst (fst (fst st)) = ["thermo"; "reactors"; "flames"]
    /\ jupyter_collect jupyter_world_kinetics (make_kw jupyter_site) "/ex/j" "examples/jupyter"
         None = Raise (KeyError "kinetics").
Proof.
  eexists. split; [vm_compute; reflexivity |]. split; [| reflexivity].
  exact (proj1 (jupyter_categories_are_fixed (jupyter_world [] true) (make_kw jupyter_site)
                  "/ex/j" "examples/jupyter" None _ eq_refl)).
Defined.

(** ** What every yielded task looks like *)

Lemma python_file_tasks w kw u2 deps inf exf st (f : PyPath.PurePath) t :
  In t (fst (python_file w kw u2 deps inf exf st f)) ->
  exists html, t = python_html_task kw u2 deps inf exf f html \/ t = python_copy_task kw exf f.
Proof.
  destruct (python_file_cases w kw u2 deps inf exf st f)
    as [(e & E) | (h1 & text & body & d & h2 & html & _ & _ & _ & _ & _ & _ & E)];
    rewrite E; simpl; [intros [] |].
  intros [<- | [<- | []]]; exists html; auto.
Qed.

Lemma python_folder_tasks w site kw u inf exf doc t :
  In t (fst (gen_python w site kw u inf exf doc)) ->
  (exists f html,
      t = python_html_task kw (python_uptodate2 w u inf) (template_deps site "examples.tmpl")
            inf exf f html
      \/ t = python_copy_task kw exf f)
  \/ exists h, t = index_task "python" (python_index_name kw exf)
                     (template_deps site "python-example-index.tmpl") h inf exf
                     (python_uptodate2 w u inf).
Proof.
  rewrite gen_python_yields. intros H. apply in_app_or in H as [H | H].
  - left. unfold python_collect in H.
    refine (in_gfold
              (fun t0 => exists f html,
                   t0 = python_html_task kw (python_uptodate2 w u inf)
                          (template_deps site "examples.tmpl") inf exf f html
                   \/ t0 = python_copy_task kw exf f)
              _ _ _ _ _ H).
    intros s x t0 Hin. apply python_file_tasks in Hin as (html & Hin). eauto.
  - right. destruct (snd (python_collect w site kw u inf exf doc)) as [st | e]; [| destruct H].
    destruct H as [<- | []]. eauto.
Qed.

Lemma folder_tasks_well_formed w site kw u doc entry t :
  In t (fst (gen_folder w site kw u doc entry)) -> well_formed_task t.
Proof.
  unfold gen_folder. destruct (kind_of (snd entry)) as [[ | | ] |].
  - intros H. apply python_folder_tasks in H as [(f & html & [-> | ->]) | (h & ->)];
      (split; [reflexivity | right; eexists _, _; repeat split; reflexivity]).
  - rewrite gen_matlab_yields. destruct (matlab_collect w (fst entry) doc); [| intros []].
    intros [<- | []]. split; [reflexivity | right; eexists _, _; repeat split; reflexivity].
  - rewrite gen_jupyter_yields.
    destruct (jupyter_collect w kw (fst entry) (snd entry) doc); [| intros []].
    intros [<- | []]. split; [reflexivity | right; eexists _, _; repeat split; reflexivity].
  - intros [].
Qed.

(** X17.  Whatever the folders hold and wherever generation ends, every task the
    plugin yields has the plugin's name as [basename], and every task but
    the group task has a name, exactly one target, which is that name,
    exactly one action, and is cleaned. *)
Theorem yielded_tasks_are_well_formed :
  forall w site t, In t (fst (run w site)) -> well_formed_task t.
Proof.
  intros w site t. unfold run, gen_tasks. rewrite gbind_gyield. cbn [fst].
  intros [<- | H]; [split; [reflexivity | left; reflexivity] |].
  apply in_gbind in H as [[] | (u & _ & H)].
  refine (in_gfold well_formed_task _ _ _ _ _ H).
  intros s x t0. apply folder_tasks_well_formed.
Qed.

Lemma yielded_tasks_are_well_formed_witness :
  exists t,
    In t (fst (run python_world_documented python_site))
    /\ t_targets t = ["output/examples/python/index.html"]
    /\ well_formed_task t.
Proof.
  exists (last (fst (run python_world_documented python_site)) group_task).
  assert (Hin : In (last (fst (run python_world_documented python_site)) group_task)
                   (fst (run python_world_documented python_site)))
    by (vm_compute; auto 10).
  split; [exact Hin |]. split; [reflexivity |].
  exact (yielded_tasks_are_well_formed python_world_documented python_site _ Hin).
Defined.

(** ** What the fingerprints of a Python folder hold *)

Lemma folder_uptodate_lookup (u : list (string * uval)) (h : headers) (files : list string) :
  dict_get "f" (folder_uptodate u h files) = Some (UList files)
  /\ dict_get "d" (folder_uptodate u h files) = Some (UKeys (map fst h))
  /\ forall k, k <> "d" -> k <> "f" -> dict_get k (folder_uptodate u h files) = dict_get k u.
Proof.
  unfold folder_uptodate. split; [apply dict_get_set_same |]. split.
  - rewrite dict_get_set_other by discriminate. apply dict_get_set_same.
  - intros k Hd Hf. rewrite !dict_get_set_other by assumption. reflexivity.
Qed.

(** X18.  In a Python folder the copy tasks carry no fingerprint and every other
    task carries exactly one, and that one holds, under [f], the list of all
    the files of the folder, under [d] the seven category keys, and under
    any other key what the site-wide dictionary holds: a file added to the
    folder changes the fingerprint of every listing page and of the index. *)
Theorem python_fingerprints_hold_the_file_list :
  forall w site kw u inf exf doc t,
    In t (fst (gen_python w site kw u inf exf doc)) ->
    length (t_uptodate t) = (if is_copy_task t then 0 else 1)
    /\ forall cc, In cc (t_uptodate t) ->
         dict_get "f" (cc_config cc) = Some (UList (map PyPath.to_str (python_examples w inf)))
         /\ dict_get "d" (cc_config cc)
            = Some (UKeys ["thermo"; "kinetics"; "transport"; "reactors"; "onedim";
                           "multiphase"; "surface_chemistry"])
         /\ forall k, k <> "d" -> k <> "f" -> dict_get k (cc_config cc) = dict_get k u.
Proof.
  intros w site kw u inf exf doc t H.
  pose proof (folder_uptodate_lookup u python_headers
                (map PyPath.to_str (python_examples w inf))) as Hl.
  apply python_folder_tasks in H as [(f & html & [-> | ->]) | (h & ->)].
  - split; [reflexivity |]. intros cc [<- | []]. exact Hl.
  - split; [reflexivity |]. intros cc [].
  - split; [reflexivity |]. intros cc [<- | []]. exact Hl.
Qed.

Lemma python_fingerprints_hold_the_file_list_witness :
  exists t,
    In t (fst (gen_python python_world_documented python_site (make_kw python_site)
                 (site_uptodate python_site (make_kw python_site))
                 "ex/py" "examples/python" None))
    /\ t_targets t = ["output/examples/python/thermo/a.py.html"]
    /\ length (t_uptodate t) = 1.
Proof.
  exists (hd group_task
            (fst (gen_python python_world_documented python_site (make_kw python_site)
                    (site_uptodate python_site (make_kw python_site))
                    "ex/py" "examples/python" None))).
  assert (Hin : In (hd group_task
                      (fst (gen_python python_world_documented python_site (make_kw python_site)
                              (site_uptodate python_site (make_kw python_site))
                              "ex/py" "examples/python" None)))
                   (fst (gen_python python_world_documented python_site (make_kw python_site)
                           (site_uptodate python_site (make_kw python_site))
                           "ex/py" "examples/python" None)))
    by (vm_compute; auto 10).
  split; [exact Hin |]. split; [reflexivity |].
  exact (proj1 (python_fingerprints_hold_the_file_list _ _ _ _ _ _ _ _ Hin)).
Defined.

(** ** The files of a Matlab folder *)

Lemma dict_get_set_some {V} (k n : string) (v : V) (d : list (string * V)) :
  (exists x, dict_get n d = Some x) -> exists x, dict_get n (dict_set k v d) = Some x.
Proof.
  intros (x & Hx). destruct (String.string_dec n k) as [-> | Hne].
  - exists v. apply dict_get_set_same.
  - exists x. rewrite dict_get_set_other by exact Hne. exact Hx.
Qed.

Lemma matlab_loop_files w p (entries : list string) :
  forall st st',
    rfold (matlab_file w p) entries st = Ok st' ->
    fst (fst st') = fst (fst st) ++ map (PyPath.child p) (matlab_kept p entries)
    /\ (forall n, (exists d, dict_get n (snd (fst st)) = Some d) ->
                  exists d, dict_get n (snd (fst st')) = Some d)
    /\ forall e, In e (matlab_kept p entries) ->
                 (exists text, fs_read w (PyPath.child p e) = Ok text)
                 /\ exists d, dict_get (PyPath.name (PyPath.child p e)) (snd (fst st')) = Some d.
Proof.
  induction entries as [| e r IH]; intros st st' H.
  - inversion H; subst. simpl. rewrite app_nil_r. repeat split; auto; contradiction.
  - cbn [rfold] in H. unfold matlab_file at 1 in H. unfold matlab_kept. cbn [filter].
    fold (matlab_kept p r).
    destruct (matlab_skipped (PyPath.child p e)) eqn:Ek; cbn [negb].
    + cbn [rbind] in H. exact (IH _ _ H).
    + destruct (fs_read w (PyPath.child p e)) as [text | err] eqn:Er; [| discriminate].
      cbn [rbind] in H. apply IH in H as (Hf & Hs & Hk). cbn [fst snd] in Hf, Hs.
      split; [| split].
      * rewrite Hf, <- app_assoc. reflexivity.
      * intros n Hn. apply Hs. apply dict_get_set_some. exact Hn.
      * intros e0 [<- | Hin]; [| apply Hk; exact Hin].
        split; [eexists; exact Er |]. apply Hs. eexists. apply dict_get_set_same.
Qed.

(** X19.  The files of a Matlab folder are exactly the entries of the input
    folder that pass the two filters of the discovery loop, in the order of
    the listing; each of them has been read, and each has a summary recorded
    under its name. *)
Theorem matlab_collect_keeps_the_filtered_entries :
  forall w inf doc entries st,
    fs_listdir w (PyPath.of_str inf) = Ok entries ->
    matlab_collect w inf doc = Ok st ->
    fst (fst st) = map (PyPath.child (PyPath.of_str inf)) (matlab_kept (PyPath.of_str inf) entries)
    /\ forall e, In e (matlab_kept (PyPath.of_str inf) entries) ->
                 (exists text, fs_read w (PyPath.child (PyPath.of_str inf) e) = Ok text)
                 /\ exists d, dict_get (PyPath.name (PyPath.child (PyPath.of_str inf) e))
                                (snd (fst st)) = Some d.
Proof.
  intros w inf doc entries st Hl H. unfold matlab_collect in H. rewrite Hl in H.
  cbn [rbind] in H. apply matlab_loop_files in H as (Hf & _ & Hk).
  split; [exact Hf | exact Hk].
Qed.

Lemma matlab_collect_keeps_the_filtered_entries_witness :
  matlab_kept (PyPath.of_str "ex/m") ["README"; "flame_demo.m"; "test_all.m"] = ["flame_demo.m"]
  /\ exists st,
      matlab_collect matlab_world "ex/m" None = Ok st
      /\ fst (fst st) = [PyPath.of_str "ex/m/flame_demo.m"].
Proof.
  split; [reflexivity |]. eexists. split; [reflexivity |].
  exact (proj1 (matlab_collect_keeps_the_filtered_entries matlab_world "ex/m" None
                  ["flame_demo.m"] _ eq_refl eq_refl)).
Defined.

(** ** The site-wide fingerprint *)

Lemma fold_set_untouched {A} (key : A -> string) (val : A -> uval) (l : list A) :
  forall u k,
    (forall a, In a l -> key a <> k) ->
    dict_get k (fold_left (fun u a => dict_set (key a) (val a) u) l u) = dict_get k u.
Proof.
  induction l as [| x r IH]; intros u k H; [reflexivity |].
  simpl. rewrite IH by (intros a Ha; apply H; right; exact Ha).
  apply dict_get_set_other. intros E. apply (H x); [left; reflexivity | symmetry; exact E].
Qed.

Lemma fold_set_written {A} (key : A -> string) (val : A -> uval) (l : list A) :
  forall u a,
    In a l ->
    (forall b, In b l -> key b = key a -> val b = val a) ->
    dict_get (key a) (fold_left (fun u a => dict_set (key a) (val a) u) l u) = Some (val a).
Proof.
  induction l as [| x r IH] using rev_ind; intros u a Hin Hsame; [destruct Hin |].
  rewrite fold_left_app. simpl.
  destruct (String.string_dec (key a) (key x)) as [E | Hne].
  - rewrite E, dict_get_set_same. f_equal. apply Hsame; [| symmetry; exact E].
    apply in_or_app. right. left. reflexivity.
  - rewrite dict_get_set_other by exact Hne. apply IH.
    + apply in_app_or in Hin as [Hin | [<- | []]]; [exact Hin | contradiction Hne; reflexivity].
    + intros b Hb. apply Hsame. apply in_or_app. left. exact Hb.
Qed.

Lemma append_inj_l (a x y : string) : a +++ x = a +++ y -> x = y.
Proof. induction a as [| c a IH]; simpl; [auto |]. intros H. inversion H. auto. Qed.

Lemma append_inj_r (b x : string) : forall y, x +++ b = y +++ b -> x = y.
Proof.
  induction x as [| c x IH]; intros [| d y] H; simpl in H.
  - reflexivity.
  - apply (f_equal String.length) in H. simpl in H. rewrite length_append in H. lia.
  - apply (f_equal String.length) in H. simpl in H. rewrite length_append in H. lia.
  - inversion H. f_equal. apply IH. assumption.
Qed.

Lemma hook_key_inj (k k' : string) : hook_key k = hook_key k' -> k = k'.
Proof.
  unfold hook_key. intros H.
  apply append_inj_l in H. apply append_inj_r in H. exact H.
Qed.

Lemma hook_key_bar (k : string) : exists r, hook_key k = String "|" r.
Proof. unfold hook_key. simpl. eexists. reflexivity. Qed.

Lemma context_uptodate_c (site : Site) (kw : Kw) :
  dict_get "c" (context_uptodate site kw)
  = if PyStr.mem "c" (GLOBAL_CONTEXT_TRANSLATABLE site)
    then Some (UText (context_call site "c" (default_lang kw)))
    else Some (UContext (GLOBAL_CONTEXT site)).
Proof.
  unfold context_uptodate. cbv zeta.
  destruct (PyStr.mem "c" (GLOBAL_CONTEXT_TRANSLATABLE site)) eqn:E.
  - apply mem_In in E.
    exact (fold_set_written (fun k0 => k0)
             (fun k0 => UText (context_call site k0 (default_lang kw)))
             (GLOBAL_CONTEXT_TRANSLATABLE site) _ "c" E
             (fun b _ Eb => f_equal (fun k0 => UText (context_call site k0 (default_lang kw))) Eb)).
  - assert (Hfree : ~ In "c" (GLOBAL_CONTEXT_TRANSLATABLE site))
      by (intros Hin; apply mem_In in Hin; rewrite Hin in E; discriminate).
    rewrite (fold_set_untouched (fun k0 => k0)
               (fun k0 => UText (context_call site k0 (default_lang kw))))
      by (intros a Ha Ea; apply Hfree; rewrite <- Ea; exact Ha).
    rewrite (fold_set_untouched (fun kv => hook_key (fst kv)) (fun kv => UText (snd kv)))
      by (intros a _; destruct (hook_key_bar (fst a)) as (r & Er); rewrite Er; discriminate).
    reflexivity.
Qed.

(** X20.  The site-wide fingerprint dictionary is built exactly when [c] is
    not a translatable key.  When it is one, the entry [c] holds a text by
    the time the navigation links are read from it, the construction raises
    [TypeError], and generation ends after the group task.  Otherwise the
    dictionary holds: the plugin's [kw] under [kw]; the navigation links for
    the default language under [nav_links]; the global context under [c];
    for every translatable key other than [nav_links] and [kw], its value
    for the default language; and for every template hook, its dependencies
    under [||template_hooks|name||], unless a translatable key has that
    very text. *)
Theorem site_fingerprint_contents :
  forall site kw,
    (In "c" (GLOBAL_CONTEXT_TRANSLATABLE site) ->
     base_uptodate site kw = Raise TypeError
     /\ forall w, run w site = ([group_task], Raise TypeError))
    /\ (~ In "c" (GLOBAL_CONTEXT_TRANSLATABLE site) ->
        exists u,
          base_uptodate site kw = Ok u
          /\ dict_get "kw" u = Some (UKw kw)
          /\ dict_get "nav_links" u
             = Some (UText (context_call site "navigation_links" (default_lang kw)))
          /\ dict_get "c" u = Some (UContext (GLOBAL_CONTEXT site))
          /\ (forall k, In k (GLOBAL_CONTEXT_TRANSLATABLE site) ->
                        k <> "nav_links" -> k <> "kw" ->
                        dict_get k u = Some (UText (context_call site k (default_lang kw))))
          /\ (forall k v, In (k, v) (template_hooks site) ->
                          (forall v', In (k, v') (template_hooks site) -> v' = v) ->
                          ~ In (hook_key k) (GLOBAL_CONTEXT_TRANSLATABLE site) ->
                          dict_get (hook_key k) u = Some (UText v))).
Proof.
  intros site kw. split.
  - intros Hc.
    assert (Hraise : forall kw0, base_uptodate site kw0 = Raise TypeError).
    { intros kw0. unfold base_uptodate, navigation_links. cbv zeta.
      rewrite context_uptodate_c. apply mem_In in Hc. rewrite Hc. reflexivity. }
    split; [apply Hraise |].
    intros w. unfold run, gen_tasks. rewrite gbind_gyield.
    change (fst (set_site site)) with (make_kw site). rewrite Hraise. reflexivity.
  - intros Hfree.
    assert (Hmem : PyStr.mem "c" (GLOBAL_CONTEXT_TRANSLATABLE site) = false)
      by (apply mem_not_In; exact Hfree).
    eexists. split.
    { unfold base_uptodate, navigation_links. cbv zeta.
      rewrite context_uptodate_c, Hmem. reflexivity. }
    split; [apply dict_get_set_same |].
    split; [rewrite dict_get_set_other by discriminate; apply dict_get_set_same |].
    split; [rewrite !dict_get_set_other by discriminate;
            rewrite context_uptodate_c, Hmem; reflexivity |].
    split.
    + intros k Hin Hn Hk. rewrite !dict_get_set_other by assumption.
      exact (fold_set_written (fun k0 => k0)
               (fun k0 => UText (context_call site k0 (default_lang kw)))
               (GLOBAL_CONTEXT_TRANSLATABLE site) _ k Hin
               (fun b _ E => f_equal (fun k0 => UText (context_call site k0 (default_lang kw))) E)).
    + intros k v Hin Hsame Hnot. destruct (hook_key_bar k) as (r & Er).
      rewrite !dict_get_set_other by (rewrite Er; discriminate).
      unfold context_uptodate. cbv zeta.
      rewrite (fold_set_untouched (fun k0 => k0)
                 (fun k0 => UText (context_call site k0 (default_lang kw))))
        by (intros a Ha E; apply Hnot; rewrite <- E; exact Ha).
      refine (fold_set_written (fun kv => hook_key (fst kv)) (fun kv => UText (snd kv))
                (template_hooks site) _ (k, v) Hin _).
      intros [k' v'] Hb E. simpl in *. apply hook_key_inj in E. subst k'.
      rewrite (Hsame v' Hb). reflexivity.
Qed.

Lemma site_fingerprint_contents_witness :
  (In "c" (GLOBAL_CONTEXT_TRANSLATABLE translatable_c_site)
   /\ run python_world_documented translatable_c_site = ([group_task], Raise TypeError))
  /\ (~ In "c" (GLOBAL_CONTEXT_TRANSLATABLE python_site)
      /\ exists u, base_uptodate python_site (make_kw python_site) = Ok u
                   /\ dict_get "blog_title" u = Some (UText "blog_title@en")).
Proof.
  assert (Hc : In "c" (GLOBAL_CONTEXT_TRANSLATABLE translatable_c_site))
    by (right; left; reflexivity).
  assert (Hfree : ~ In "c" (GLOBAL_CONTEXT_TRANSLATABLE python_site))
    by (intros [E | []]; discriminate E).
  split.
  - split; [exact Hc |].
    exact (proj2 (proj1 (site_fingerprint_contents translatable_c_site
                           (make_kw translatable_c_site)) Hc) python_world_documented).
  - split; [exact Hfree |].
    destruct (proj2 (site_fingerprint_contents python_site (make_kw python_site)) Hfree)
      as (u & Hu & _ & _ & _ & Ht & _).
    exists u. split; [exact Hu |].
    apply (Ht "blog_title"); [left; reflexivity | discriminate | discriminate].
Defined.

(** ** A Jupyter folder with a notebook *)

Lemma of_str_entry (s : string) : plain_entry s = true -> PyPath.of_str s = PyPath.mkPath "" [s].
Proof.
  unfold plain_entry. intros H. apply andb_true_iff in H as [Hs Hk].
  apply negb_true_iff in Hs. unfold PyPath.of_str. rewrite (root_of_plain s Hs).
  unfold has_slash in Hs. rewrite (split_char_plain _ _ Hs). cbn [filter]. rewrite Hk.
  reflexivity.
Qed.

Lemma join_valid_root (p q : PyPath.PurePath) :
  valid_root (PyPath.p_root p) -> valid_root (PyPath.p_root q) ->
  valid_root (PyPath.p_root (PyPath.join p q)).
Proof. unfold PyPath.join. destruct (PyStr.is_empty (PyPath.p_root q)); auto. Qed.

Lemma cache_file_parts (cf exf cat nm : string) :
  plain_entry nm = true ->
  exists root X,
    PyPath.joinpath (PyPath.of_str cf) [exf; cat; nm] = PyPath.mkPath root (X ++ [nm])
    /\ valid_root root.
Proof.
  intros Hn. unfold PyPath.joinpath. cbn [fold_left]. rewrite (of_str_entry nm Hn).
  remember (PyPath.join (PyPath.join (PyPath.of_str cf) (PyPath.of_str exf)) (PyPath.of_str cat))
    as acc eqn:Ea.
  exists (PyPath.p_root acc), (PyPath.p_parts acc). split; [reflexivity |].
  subst acc. repeat apply join_valid_root; apply root_of_cases.
Qed.

Lemma path_named_ds_store (root : string) (X : list string) (nm : string) :
  valid_root root ->
  String.eqb (PyPath.to_str (PyPath.mkPath root (X ++ [nm]))) ".DS_Store" = true ->
  nm = ".DS_Store".
Proof.
  unfold PyPath.to_str. simpl PyPath.p_parts. simpl PyPath.p_root.
  intros [-> | [-> | ->]]; [| simpl; discriminate | simpl; discriminate].
  destruct X as [| x X].
  - simpl. intros H. apply String.eqb_eq in H. exact H.
  - change ((x :: X) ++ [nm]) with (x :: X ++ [nm]). cbv iota.
    change ("" +++ String.concat "/" (x :: X ++ [nm]))
      with (String.concat "/" (x :: X ++ [nm])).
    intros H. apply String.eqb_eq in H.
    pose proof (concat_with_slash x X nm) as Hs. rewrite H in Hs. discriminate.
Qed.

Lemma cache_file_listed (d : PyPath.PurePath) (cf exf cat nm : string) :
  plain_entry nm = true ->
  PyStr.mem (PyPath.suffix (PyPath.child d nm)) ignored_extensions = false ->
  String.eqb (PyPath.name (PyPath.child d nm)) ".DS_Store" = false ->
  listing_skipped (PyPath.joinpath (PyPath.of_str cf) [exf; cat; nm]) = false.
Proof.
  intros Hn Hs Hd. destruct (cache_file_parts cf exf cat nm Hn) as (root & X & -> & Hr).
  unfold listing_skipped.
  assert (Hname : PyPath.name (PyPath.child d nm) = nm)
    by (unfold PyPath.name, PyPath.child; simpl; apply last_last).
  assert (Hsuffix : PyPath.suffix (PyPath.mkPath root (X ++ [nm]))
                    = PyPath.suffix (PyPath.child d nm)).
  { unfold PyPath.suffix. rewrite Hname. unfold PyPath.name. simpl PyPath.p_parts.
    rewrite last_last. reflexivity. }
  rewrite Hsuffix, Hs, orb_false_r.
  destruct (String.eqb (PyPath.to_str _) ".DS_Store") eqn:E; [| reflexivity].
  apply path_named_ds_store in E; [| exact Hr]. rewrite Hname, E in Hd. discriminate.
Qed.

Lemma rfold_invariant_in {S X} (P : S -> Prop) (f : S -> X -> result S) (l : list X) :
  (forall s x s', In x l -> P s -> f s x = Ok s' -> P s') ->
  forall s s', P s -> rfold f l s = Ok s' -> P s'.
Proof.
  induction l as [| x l IH]; simpl; intros Hf s s' Hs H.
  - inversion H; subst; exact Hs.
  - destruct (f s x) as [s1 | e] eqn:E; simpl in H; [| discriminate].
    apply (IH (fun s0 x0 s0' Hin => Hf s0 x0 s0' (or_intror Hin)) s1 s'); [| exact H].
    apply (Hf s x s1); auto.
Qed.

Lemma jupyter_file_kept w kw p dir exf st entry st' :
  plain_entry entry = true ->
  Forall (fun f => listing_skipped f = false) (jf_files st) ->
  jupyter_file w kw p dir exf st entry = Ok st' ->
  Forall (fun f => listing_skipped f = false) (jf_files st').
Proof.
  intros Hn Hst. unfold jupyter_file.
  destruct (PyStr.mem (PyPath.suffix (PyPath.child dir entry)) ignored_extensions) eqn:Es;
    cbn [orb]; [intros H; inversion H; subst; exact Hst |].
  destruct (fs_is_dir w (PyPath.child dir entry));
    [intros H; inversion H; subst; exact Hst |].
  destruct (String.eqb (PyPath.name (PyPath.child dir entry)) ".ipynb_checkpoints");
    cbn [orb]; [intros H; inversion H; subst; exact Hst |].
  destruct (String.eqb (PyPath.name (PyPath.child dir entry)) ".DS_Store") eqn:Ed;
    [intros H; inversion H; subst; exact Hst |].
  destruct (fs_read w _) as [text | e]; [| discriminate]. cbn [rbind].
  destruct (json_loads w text) as [data | e]; [| discriminate]. cbn [rbind].
  destruct (embed_cells w p dir (cells data) "") as [out | e]; [| discriminate]. cbn [rbind].
  destruct (fs_write_json w _ _) as [[] | e]; [| discriminate]. cbn [rbind].
  intros H. inversion H; subst. cbn [jf_files]. apply Forall_app. split; [exact Hst |].
  constructor; [| constructor].
  assert (Hname : PyPath.name (PyPath.child dir entry) = entry)
    by (unfold PyPath.name, PyPath.child; simpl; apply last_last).
  rewrite Hname. apply (cache_file_listed dir); assumption.
Qed.

Lemma jupyter_category_kept w kw p exf st entry st' :
  plain_listings w ->
  Forall (fun f => listing_skipped f = false) (snd (fst st)) ->
  jupyter_category w kw p exf st entry = Ok st' ->
  Forall (fun f => listing_skipped f = false) (snd (fst st')).
Proof.
  intros Hw Hst. unfold jupyter_category.
  destruct (negb (fs_is_dir w (PyPath.child p entry))
            || PyStr.startswith (PyPath.name (PyPath.child p entry)) ".");
    [intros H; inversion H; subst; exact Hst |].
  destruct (PyStr.mem (PyPath.suffix (PyPath.child p entry)) ignored_extensions);
    [intros H; inversion H; subst; exact Hst |].
  destruct (fs_listdir w (PyPath.child p entry)) as [entries | e] eqn:El; [| discriminate].
  cbn [rbind].
  destruct (rfold _ entries _) as [fs | e] eqn:Ef; [| discriminate]. cbn [rbind].
  destruct (dict_item _ _) as [c | e]; [| discriminate]. cbn [rbind].
  intros H. inversion H; subst. cbn [fst snd].
  pose proof (Hw _ _ El) as Hplain. rewrite forallb_forall in Hplain.
  refine (rfold_invariant_in
            (fun s => Forall (fun f => listing_skipped f = false) (jf_files s))
            _ entries _ _ _ _ Ef).
  - intros s x s' Hin Hs Hx. eapply jupyter_file_kept; eauto.
  - exact Hst.
Qed.

Lemma jupyter_collect_kept w kw inf exf doc st :
  plain_listings w ->
  jupyter_collect w kw inf exf doc = Ok st ->
  Forall (fun f => listing_skipped f = false) (snd (fst st)).
Proof.
  intros Hw. unfold jupyter_collect.
  destruct (fs_listdir w (PyPath.of_str inf)) as [entries | e]; [| discriminate].
  cbn [rbind].
  apply (rfold_invariant
           (fun s => Forall (fun f => listing_skipped f = false) (snd (fst s)))).
  - intros s x s' Hs Hx. eapply jupyter_category_kept; eauto.
  - constructor.
Qed.

(** X21.  When directory listings hold plain entry names, the filters at the
    head of the Jupyter listing loop never skip a cached notebook.  So a
    Jupyter folder yields exactly its index task, and generation then
    returns only if no notebook was collected; with at least one notebook it
    ends with [NameError] for [render_listing]. *)
Theorem jupyter_folder_with_notebook_fails :
  forall w site kw u inf exf doc st,
    plain_listings w ->
    jupyter_collect w kw inf exf doc = Ok st ->
    Forall (fun f => listing_skipped f = false) (snd (fst st))
    /\ length (fst (gen_jupyter w site kw u inf exf doc)) = 1
    /\ snd (gen_jupyter w site kw u inf exf doc)
       = match snd (fst st) with
         | [] => Ok (snd st)
         | _ :: _ => Raise (NameError "render_listing")
         end.
Proof.
  intros w site kw u inf exf doc st Hw H.
  pose proof (jupyter_collect_kept w kw inf exf doc st Hw H) as Hk.
  split; [exact Hk |]. split.
  - rewrite gen_jupyter_yields, H. reflexivity.
  - unfold gen_jupyter. rewrite H, gbind_glift_Ok, gbind_gyield. cbn [snd].
    rewrite jupyter_listing_loop.
    destruct (snd (fst st)) as [| f files]; [reflexivity |].
    inversion Hk as [| ? ? Hf _]; subst. simpl. rewrite Hf. reflexivity.
Qed.

Lemma jupyter_folder_with_notebook_fails_witness :
  plain_listings (jupyter_world [] true)
  /\ snd (gen_jupyter (jupyter_world [] true) jupyter_site (make_kw jupyter_site)
            (site_uptodate jupyter_site (make_kw jupyter_site))
            "/ex/j" "examples/jupyter" None)
     = Raise (NameError "render_listing").
Proof.
  assert (Hw : plain_listings (jupyter_world [] true)).
  { intros d es. unfold jupyter_world, table_world, lookup_or_raise. cbn [fs_listdir tb_dirs].
    cbn [dict_get].
    destruct (String.eqb (PyPath.to_str d) "/ex/j"); [intros H; inversion H; reflexivity |].
    destruct (String.eqb (PyPath.to_str d) "/ex/j/thermo");
      [intros H; inversion H; reflexivity | discriminate]. }
  split; [exact Hw |].
  destruct (jupyter_collect (jupyter_world [] true) (make_kw jupyter_site)
              "/ex/j" "examples/jupyter" None) as [st | e] eqn:E;
    [| vm_compute in E; discriminate E].
  rewrite (proj2 (proj2 (jupyter_folder_with_notebook_fails (jupyter_world [] true) jupyter_site
                           (make_kw jupyter_site)
                           (site_uptodate jupyter_site (make_kw jupyter_site))
                           "/ex/j" "examples/jupyter" None st Hw E))).
  vm_compute in E. inversion E. reflexivity.
Defined.
